(** * ai-research-assistant: the search pipeline and its error contract

    A shallow embedding of the TypeScript services of the repository
    ([services/paperService.ts] in its three revisions,
    [services/geminiService.ts] in its two revisions) and of the Cloudflare
    worker [gemini-proxy/index.js], followed by the theorems that settle the
    properties claimed of them.

    Conventions of the embedding.
    - A JavaScript string is a [string]: the UTF-8 bytes of its text.
      [String.prototype.trim] removes the white space and the line
      terminators of ECMAScript, in the one, two or three bytes each of
      them takes.
    - A value produced by [JSON.parse] is a [json]; [undefined] is the
      [None] of [jsval := option json].  A JSON number is the IEEE 754
      double its literal rounds to, to the nearest and to even on a tie,
      with its zeros and infinities.
    - An [async] function is a computation in the monad [M]: it threads the
      list of outbound calls made so far and the console, and ends in
      [Resolve v] or [Reject t], [t] being the thrown value.
    - The model backend (the SDK's [generateContent], or [fetch]) is an
      arbitrary function of the calls made before and of the request.
    - The wording of a prompt is opaque to every property below: a prompt is
      the template it instantiates ([site], the function that builds it)
      with the values interpolated into it. *)

From Stdlib Require Import String Ascii List ZArith Bool Lia DecimalString.
From Stdlib Require Import Floats.SpecFloat.
Import ListNotations.
Open Scope list_scope.
Open Scope string_scope.

(* ================================================================== *)
(** * JavaScript strings *)

Module JsString.

Definition code (c : ascii) : nat := nat_of_ascii c.

(** White space and line terminators that take one byte: U+0009 to U+000D
    and U+0020. *)
Definition is_ws (c : ascii) : bool :=
  let n := code c in
  ((9 <=? n)%nat && (n <=? 13)%nat) || (n =? 32)%nat.

(** Two bytes: U+00A0, the bytes C2 A0. *)
Definition is_ws2 (c d : ascii) : bool :=
  ((code c =? 194) && (code d =? 160))%nat.

(** Three bytes: U+1680 (E1 9A 80), U+2000 to U+200A (E2 80 80 to
    E2 80 8A), U+2028 and U+2029 (E2 80 A8, E2 80 A9), U+202F (E2 80 AF),
    U+205F (E2 81 9F), U+3000 (E3 80 80) and U+FEFF (EF BB BF). *)
Definition is_ws3 (c d e : ascii) : bool :=
  let '(c, d, e) := (code c, code d, code e) in
  ((c =? 225) && (d =? 154) && (e =? 128)
   || (c =? 226) && (d =? 128)
      && (((128 <=? e) && (e <=? 138)) || (e =? 168) || (e =? 169) || (e =? 175))
   || (c =? 226) && (d =? 129) && (e =? 159)
   || (c =? 227) && (d =? 128) && (e =? 128)
   || (c =? 239) && (d =? 187) && (e =? 191))%nat.

(** What follows the white space character a string starts with, if it
    starts with one. *)
Definition ws_head (s : string) : option string :=
  match s with
  | String c r =>
      if is_ws c then Some r
      else
        match r with
        | String d r1 =>
            if is_ws2 c d then Some r1
            else
              match r1 with
              | String e r2 => if is_ws3 c d e then Some r2 else None
              | EmptyString => None
              end
        | EmptyString => None
        end
  | EmptyString => None
  end.

(** [s.trimStart()] *)
Fixpoint trimStart (s : string) : string :=
  match s with
  | String c r =>
      if is_ws c then trimStart r
      else
        match r with
        | String d r1 =>
            if is_ws2 c d then trimStart r1
            else
              match r1 with
              | String e r2 => if is_ws3 c d e then trimStart r2 else s
              | EmptyString => s
              end
        | EmptyString => s
        end
  | EmptyString => s
  end.

(** A string of white space only. *)
Definition blank (s : string) : bool :=
  match trimStart s with EmptyString => true | _ => false end.

(** [s.trimEnd()]: the string is cut where what is left of it is white
    space only. *)
Fixpoint trimEnd (s : string) : string :=
  match s with
  | EmptyString => EmptyString
  | String c r => if blank s then EmptyString else String c (trimEnd r)
  end.

(** [s.trim()] *)
Definition trim (s : string) : string := trimEnd (trimStart s).

(** Truthiness of a string: [!s] is [negb (truthy s)]. *)
Definition truthy (s : string) : bool :=
  match s with EmptyString => false | _ => true end.

(** [xs.join(sep)] on an array of strings. *)
Fixpoint join (sep : string) (xs : list string) : string :=
  match xs with
  | [] => ""
  | [x] => x
  | x :: r => x ++ sep ++ join sep r
  end.

(** The double quote character, U+0022. *)
Definition dquote : ascii := ascii_of_nat 34.

End JsString.

(* ================================================================== *)
(** * JSON values and [JSON.parse] *)

Module Json.

(** A number: an IEEE 754 double, [JSON.parse] yielding no NaN. *)
Definition number := spec_float.

(** The double nearest to [m * 10 ^ e], for [m >= 0]; [neg] is the sign
    that was written. *)
Definition of_decimal (neg : bool) (m e : Z) : number :=
  match m with
  | Zpos _ =>
      if (0 <=? e)%Z then
        binary_normalize 53 1024 (if neg then - (m * 10 ^ e) else m * 10 ^ e)%Z 0 neg
      else
        let '(q, e', l) := SFdiv_core_binary 53 1024 m 0 (10 ^ (- e))%Z 0 in
        binary_round_aux 53 1024 neg q e' l
  | _ => S754_zero neg
  end.

(** The double of an integer. *)
Definition of_Z (z : Z) : number := binary_normalize 53 1024 z 0 false.

#[warnings="-register-all"] Inductive json :=
| JNull
| JBool (b : bool)
| JNum (n : number)
| JStr (s : string)
| JArr (items : list json)
| JObj (members : list (string * json)).

(** A JavaScript value as these programs see it; [None] is [undefined]. *)
Definition jsval := option json.

(** [ToBoolean]. *)
Definition truthy (v : jsval) : bool :=
  match v with
  | None | Some JNull => false
  | Some (JBool b) => b
  | Some (JNum (S754_zero _)) | Some (JNum S754_nan) => false
  | Some (JNum _) => true
  | Some (JStr s) => JsString.truthy s
  | Some (JArr _) | Some (JObj _) => true
  end.

(** [a || b] *)
Definition or_else (a b : jsval) : jsval := if truthy a then a else b.

Fixpoint assoc (k : string) (l : list (string * json)) : jsval :=
  match l with
  | [] => None
  | (k', v) :: r => if String.eqb k k' then Some v else assoc k r
  end.

(** [v?.k], and [v.k] on a [v] that is neither [null] nor [undefined],
    for the property names these programs read ([output], [text],
    [candidates], [content], [parts], [prompt], [model], [stream],
    [config], [message], [authors], [year], [citationCount]): an own
    property of an object, and nothing on any other value, no prototype
    defining one of those names. *)
Definition prop (v : jsval) (k : string) : jsval :=
  match v with
  | Some (JObj l) => assoc k l
  | _ => None
  end.

(** [v?.[0]]: the first element of an array, the first character of a
    string, an own property named [0] of an object. *)
Definition item0 (v : jsval) : jsval :=
  match v with
  | Some (JArr (x :: _)) => Some x
  | Some (JStr (String c _)) => Some (JStr (String c EmptyString))
  | Some (JObj l) => assoc "0" l
  | _ => None
  end.

(** [Array.isArray] *)
Definition isArray (v : json) : bool :=
  match v with JArr _ => true | _ => false end.

(** ** The parser *)

Definition code (c : ascii) : nat := nat_of_ascii c.

Definition is_json_ws (c : ascii) : bool :=
  let n := code c in
  (n =? 32)%nat || (n =? 9)%nat || (n =? 10)%nat || (n =? 13)%nat.

Definition is_digit (c : ascii) : bool :=
  let n := code c in (48 <=? n)%nat && (n <=? 57)%nat.

Definition digit_val (c : ascii) : Z := Z.of_nat (code c) - 48.

Fixpoint skip_ws (s : string) : string :=
  match s with
  | String c r => if is_json_ws c then skip_ws r else s
  | EmptyString => EmptyString
  end.

(** Reads a maximal run of digits: the value accumulated, the count of
    digits read, the rest. *)
Fixpoint digits (acc : Z) (count : Z) (s : string) : Z * Z * string :=
  match s with
  | String c r =>
      if is_digit c then digits (10 * acc + digit_val c) (count + 1) r
      else (acc, count, s)
  | EmptyString => (acc, count, s)
  end.

Definition starts_with (c : nat) (s : string) : option string :=
  match s with
  | String d r => if (code d =? c)%nat then Some r else None
  | EmptyString => None
  end.

Definition starts_with_any (cs : list nat) (s : string) : option string :=
  match s with
  | String d r => if existsb (Nat.eqb (code d)) cs then Some r else None
  | EmptyString => None
  end.

(** [int frac? exp?], the sign already read: the digits as an integer and
    the power of ten that scales it. *)
Definition parse_unsigned (s : string) : option (Z * Z * string) :=
  match s with
  | EmptyString => None
  | String c r =>
      if negb (is_digit c) then None
      else
        let '(ip, r1) :=
          if (code c =? 48)%nat then (0%Z, r)
          else let '(v, _, r') := digits 0 0 s in (v, r') in
        let frac :=
          match starts_with 46 r1 with
          | Some r2 =>
              let '(v, n, r3) := digits ip 0 r2 in
              if (n =? 0)%Z then None else Some (v, n, r3)
          | None => Some (ip, 0%Z, r1)
          end in
        match frac with
        | None => None
        | Some (m, fd, r3) =>
            match starts_with_any [101; 69]%nat r3 with
            | Some r4 =>
                let '(neg, r5) :=
                  match starts_with 45 r4 with
                  | Some r' => (true, r')
                  | None =>
                      match starts_with 43 r4 with
                      | Some r' => (false, r')
                      | None => (false, r4)
                      end
                  end in
                let '(e, n, r6) := digits 0 0 r5 in
                if (n =? 0)%Z then None
                else Some (m, ((if neg then - e else e) - fd)%Z, r6)
            | None => Some (m, (- fd)%Z, r3)
            end
        end
  end.

Definition parse_number (s : string) : option (number * string) :=
  match starts_with 45 s with
  | Some r =>
      match parse_unsigned r with
      | Some (m, e, r') => Some (of_decimal true m e, r')
      | None => None
      end
  | None =>
      match parse_unsigned s with
      | Some (m, e, r') => Some (of_decimal false m e, r')
      | None => None
      end
  end.

Definition hex_val (c : ascii) : option nat :=
  let n := code c in
  if ((48 <=? n) && (n <=? 57))%nat then Some (n - 48)%nat
  else if ((97 <=? n) && (n <=? 102))%nat then Some (n - 87)%nat
  else if ((65 <=? n) && (n <=? 70))%nat then Some (n - 55)%nat
  else None.

(** The UTF-8 bytes of a code point below U+10000. *)
Definition utf8 (n : nat) : string :=
  let b := ascii_of_nat in
  if (n <? 128)%nat then String (b n) ""
  else if (n <? 2048)%nat then
    String (b (192 + n / 64)) (String (b (128 + n mod 64)) "")
  else
    String (b (224 + n / 4096))
      (String (b (128 + (n / 64) mod 64)) (String (b (128 + n mod 64)) "")).

(** The characters of a string literal after its opening quote.  A
    surrogate escape is encoded on its own, not paired. *)
Fixpoint parse_chars (s : string) : option (string * string) :=
  match s with
  | EmptyString => None
  | String c r =>
      let n := code c in
      if (n =? 34)%nat then Some ("", r)
      else if (n <? 32)%nat then None
      else if (n =? 92)%nat then
        match r with
        | EmptyString => None
        | String e r1 =>
            let k := code e in
            let simple (b : nat) :=
              match parse_chars r1 with
              | Some (t, r') => Some (String (ascii_of_nat b) t, r')
              | None => None
              end in
            if (k =? 34)%nat then simple 34%nat
            else if (k =? 92)%nat then simple 92%nat
            else if (k =? 47)%nat then simple 47%nat
            else if (k =? 98)%nat then simple 8%nat
            else if (k =? 102)%nat then simple 12%nat
            else if (k =? 110)%nat then simple 10%nat
            else if (k =? 114)%nat then simple 13%nat
            else if (k =? 116)%nat then simple 9%nat
            else if (k =? 117)%nat then
              match r1 with
              | String h1 (String h2 (String h3 (String h4 r2))) =>
                  match hex_val h1, hex_val h2, hex_val h3, hex_val h4 with
                  | Some a, Some b, Some c', Some d =>
                      match parse_chars r2 with
                      | Some (t, r') =>
                          Some (utf8 (((a * 16 + b) * 16 + c') * 16 + d) ++ t, r')
                      | None => None
                      end
                  | _, _, _, _ => None
                  end
              | _ => None
              end
            else None
        end
      else
        match parse_chars r with
        | Some (t, r') => Some (String c t, r')
        | None => None
        end
  end.

Definition literal (word : string) (v : json) (s : string)
  : option (json * string) :=
  if String.prefix word s
  then Some (v, substring (String.length word)
                      (String.length s - String.length word) s)
  else None.

(** [JSON.parse] keeps the last of several members with one key. *)
Fixpoint set_member (k : string) (v : json) (l : list (string * json))
  : list (string * json) :=
  match l with
  | [] => [(k, v)]
  | (k', v') :: r =>
      if String.eqb k k' then (k, v) :: r else (k', v') :: set_member k v r
  end.

Fixpoint parse_value (fuel : nat) (s : string) {struct fuel}
  : option (json * string) :=
  match fuel with
  | O => None
  | S f =>
      match skip_ws s with
      | EmptyString => None
      | String c r as s' =>
          let n := code c in
          if (n =? 110)%nat then literal "null" JNull s'
          else if (n =? 116)%nat then literal "true" (JBool true) s'
          else if (n =? 102)%nat then literal "false" (JBool false) s'
          else if (n =? 34)%nat then
            match parse_chars r with
            | Some (t, r') => Some (JStr t, r')
            | None => None
            end
          else if (n =? 91)%nat then
            match starts_with 93 (skip_ws r) with
            | Some r' => Some (JArr [], r')
            | None =>
                match parse_elements f r with
                | Some (l, r') => Some (JArr l, r')
                | None => None
                end
            end
          else if (n =? 123)%nat then
            match starts_with 125 (skip_ws r) with
            | Some r' => Some (JObj [], r')
            | None =>
                match parse_members f r [] with
                | Some (l, r') => Some (JObj l, r')
                | None => None
                end
            end
          else
            match parse_number s' with
            | Some (x, r') => Some (JNum x, r')
            | None => None
            end
      end
  end
with parse_elements (fuel : nat) (s : string) {struct fuel}
  : option (list json * string) :=
  match fuel with
  | O => None
  | S f =>
      match parse_value f s with
      | None => None
      | Some (v, r) =>
          let r1 := skip_ws r in
          match starts_with 44 r1 with
          | Some r2 =>
              match parse_elements f r2 with
              | Some (l, r') => Some (v :: l, r')
              | None => None
              end
          | None =>
              match starts_with 93 r1 with
              | Some r' => Some ([v], r')
              | None => None
              end
          end
      end
  end
with parse_members (fuel : nat) (s : string) (acc : list (string * json))
       {struct fuel} : option (list (string * json) * string) :=
  match fuel with
  | O => None
  | S f =>
      match starts_with 34 (skip_ws s) with
      | None => None
      | Some r0 =>
          match parse_chars r0 with
          | None => None
          | Some (k, r1) =>
              match starts_with 58 (skip_ws r1) with
              | None => None
              | Some r2 =>
                  match parse_value f r2 with
                  | None => None
                  | Some (v, r3) =>
                      let acc' := set_member k v acc in
                      let r4 := skip_ws r3 in
                      match starts_with 44 r4 with
                      | Some r5 => parse_members f r5 acc'
                      | None =>
                          match starts_with 125 r4 with
                          | Some r' => Some (acc', r')
                          | None => None
                          end
                      end
                  end
              end
          end
      end
  end.

(** [JSON.stringify(v)] for a [v] that came out of [JSON.parse], as the
    value its text denotes: an infinity is written [null] and a negative
    zero [0]; every other number is written with the digits that read back
    as itself. *)
Fixpoint stringified (v : json) : json :=
  match v with
  | JNum (S754_infinity _) | JNum S754_nan => JNull
  | JNum (S754_zero _) => JNum (S754_zero false)
  | JArr l => JArr (map stringified l)
  | JObj l => JObj (map (fun kv => (fst kv, stringified (snd kv))) l)
  | _ => v
  end.

(** [JSON.parse(s)]; [None] when it throws its [SyntaxError]. *)
Definition JSON_parse (s : string) : option json :=
  match parse_value (2 * String.length s + 2) s with
  | Some (v, r) =>
      match skip_ws r with
      | EmptyString => Some v
      | _ => None
      end
  | None => None
  end.

End Json.

(* ================================================================== *)
(** * The runtime: thrown values, promises, outbound calls, console *)

Module Js.
Import Json.

(** What a [throw] carries: an instance of [Error] (with the name of its
    class and its message) or any other value. *)
Inductive thrown :=
| JsError (name : string) (message : string)
| NonError (v : jsval).

(** [new Error(message)] *)
Definition Error (message : string) : thrown := JsError "Error" message.

(** [e instanceof Error] *)
Definition instanceofError (e : thrown) : bool :=
  match e with JsError _ _ => true | NonError _ => false end.

(** The engine's own errors.  Their wording is the engine's; every one of
    them is raised inside a [try] whose handler replaces it. *)
Definition TypeError_trim : thrown :=
  JsError "TypeError" "Cannot read properties of undefined (reading 'trim')".
Definition TypeError_not_a_function : thrown :=
  JsError "TypeError" "output.trim is not a function".
Definition TypeError_destructure : thrown :=
  JsError "TypeError" "Cannot destructure property 'prompt' of null".
Definition SyntaxError_JSON : thrown :=
  JsError "SyntaxError" "Unexpected token in JSON".
Definition ReferenceError_process : thrown :=
  JsError "ReferenceError" "process is not defined".

(** How a promise settles. *)
Inductive outcome (A : Type) :=
| Resolve (a : A)
| Reject (t : thrown).
Arguments Resolve {A} a.
Arguments Reject {A} t.

Inductive LogArg :=
| NoArg
| StrArg (s : string)
| ThrownArg (t : thrown).

Record LogEntry := Log { level : string; label : string; arg : LogArg }.

(** The world a call runs in: the outbound requests made so far, oldest
    first, and what was written to the console. *)
Record World (Req : Type) := MkWorld {
  calls : list Req;
  console : list LogEntry
}.
Arguments MkWorld {Req} calls console.
Arguments calls {Req} w.
Arguments console {Req} w.

Definition start {Req : Type} : World Req := MkWorld [] [].

(** The backend answers a request knowing the requests before it. *)
Definition Backend (Req Resp : Type) := list Req -> Req -> outcome Resp.

Definition M (Req A : Type) := World Req -> outcome A * World Req.

Section Monad.
Context {Req : Type}.

Definition ret {A} (a : A) : M Req A := fun w => (Resolve a, w).

Definition throw {A} (t : thrown) : M Req A := fun w => (Reject t, w).

Definition bind {A B} (m : M Req A) (k : A -> M Req B) : M Req B :=
  fun w =>
    match m w with
    | (Resolve a, w') => k a w'
    | (Reject t, w') => (Reject t, w')
    end.

(** [try { m } catch (e) { handler e }] *)
Definition try_catch {A} (m : M Req A) (handler : thrown -> M Req A)
  : M Req A :=
  fun w =>
    match m w with
    | (Resolve a, w') => (Resolve a, w')
    | (Reject t, w') => handler t w'
    end.

(** [console.log], [console.warn], [console.error] *)
Definition console_write (lvl lbl : string) (a : LogArg) : M Req unit :=
  fun w => (Resolve tt, MkWorld (calls w) (console w ++ [Log lvl lbl a])).

(** One outbound call, awaited. *)
Definition invoke {Resp} (backend : Backend Req Resp) (req : Req)
  : M Req Resp :=
  fun w => (backend (calls w) req, MkWorld (calls w ++ [req]) (console w)).

(** [JSON.parse(s)] *)
Definition parse (s : string) : M Req json :=
  match JSON_parse s with
  | Some v => ret v
  | None => throw SyntaxError_JSON
  end.

End Monad.

(** The settled promise and the outbound calls of a run from scratch. *)
Definition result {Req A} (m : M Req A) : outcome A := fst (m start).
Definition requests {Req A} (m : M Req A) : list Req := calls (snd (m start)).

Declare Scope js_scope.
Delimit Scope js_scope with js.
Notation "x <- m ;; k" := (bind m (fun x => k))
  (at level 61, m at next level, right associativity) : js_scope.
Notation "m ;; k" := (bind m (fun _ => k))
  (at level 61, right associativity) : js_scope.

(** [process.env]: [None] where the identifier [process] is not defined,
    otherwise the variables that are set. *)
Definition ProcessEnv := option (list (string * string)).

Fixpoint getenv (k : string) (vars : list (string * string)) : option string :=
  match vars with
  | [] => None
  | (k', v) :: r => if String.eqb k k' then Some v else getenv k r
  end.

(** [!apiKey] for [apiKey : string | undefined] *)
Definition key_missing (apiKey : option string) : bool :=
  match apiKey with
  | Some k => negb (JsString.truthy k)
  | None => true
  end.

End Js.

(* ================================================================== *)
(** * The [@google/genai] client as the services use it *)

Module GenAI.
Import Json Js.

(** [new GoogleGenAI({ apiKey })] *)
Record GoogleGenAI := MkClient { apiKey : string }.

(** [Type.STRING], [Type.NUMBER], [Type.ARRAY], [Type.OBJECT] *)
#[warnings="-register-all"] Inductive Schema :=
| SString
| SNumber
| SArray (items : Schema)
| SObject (properties : list (string * Schema)) (required : list string).

Inductive Config :=
| GoogleSearchTool
| JsonResponse (responseSchema : Schema).

(** A prompt: the function whose template it instantiates and the values
    interpolated, in the order of the template. *)
Record Prompt := MkPrompt { site : string; holes : list json }.

Record GenerateContentParameters := MkParams {
  client : GoogleGenAI;
  model : string;
  contents : Prompt;
  config : Config
}.

Record SafetyRating := MkRating {
  category : option string;
  blocked : option bool
}.

Record PromptFeedback := MkFeedback {
  blockReason : option string;
  safetyRatings : option (list SafetyRating)
}.

Record GenerateContentResponse := MkResponse {
  text : option string;
  promptFeedback : option PromptFeedback
}.

Definition Gateway := Backend GenerateContentParameters GenerateContentResponse.

(** A computation that may call the model. *)
Definition Call (A : Type) : Type := M GenerateContentParameters A.

(** [response.text.trim()], which throws where [text] is undefined. *)
Definition text_trim (response : GenerateContentResponse) : Call string :=
  match text response with
  | Some t => ret (JsString.trim t)
  | None => throw TypeError_trim
  end.

(** [response.promptFeedback && response.promptFeedback.blockReason] *)
Definition block_of (response : GenerateContentResponse)
  : option (string * option (list SafetyRating)) :=
  match promptFeedback response with
  | Some pf =>
      match blockReason pf with
      | Some r => if JsString.truthy r then Some (r, safetyRatings pf) else None
      | None => None
      end
  | None => None
  end.

(** [safetyRatings?.filter(r => r.blocked).map(r => r.category).join(', ')
    || 'N/A'] *)
Definition blockedCategories (ratings : option (list SafetyRating)) : string :=
  match ratings with
  | None => "N/A"
  | Some rs =>
      let names :=
        map (fun r => match category r with Some c => c | None => "" end)
          (filter (fun r => match blocked r with Some b => b | None => false end) rs) in
      let joined := JsString.join ", " names in
      if JsString.truthy joined then joined else "N/A"
  end.

Definition LF : string := String (ascii_of_nat 10) "".

(** The message of the safety-block error of stage 1. *)
Definition safety_message (reason categories : string) : string :=
  "Search failed: The query was blocked for safety reasons." ++ LF
  ++ "Reason: " ++ reason ++ "." ++ LF
  ++ "Categories: " ++ categories ++ ".".

Definition no_text_warning : string :=
  "Stage 1 (Data Gathering) returned no text. This likely means no relevant papers were found on the web for the query.".

(** The [responseSchema] of stage 2. *)
Definition paperSchema : Schema :=
  SArray (SObject
    [("id", SString); ("title", SString); ("authors", SArray SString);
     ("year", SNumber); ("abstract", SString); ("citationCount", SNumber);
     ("tldr", SString)]
    ["id"; "title"; "authors"; "year"; "abstract"; "citationCount"; "tldr"]).

End GenAI.


(* ================================================================== *)
(** * [services/paperService.ts], the revision with [getAi] *)

Module PaperService.
Import Json Js GenAI.
Local Open Scope js_scope.

Definition config_message : string :=
  "Configuration Error: The API_KEY is not available. " ++ LF ++ LF
  ++ "If you have deployed this application, please ensure that the API_KEY environment variable is correctly set in your hosting provider's settings (e.g., Vercel, Netlify). "
  ++ LF ++ LF
  ++ "The application cannot function without the API key.".

Definition format_message : string :=
  "The AI failed to format the search results. This may be a temporary issue.".

Definition unexpected_message : string :=
  "An unexpected error occurred during the paper search.".

(** [getAi]: reads [process.env.API_KEY] under a [try], then checks it. *)
Definition getAi (env : ProcessEnv) : Call GoogleGenAI :=
  apiKey <- try_catch
    (match env with
     | Some vars => ret (getenv "API_KEY" vars)
     | None => throw ReferenceError_process
     end)
    (fun e =>
       console_write "error" "Could not access process.env.API_KEY" (ThrownArg e) ;;
       ret None) ;;
  match apiKey with
  | Some k =>
      if negb (JsString.truthy k) then throw (Error config_message)
      else ret (MkClient k)
  | None => throw (Error config_message)
  end.

Section Pipeline.
Variable generateContent : Gateway.

Definition stage1_request (ai : GoogleGenAI) (query : string)
  : GenerateContentParameters :=
  MkParams ai "gemini-2.5-pro" (MkPrompt "getRawPaperData" [JStr query])
    GoogleSearchTool.

Definition stage2_request (ai : GoogleGenAI) (rawData : string)
  : GenerateContentParameters :=
  MkParams ai "gemini-2.5-flash" (MkPrompt "formatPaperData" [JStr rawData])
    (JsonResponse paperSchema).

(** The [try] block of [getRawPaperData]. *)
Definition getRawPaperData_try (ai : GoogleGenAI) (query : string) : Call string :=
  response <- invoke generateContent (stage1_request ai query) ;;
  match block_of response with
  | Some (blockReason, safetyRatings) =>
      throw (Error (safety_message blockReason (blockedCategories safetyRatings)))
  | None =>
      let text := option_map JsString.trim (text response) in
      match text with
      | Some t =>
          if negb (JsString.truthy t) then
            console_write "warn" no_text_warning NoArg ;;
            ret ""
          else ret t
      | None =>
          console_write "warn" no_text_warning NoArg ;;
          ret ""
      end
  end.

(** Stage 1: gather raw, unstructured data. *)
Definition getRawPaperData (ai : GoogleGenAI) (query : string) : Call string :=
  try_catch (getRawPaperData_try ai query)
    (fun e =>
       console_write "error" "Error in Stage 1 (getRawPaperData):" (ThrownArg e) ;;
       throw e).

(** The [try] block of [formatPaperData]. *)
Definition formatPaperData_try (ai : GoogleGenAI) (rawData : string) : Call json :=
  response <- invoke generateContent (stage2_request ai rawData) ;;
  jsonStr <- text_trim response ;;
  parse jsonStr.

(** Stage 2: parse the raw data into structured JSON.  The result is what
    [JSON.parse] returned, cast to [Paper[]] without a check. *)
Definition formatPaperData (ai : GoogleGenAI) (rawData : string) : Call json :=
  if negb (JsString.truthy (JsString.trim rawData)) then ret (JArr [])
  else
    try_catch (formatPaperData_try ai rawData)
      (fun e =>
         console_write "error" "Error in Stage 2 (formatPaperData):" (ThrownArg e) ;;
         throw (Error format_message)).

(** The [try] block of [searchPapers]. *)
Definition searchPapers_try (ai : GoogleGenAI) (query : string) : Call json :=
  console_write "log" ("Starting two-stage search for: " ++ query) NoArg ;;
  rawData <- getRawPaperData ai query ;;
  papers <- formatPaperData ai rawData ;;
  ret papers.

(** The exported orchestrator. *)
Definition searchPapers (env : ProcessEnv) (query : string) : Call json :=
  ai <- getAi env ;;
  try_catch (searchPapers_try ai query)
    (fun error =>
       console_write "error" "Error in the two-step paper search pipeline:" (ThrownArg error) ;;
       if instanceofError error then throw error
       else throw (Error unexpected_message)).

End Pipeline.
End PaperService.

(* ================================================================== *)
(** * [services/paperService.ts], the revision with a module-level client *)

Module PaperServiceGlobal.
Import Json Js GenAI.
Local Open Scope js_scope.

Definition format_message : string :=
  "The AI failed to format the search results. This may be a temporary issue.".

Definition unexpected_message : string :=
  "An unexpected error occurred during the paper search.".

Section Pipeline.
(** [const ai = new GoogleGenAI({ apiKey: process.env.API_KEY! })], built
    when the module is loaded. *)
Variable ai : GoogleGenAI.
Variable generateContent : Gateway.

Definition stage1_request (query : string) : GenerateContentParameters :=
  MkParams ai "gemini-2.5-pro" (MkPrompt "getRawPaperData" [JStr query])
    GoogleSearchTool.

Definition stage2_request (rawData : string) : GenerateContentParameters :=
  MkParams ai "gemini-2.5-flash" (MkPrompt "formatPaperData" [JStr rawData])
    (JsonResponse paperSchema).

(** The [try] block of [getRawPaperData]. *)
Definition getRawPaperData_try (query : string) : Call string :=
  response <- invoke generateContent (stage1_request query) ;;
  match block_of response with
  | Some (blockReason, safetyRatings) =>
      throw (Error (safety_message blockReason (blockedCategories safetyRatings)))
  | None =>
      let text := option_map JsString.trim (text response) in
      match text with
      | Some t =>
          if negb (JsString.truthy t) then
            console_write "warn" no_text_warning NoArg ;;
            ret ""
          else ret t
      | None =>
          console_write "warn" no_text_warning NoArg ;;
          ret ""
      end
  end.

Definition getRawPaperData (query : string) : Call string :=
  try_catch (getRawPaperData_try query)
    (fun e =>
       console_write "error" "Error in Stage 1 (getRawPaperData):" (ThrownArg e) ;;
       throw e).

(** The [try] block of [formatPaperData]. *)
Definition formatPaperData_try (rawData : string) : Call json :=
  response <- invoke generateContent (stage2_request rawData) ;;
  jsonStr <- text_trim response ;;
  parse jsonStr.

Definition formatPaperData (rawData : string) : Call json :=
  if negb (JsString.truthy (JsString.trim rawData)) then ret (JArr [])
  else
    try_catch (formatPaperData_try rawData)
      (fun e =>
         console_write "error" "Error in Stage 2 (formatPaperData):" (ThrownArg e) ;;
         throw (Error format_message)).

(** The [try] block of [searchPapers]. *)
Definition searchPapers_try (query : string) : Call json :=
  console_write "log" ("Starting two-stage search for: " ++ query) NoArg ;;
  rawData <- getRawPaperData query ;;
  papers <- formatPaperData rawData ;;
  ret papers.

Definition searchPapers (query : string) : Call json :=
  try_catch (searchPapers_try query)
    (fun error =>
       console_write "error" "Error in the two-step paper search pipeline:" (ThrownArg error) ;;
       if instanceofError error then throw error
       else throw (Error unexpected_message)).

End Pipeline.
End PaperServiceGlobal.


(* ================================================================== *)
(** * [fetch] as the proxy clients use it *)

Module Http.
Import Json Js.

(** A response as received: its status and the text of its body. *)
Record Response := MkResponse { status : Z; body : string }.

(** [response.ok] *)
Definition ok (r : Response) : bool :=
  ((200 <=? status r) && (status r <=? 299))%Z.

(** The decimal digits of a status, for a template literal. *)
Definition show (z : Z) : string := NilZero.string_of_int (Z.to_int z).

(** The object given to [JSON.stringify] as the body of the POST:
    [{ prompt, model, ...extraConfig }]. *)
Record Payload := MkPayload {
  prompt : GenAI.Prompt;
  model : string;
  extraConfig : list (string * json)
}.

Record FetchRequest := MkFetch {
  url : string;
  method : string;
  contentType : string;
  payload : Payload
}.

Definition Fetch := Backend FetchRequest Response.

Definition Call (A : Type) : Type := M FetchRequest A.

(** [data?.candidates?.[0]?.content?.parts?.[0]?.text] *)
Definition candidate_text (data : jsval) : jsval :=
  prop (item0 (prop (prop (item0 (prop data "candidates")) "content") "parts")) "text".

(** [output.trim()] for an [output] that is neither [null] nor
    [undefined]: only a string has the method. *)
Definition call_trim (output : jsval) : Call string :=
  match output with
  | Some (JStr s) => ret (JsString.trim s)
  | _ => throw TypeError_not_a_function
  end.

Definition GEMINI_PROXY_URL : string :=
  "https://ai-research-assistant.dharunnamikaze.workers.dev".

End Http.

(* ================================================================== *)
(** * [paperService.ts], the revision that goes through the worker proxy *)

Module PaperServiceProxy.
Import Json Js Http.
Local Open Scope js_scope.

Definition empty_message : string := "⚠️ Empty response from Gemini proxy.".
Definition proxy_message : string :=
  "Failed to communicate with the Gemini proxy service.".
Definition stage1_message : string :=
  "Stage 1 failed: Could not fetch raw academic paper data.".
Definition invalid_format_message : string :=
  "Invalid format: Expected a JSON array of papers.".
Definition stage2_message : string :=
  "Stage 2 failed: Could not structure paper data correctly.".
Definition unexpected_message : string :=
  "Unexpected error in paper search process.".

(** [data?.output || data?.text ||
     data?.candidates?.[0]?.content?.parts?.[0]?.text || ""] *)
Definition output_of (data : json) : jsval :=
  or_else
    (or_else (or_else (prop (Some data) "output") (prop (Some data) "text"))
       (candidate_text (Some data)))
    (Some (JStr "")).

(** The extraction step of [callGeminiProxy]: from [const output] to the
    [return]. *)
Definition extract (data : json) : Call string :=
  let output := output_of data in
  trimmed <- call_trim output ;;
  if negb (JsString.truthy trimmed) then throw (Error empty_message)
  else
    again <- call_trim output ;;
    ret again.

Section Pipeline.
Variable fetch : Fetch.

Definition proxy_request (prompt : GenAI.Prompt) (model : string)
  (extraConfig : list (string * json)) : FetchRequest :=
  MkFetch GEMINI_PROXY_URL "POST" "application/json"
    (MkPayload prompt model extraConfig).

(** The [try] block of [callGeminiProxy]. *)
Definition callGeminiProxy_try (prompt : GenAI.Prompt) (model : string)
  (extraConfig : list (string * json)) : Call string :=
  response <- invoke fetch (proxy_request prompt model extraConfig) ;;
  (if negb (ok response) then
     let errorText := body response in
     throw (Error ("Proxy request failed (" ++ show (status response)
                   ++ "): " ++ errorText))
   else ret tt) ;;
  data <- parse (body response) ;;
  extract data.

Definition callGeminiProxy (prompt : GenAI.Prompt) (model : string)
  (extraConfig : list (string * json)) : Call string :=
  try_catch (callGeminiProxy_try prompt model extraConfig)
    (fun error =>
       console_write "error" "Gemini proxy call failed:" (ThrownArg error) ;;
       throw (Error proxy_message)).

Definition stage1_prompt (query : string) : GenAI.Prompt :=
  GenAI.MkPrompt "getRawPaperData" [JStr query].

Definition stage2_prompt (rawData : string) : GenAI.Prompt :=
  GenAI.MkPrompt "formatPaperData" [JStr rawData].

(** The [try] block of [getRawPaperData]. *)
Definition getRawPaperData_try (query : string) : Call string :=
  output <- callGeminiProxy (stage1_prompt query) "gemini-2.5-pro" [] ;;
  if negb (JsString.truthy output) then
    console_write "warn" "⚠️ No raw data returned for query:" (StrArg query) ;;
    ret ""
  else ret output.

(** Stage 1: retrieve unstructured paper data. *)
Definition getRawPaperData (query : string) : Call string :=
  try_catch (getRawPaperData_try query)
    (fun error =>
       console_write "error" "Error in Stage 1 (getRawPaperData):" (ThrownArg error) ;;
       throw (Error stage1_message)).

(** The [try] block of [formatPaperData]. *)
Definition formatPaperData_try (rawData : string) : Call (list json) :=
  output <- callGeminiProxy (stage2_prompt rawData) "gemini-2.5-flash" [] ;;
  parsed <- parse output ;;
  match parsed with
  | JArr papers => ret papers
  | _ => throw (Error invalid_format_message)
  end.

(** Stage 2: text to structured JSON. *)
Definition formatPaperData (rawData : string) : Call (list json) :=
  if negb (JsString.truthy (JsString.trim rawData)) then ret []
  else
    try_catch (formatPaperData_try rawData)
      (fun error =>
         console_write "error" "Error in Stage 2 (formatPaperData):" (ThrownArg error) ;;
         throw (Error stage2_message)).

(** The [try] block of [searchPapers]. *)
Definition searchPapers_try (query : string) : Call (list json) :=
  console_write "log" ("🔍 Starting Gemini-powered paper search for: " ++ query) NoArg ;;
  rawData <- getRawPaperData query ;;
  papers <- formatPaperData rawData ;;
  (match papers with
   | [] => console_write "warn" "⚠️ No structured papers extracted for query:" (StrArg query)
   | _ => ret tt
   end) ;;
  ret papers.

(** The orchestrator. *)
Definition searchPapers (query : string) : Call (list json) :=
  try_catch (searchPapers_try query)
    (fun error =>
       console_write "error" "❌ Paper search pipeline failed:" (ThrownArg error) ;;
       throw (if instanceofError error then error else Error unexpected_message)).

End Pipeline.
End PaperServiceProxy.

(* ================================================================== *)
(** * The types of [types.ts] *)

Module Types.
Import Json.

(** Modelled from the spec: the [Paper] type of [types.ts], a file that is
    not among the sources; its fields are those of the PaperRecord of the
    data model. *)
Record Paper := MkPaper {
  id : string;
  title : string;
  authors : list string;
  year : number;
  abstract : string;
  citationCount : number;
  tldr : string
}.

End Types.

(* ================================================================== *)
(** * [services/geminiService.ts], the revision with the SDK client *)

Module GeminiService.
Import Json Js GenAI Types.
Local Open Scope js_scope.

Definition config_message : string :=
  "Configuration Error: The API_KEY environment variable is not set. Please ensure it is configured in your environment. The application cannot function without it.".
Definition comparison_message : string :=
  "Failed to generate the paper comparison due to an AI processing error.".
Definition graph_message : string :=
  "Failed to generate the knowledge graph due to an AI processing error.".
Definition analysis_message : string :=
  "Failed to generate the paper analysis due to an AI processing error.".

(** [getClient]: reads [process.env.GEMINI_API_KEY] and checks it. *)
Definition getClient (env : ProcessEnv) : Call GoogleGenAI :=
  apiKey <- match env with
            | Some vars => ret (getenv "GEMINI_API_KEY" vars)
            | None => throw ReferenceError_process
            end ;;
  match apiKey with
  | Some k =>
      if negb (JsString.truthy k) then throw (Error config_message)
      else ret (MkClient k)
  | None => throw (Error config_message)
  end.

Definition suggestions_prompt (query : string) : Prompt :=
  MkPrompt "generateSuggestions" [JStr query].

Definition getComparisonPrompt (papers : list Paper) : Prompt :=
  MkPrompt "getComparisonPrompt"
    (flat_map (fun p => [JStr (id p); JStr (title p);
                         JStr (JsString.join ", " (authors p));
                         JNum (year p); JStr (abstract p)]) papers).

Definition getKnowledgeGraphPrompt (papers : list Paper) : Prompt :=
  MkPrompt "getKnowledgeGraphPrompt"
    (flat_map (fun p => [JStr (id p); JStr (title p); JStr (abstract p)]) papers).

Definition getSinglePaperAnalysisPrompt (paper : Paper) : Prompt :=
  MkPrompt "getSinglePaperAnalysisPrompt"
    [JStr (title paper); JStr (JsString.join ", " (authors paper));
     JNum (year paper); JStr (abstract paper)].

Definition comparisonSchema : Schema :=
  SObject
    [("summary", SString);
     ("comparison",
      SObject
        [("methodology", SString); ("keyFindings", SString);
         ("contributions", SString); ("contradictions", SString);
         ("researchGaps", SString)]
        ["methodology"; "keyFindings"; "contributions"; "contradictions";
         "researchGaps"])]
    ["summary"; "comparison"].

Definition graphSchema : Schema :=
  SObject
    [("nodes",
      SArray (SObject [("id", SString); ("label", SString); ("group", SString)]
                ["id"; "label"; "group"]));
     ("links",
      SArray (SObject [("source", SString); ("target", SString); ("label", SString)]
                ["source"; "target"; "label"]))]
    ["nodes"; "links"].

Definition analysisSchema : Schema :=
  SObject
    [("summary", SString); ("keyConcepts", SString); ("methodology", SString);
     ("contributions", SString); ("futureWork", SString)]
    ["summary"; "keyConcepts"; "methodology"; "contributions"; "futureWork"].

Section Transforms.
Variable generateContent : Gateway.

(** The [try] block of [generateSuggestions]. *)
Definition generateSuggestions_try (env : ProcessEnv) (query : string) : Call json :=
  ai <- getClient env ;;
  let prompt := suggestions_prompt query in
  response <- invoke generateContent
    (MkParams ai "gemini-2.5-flash" prompt (JsonResponse (SArray SString))) ;;
  jsonStr <- text_trim response ;;
  parse jsonStr.

Definition generateSuggestions (env : ProcessEnv) (query : string) : Call json :=
  try_catch (generateSuggestions_try env query)
    (fun error =>
       console_write "error" "Error generating suggestions:" (ThrownArg error) ;;
       ret (JArr [])).

(** The [try] block of [generateComparison]. *)
Definition generateComparison_try (env : ProcessEnv) (prompt : Prompt) : Call json :=
  ai <- getClient env ;;
  response <- invoke generateContent
    (MkParams ai "gemini-2.5-pro" prompt (JsonResponse comparisonSchema)) ;;
  jsonStr <- text_trim response ;;
  parse jsonStr.

Definition generateComparison (env : ProcessEnv) (papers : list Paper) : Call json :=
  let prompt := getComparisonPrompt papers in
  try_catch (generateComparison_try env prompt)
    (fun error =>
       console_write "error" "Error generating comparison:" (ThrownArg error) ;;
       throw (Error comparison_message)).

(** The [try] block of [generateKnowledgeGraph]. *)
Definition generateKnowledgeGraph_try (env : ProcessEnv) (prompt : Prompt) : Call json :=
  ai <- getClient env ;;
  response <- invoke generateContent
    (MkParams ai "gemini-2.5-flash" prompt (JsonResponse graphSchema)) ;;
  jsonStr <- text_trim response ;;
  parse jsonStr.

Definition generateKnowledgeGraph (env : ProcessEnv) (papers : list Paper) : Call json :=
  let prompt := getKnowledgeGraphPrompt papers in
  try_catch (generateKnowledgeGraph_try env prompt)
    (fun error =>
       console_write "error" "Error generating knowledge graph:" (ThrownArg error) ;;
       throw (Error graph_message)).

(** The [try] block of [generateSinglePaperAnalysis]. *)
Definition generateSinglePaperAnalysis_try (env : ProcessEnv) (prompt : Prompt) : Call json :=
  ai <- getClient env ;;
  response <- invoke generateContent
    (MkParams ai "gemini-2.5-pro" prompt (JsonResponse analysisSchema)) ;;
  jsonStr <- text_trim response ;;
  parse jsonStr.

Definition generateSinglePaperAnalysis (env : ProcessEnv) (paper : Paper) : Call json :=
  let prompt := getSinglePaperAnalysisPrompt paper in
  try_catch (generateSinglePaperAnalysis_try env prompt)
    (fun error =>
       console_write "error" "Error generating single paper analysis:" (ThrownArg error) ;;
       throw (Error analysis_message)).

End Transforms.
End GeminiService.

(* ================================================================== *)
(** * [geminiService.ts], the revision that goes through the worker proxy *)

Module GeminiServiceProxy.
Import Json Js Http Types.
Local Open Scope js_scope.

Definition empty_message : string :=
  "The Gemini proxy returned an empty response. Check prompt or Worker logs.".
Definition proxy_message : string :=
  "Gemini proxy request failed. Please try again later.".
Definition comparison_message : string :=
  "Failed to generate paper comparison analysis.".
Definition graph_message : string :=
  "Failed to generate knowledge graph data.".
Definition analysis_message : string :=
  "Failed to generate structured single paper analysis.".

(** [data?.output || data?.candidates?.[0]?.content?.parts?.[0]?.text
     || null] *)
Definition output_of (data : json) : jsval :=
  or_else (or_else (prop (Some data) "output") (candidate_text (Some data)))
    (Some JNull).

(** The extraction step of [callGeminiProxy]: from [const output] to the
    [return]. *)
Definition extract (data : json) : Call string :=
  let output := output_of data in
  if negb (truthy output) then throw (Error empty_message)
  else call_trim output.

Definition suggestions_prompt (query : string) : GenAI.Prompt :=
  GenAI.MkPrompt "generateSuggestions" [JStr query; JStr query; JStr query; JStr query].

Definition getComparisonPrompt (papers : list Paper) : GenAI.Prompt :=
  GenAI.MkPrompt "getComparisonPrompt"
    (flat_map (fun p => [JStr (title p); JStr (JsString.join ", " (authors p));
                         JNum (year p); JStr (abstract p)]) papers).

Definition getKnowledgeGraphPrompt (papers : list Paper) : GenAI.Prompt :=
  GenAI.MkPrompt "getKnowledgeGraphPrompt"
    (flat_map (fun p => [JStr (title p); JStr (abstract p)]) papers).

Definition getSinglePaperAnalysisPrompt (paper : Paper) : GenAI.Prompt :=
  GenAI.MkPrompt "getSinglePaperAnalysisPrompt"
    [JStr (title paper); JStr (JsString.join ", " (authors paper));
     JNum (year paper); JStr (abstract paper)].

Section Transforms.
Variable fetch : Fetch.

Definition proxy_request (prompt : GenAI.Prompt) (model : string) : FetchRequest :=
  MkFetch GEMINI_PROXY_URL "POST" "application/json" (MkPayload prompt model []).

(** The [try] block of [callGeminiProxy]. *)
Definition callGeminiProxy_try (prompt : GenAI.Prompt) (model : string) : Call string :=
  response <- invoke fetch (proxy_request prompt model) ;;
  (if negb (ok response) then
     let errorText := body response in
     throw (Error ("Proxy request failed (Status " ++ show (status response)
                   ++ "): " ++ errorText))
   else ret tt) ;;
  data <- parse (body response) ;;
  extract data.

Definition callGeminiProxy (prompt : GenAI.Prompt) (model : string) : Call string :=
  try_catch (callGeminiProxy_try prompt model)
    (fun error =>
       console_write "error" "Error in Gemini proxy communication:" (ThrownArg error) ;;
       throw (Error proxy_message)).

(** The [try] block of [generateSuggestions]. *)
Definition generateSuggestions_try (prompt : GenAI.Prompt) : Call json :=
  output <- callGeminiProxy prompt "gemini-2.5-flash" ;;
  parse output.

Definition generateSuggestions (query : string) : Call json :=
  let prompt := suggestions_prompt query in
  try_catch (generateSuggestions_try prompt)
    (fun error =>
       console_write "error" "Error generating research suggestions:" (ThrownArg error) ;;
       ret (JArr [])).

(** The [try] block of [generateComparison]. *)
Definition generateComparison_try (papers : list Paper) : Call json :=
  let prompt := getComparisonPrompt papers in
  output <- callGeminiProxy prompt "gemini-2.5-pro" ;;
  parse output.

Definition generateComparison (papers : list Paper) : Call json :=
  try_catch (generateComparison_try papers)
    (fun error =>
       console_write "error" "Error generating paper comparison:" (ThrownArg error) ;;
       throw (Error comparison_message)).

(** The [try] block of [generateKnowledgeGraph]. *)
Definition generateKnowledgeGraph_try (papers : list Paper) : Call json :=
  let prompt := getKnowledgeGraphPrompt papers in
  output <- callGeminiProxy prompt "gemini-2.5-flash" ;;
  parse output.

Definition generateKnowledgeGraph (papers : list Paper) : Call json :=
  try_catch (generateKnowledgeGraph_try papers)
    (fun error =>
       console_write "error" "Error generating knowledge graph:" (ThrownArg error) ;;
       throw (Error graph_message)).

(** The [try] block of [generateSinglePaperAnalysis]. *)
Definition generateSinglePaperAnalysis_try (paper : Paper) : Call json :=
  let prompt := getSinglePaperAnalysisPrompt paper in
  output <- callGeminiProxy prompt "gemini-2.5-pro" ;;
  parse output.

Definition generateSinglePaperAnalysis (paper : Paper) : Call json :=
  try_catch (generateSinglePaperAnalysis_try paper)
    (fun error =>
       console_write "error" "Error generating single paper analysis:" (ThrownArg error) ;;
       throw (Error analysis_message)).

End Transforms.
End GeminiServiceProxy.

(* ================================================================== *)
(** * [gemini-proxy/index.js], the worker that relays to the backend *)

Module GeminiProxy.
Import Json Js.
Local Open Scope js_scope.

(** The bindings of the worker. *)
Record Env := MkEnv { GEMINI_API_KEY : option string }.

(** The request received; [request.json()] parses the text of its body. *)
Record Request := MkRequest { body : string }.

(** The call to the backend.  Its URL is built from [model] and [apiKey],
    its body from [prompt] and the spread of [config]. *)
Record Upstream := MkUpstream {
  model : jsval;
  apiKey : string;
  prompt : jsval;
  config : jsval
}.

(** [new Response(JSON.stringify(object), { status, headers })]: [value] is
    what the body denotes, the object as [JSON.stringify] wrote it. *)
Record Response := MkResponse {
  status : Z;
  contentType : string;
  value : json
}.

Definition Call (A : Type) : Type := M Upstream A.

(** [JSON.stringify({ k: v })]: a member whose value is [undefined] is
    left out. *)
Definition member (k : string) (v : jsval) : json :=
  match v with
  | Some x => stringified (JObj [(k, x)])
  | None => JObj []
  end.

(** [const { prompt, model, stream, config } = parsed], which throws on
    [null]. *)
Definition destructure (parsed : json) : Call (jsval * jsval * jsval * jsval) :=
  match parsed with
  | JNull => throw TypeError_destructure
  | _ =>
      let v := Some parsed in
      ret (prop v "prompt", prop v "model", prop v "stream", prop v "config")
  end.

(** [err.message] *)
Definition message_of (err : thrown) : Call jsval :=
  match err with
  | JsError _ m => ret (Some (JStr m))
  | NonError None | NonError (Some JNull) =>
      throw (JsError "TypeError" "Cannot read properties of undefined (reading 'message')")
  | NonError v => ret (prop v "message")
  end.

Definition missing_key_message : string := "Missing GEMINI_API_KEY in environment".

Section Worker.
(** The global [fetch] of the worker, reaching the backend. *)
Variable upstream : Backend Upstream Http.Response.

Definition fetch (request : Request) (env : Env) : Call Response :=
  try_catch
    (parsed <- parse (body request) ;;
     fields <- destructure parsed ;;
     let '(prompt, model, stream, config) := fields in
     let apiKey := GEMINI_API_KEY env in
     match apiKey with
     | Some k =>
         if negb (JsString.truthy k) then throw (Error missing_key_message)
         else
           response <- invoke upstream (MkUpstream model k prompt config) ;;
           result <- parse (Http.body response) ;;
           let text :=
             or_else (Http.candidate_text (Some result))
               (Some (JStr "No response")) in
           ret (MkResponse 200 "application/json" (member "text" text))
     | None => throw (Error missing_key_message)
     end)
    (fun err =>
       message <- message_of err ;;
       ret (MkResponse 500 "application/json" (member "error" message))).

End Worker.
End GeminiProxy.

(* ================================================================== *)
(** * The invariants of a paper record *)

Module PaperRecord.
Import Json.

(** The integer a number is, if it is one. *)
Definition to_Z (n : number) : option Z :=
  match n with
  | S754_zero _ => Some 0%Z
  | S754_finite s m e =>
      let v := if s then Z.neg m else Z.pos m in
      if (0 <=? e)%Z then Some (v * 2 ^ e)%Z
      else
        let d := (2 ^ (- e))%Z in
        if (v mod d =? 0)%Z then Some (v / d)%Z else None
  | _ => None
  end.

Definition authors_ok (p : json) : bool :=
  match prop (Some p) "authors" with
  | Some (JArr (_ :: _)) => true
  | _ => false
  end.

Definition year_ok (p : json) : bool :=
  match prop (Some p) "year" with
  | Some (JNum n) =>
      match to_Z n with
      | Some y => ((1000 <=? y) && (y <=? 9999))%Z
      | None => false
      end
  | _ => false
  end.

Definition citationCount_ok (p : json) : bool :=
  match prop (Some p) "citationCount" with
  | Some (JNum n) =>
      match to_Z n with
      | Some c => (0 <=? c)%Z
      | None => false
      end
  | _ => false
  end.

(** Authors non-empty, year a 4-digit integer, citation count a
    non-negative integer. *)
Definition invariants (p : json) : bool :=
  authors_ok p && year_ok p && citationCount_ok p.

End PaperRecord.

(* ================================================================== *)
(** * Vocabulary of the properties *)

Module Spec.
Import Json Js.

(** The normalised text of an SDK response is empty: [text] is undefined,
    or nothing is left of it once trimmed. *)
Definition no_text (r : GenAI.GenerateContentResponse) : bool :=
  match GenAI.text r with
  | Some t => negb (JsString.truthy (JsString.trim t))
  | None => true
  end.

(** What the [catch] of an orchestrator throws for a caught [e]. *)
Definition rethrown (unexpected : string) (e : thrown) : thrown :=
  if instanceofError e then e else Error unexpected.

(** The body [{"text":"<s>"}] for an [s] that needs no escaping. *)
Definition text_body (s : string) : string :=
  let q := String JsString.dquote "" in
  "{" ++ q ++ "text" ++ q ++ ":" ++ q ++ s ++ q ++ "}".

(** An SDK response that carries [s] as its text and no feedback. *)
Definition says (s : string) : GenAI.GenerateContentResponse :=
  GenAI.MkResponse (Some s) None.

(** A backend that gives its [n]-th answer to the [n]-th call, and the last
    one from then on. *)
Fixpoint script {Req Resp} (answers : list (outcome Resp)) (last : outcome Resp)
  (log : list Req) : outcome Resp :=
  match answers, log with
  | [], _ => last
  | a :: _, [] => a
  | _ :: rest, _ :: log' => script rest last log'
  end.

Definition scripted {Req Resp} (answers : list (outcome Resp))
  (last : outcome Resp) : Backend Req Resp :=
  fun log _ => script answers last log.

(** What [JSON.parse] makes of the trimmed text of an SDK response; [None]
    where [text] is undefined or is not JSON. *)
Definition parsed_text (r : GenAI.GenerateContentResponse) : option json :=
  match GenAI.text r with
  | Some t => JSON_parse (JsString.trim t)
  | None => None
  end.

(** The text a proxy response yields under the extraction [extract]:
    the response is [ok], its body is JSON, and the extraction resolves. *)
Definition normalised (extract : json -> Http.Call string) (resp : Http.Response)
  : option string :=
  if Http.ok resp then
    match JSON_parse (Http.body resp) with
    | Some data =>
        match result (extract data) with
        | Resolve o => Some o
        | Reject _ => None
        end
    | None => None
    end
  else None.

(** How a call settles when a reply [a] has to yield a value through [f],
    every failure being reported as [e]. *)
Definition settle {A B} (a : outcome A) (f : A -> option B) (e : thrown)
  : outcome B :=
  match a with
  | Resolve x => match f x with Some y => Resolve y | None => Reject e end
  | Reject _ => Reject e
  end.

(** The array a text denotes, if it denotes one. *)
Definition papers_of (o : string) : option (list json) :=
  match JSON_parse o with
  | Some (JArr l) => Some l
  | _ => None
  end.

(** The text stage 1 of the SDK pipeline makes of a response. *)
Definition stage1_text (r : GenAI.GenerateContentResponse) : string :=
  match GenAI.text r with
  | Some t => JsString.trim t
  | None => ""
  end.

(** How stage 1 of the SDK pipeline settles on the reply [a]. *)
Definition stage1_outcome (a : outcome GenAI.GenerateContentResponse)
  : outcome string :=
  match a with
  | Resolve r =>
      match GenAI.block_of r with
      | Some (reason, ratings) =>
          Reject (Error (GenAI.safety_message reason (GenAI.blockedCategories ratings)))
      | None => Resolve (stage1_text r)
      end
  | Reject t => Reject t
  end.

(** The papers a proxy response yields. *)
Definition papers_in (resp : Http.Response) : option (list json) :=
  match normalised PaperServiceProxy.extract resp with
  | Some o => papers_of o
  | None => None
  end.

(** The requests of the transforms, through the SDK and through the proxy. *)
Definition suggestions_request (k query : string) : GenAI.GenerateContentParameters :=
  GenAI.MkParams (GenAI.MkClient k) "gemini-2.5-flash"
    (GeminiService.suggestions_prompt query)
    (GenAI.JsonResponse (GenAI.SArray GenAI.SString)).

Definition comparison_request (k : string) (papers : list Types.Paper)
  : GenAI.GenerateContentParameters :=
  GenAI.MkParams (GenAI.MkClient k) "gemini-2.5-pro"
    (GeminiService.getComparisonPrompt papers)
    (GenAI.JsonResponse GeminiService.comparisonSchema).

Definition graph_request (k : string) (papers : list Types.Paper)
  : GenAI.GenerateContentParameters :=
  GenAI.MkParams (GenAI.MkClient k) "gemini-2.5-flash"
    (GeminiService.getKnowledgeGraphPrompt papers)
    (GenAI.JsonResponse GeminiService.graphSchema).

Definition analysis_request (k : string) (paper : Types.Paper)
  : GenAI.GenerateContentParameters :=
  GenAI.MkParams (GenAI.MkClient k) "gemini-2.5-pro"
    (GeminiService.getSinglePaperAnalysisPrompt paper)
    (GenAI.JsonResponse GeminiService.analysisSchema).

Definition suggestions_call (query : string) : Http.FetchRequest :=
  GeminiServiceProxy.proxy_request (GeminiServiceProxy.suggestions_prompt query)
    "gemini-2.5-flash".

Definition comparison_call (papers : list Types.Paper) : Http.FetchRequest :=
  GeminiServiceProxy.proxy_request (GeminiServiceProxy.getComparisonPrompt papers)
    "gemini-2.5-pro".

Definition graph_call (papers : list Types.Paper) : Http.FetchRequest :=
  GeminiServiceProxy.proxy_request (GeminiServiceProxy.getKnowledgeGraphPrompt papers)
    "gemini-2.5-flash".

Definition analysis_call (paper : Types.Paper) : Http.FetchRequest :=
  GeminiServiceProxy.proxy_request
    (GeminiServiceProxy.getSinglePaperAnalysisPrompt paper) "gemini-2.5-pro".

(** The value a proxy response yields to a transform: its normalised text,
    parsed. *)
Definition parsed_reply (resp : Http.Response) : option json :=
  match normalised GeminiServiceProxy.extract resp with
  | Some o => JSON_parse o
  | None => None
  end.

(** A call is fatal on failure: on the reply [reply] of the backend, from
    which [value] reads the parsed output, the promise [run] rejects with
    [e] when the call fails and when no output can be read, and resolves
    only with an output that was read. *)
Definition fatal_on_failure {A B} (reply : outcome A) (value : A -> option B)
  (run : outcome B) (e : thrown) : Prop :=
  (forall t, reply = Reject t -> run = Reject e) /\
  (forall r, reply = Resolve r -> value r = None -> run = Reject e) /\
  (forall v, run = Resolve v -> exists r, reply = Resolve r /\ value r = Some v).

(** The world once an orchestrator has written its opening line. *)
Definition entered {Req} (lbl query : string) (w : World Req) : World Req :=
  snd (console_write "log" (lbl ++ query) NoArg w).

(** The two requests of the proxy pipeline. *)
Definition stage1_call (query : string) : Http.FetchRequest :=
  PaperServiceProxy.proxy_request (PaperServiceProxy.stage1_prompt query)
    "gemini-2.5-pro" [].

Definition stage2_call (rawData : string) : Http.FetchRequest :=
  PaperServiceProxy.proxy_request (PaperServiceProxy.stage2_prompt rawData)
    "gemini-2.5-flash" [].

(** The calls of one run of a two-stage pipeline: the request of stage 1,
    then at most the request of stage 2, made for a text that is trimmed
    and not empty. *)
Definition pipeline_calls {Req} (first : Req) (second : string -> Req)
  (l : list Req) : Prop :=
  l = [first] \/
  exists raw, JsString.trim raw = raw /\ raw <> "" /\ l = [first; second raw].

(** A string that does not start with white space. *)
Definition head_kept (s : string) : Prop := JsString.ws_head s = None.

End Spec.

(* ================================================================== *)
(** * Concrete inputs *)

Module Examples.
Import Json Js Spec.

Definition env : ProcessEnv :=
  Some [("API_KEY", "secret"); ("GEMINI_API_KEY", "secret")].

Definition env_unset : ProcessEnv := Some [].

Definition ai : GenAI.GoogleGenAI := GenAI.MkClient "secret".

Definition paper : Types.Paper :=
  Types.MkPaper "p1" "Attention" ["A. Author"] (of_Z 2017) "Abstract." (of_Z 3)
    "Short.".

(** U+00A0, the no-break space. *)
Definition nbsp : string :=
  String (ascii_of_nat 194) (String (ascii_of_nat 160) "").

(** Stage 1 finds nothing: a text of white space only, a space and a
    no-break space. *)
Definition blank_text : string := " " ++ nbsp.

Definition gateway_blank : GenAI.Gateway :=
  scripted [Resolve (says blank_text)] (Resolve (says "[]")).

(** Stage 1 is blocked for safety. *)
Definition blocked_response : GenAI.GenerateContentResponse :=
  GenAI.MkResponse None
    (Some (GenAI.MkFeedback (Some "SAFETY")
       (Some [GenAI.MkRating (Some "HARM_CATEGORY_HATE_SPEECH") (Some true);
              GenAI.MkRating (Some "HARM_CATEGORY_HARASSMENT") (Some false);
              GenAI.MkRating (Some "HARM_CATEGORY_DANGEROUS_CONTENT") (Some true)]))).

Definition gateway_blocked : GenAI.Gateway :=
  scripted [Resolve blocked_response] (Resolve (says "[]")).

(** Stage 1 answers, stage 2 answers [second]. *)
Definition gateway_then (second : string) : GenAI.Gateway :=
  scripted [Resolve (says "Paper A")] (Resolve (says second)).

Definition fetch_then (second : string) : Http.Fetch :=
  scripted [Resolve (Http.MkResponse 200 (text_body "Paper A"))]
    (Resolve (Http.MkResponse 200 (text_body second))).

(** Stage 1 answers, the call of stage 2 fails. *)
Definition gateway_stage2_down : GenAI.Gateway :=
  scripted [Resolve (says "Paper A")] (Reject (JsError "TypeError" "Failed to fetch")).

Definition fetch_stage2_down : Http.Fetch :=
  scripted [Resolve (Http.MkResponse 200 (text_body "Paper A"))]
    (Reject (JsError "TypeError" "Failed to fetch")).

(** The proxy answers every call with a status 500. *)
Definition fetch_500 : Http.Fetch :=
  scripted [] (Resolve (Http.MkResponse 500 "boom")).

(** The network fails. *)
Definition network_down : thrown := JsError "TypeError" "Failed to fetch".

Definition gateway_down : GenAI.Gateway := scripted [] (Reject network_down).

Definition fetch_down : Http.Fetch := scripted [] (Reject network_down).

(** The worker, its key set, receives an empty object and the backend
    answers with an object that holds no candidates. *)
Definition worker_env : GeminiProxy.Env := GeminiProxy.MkEnv (Some "secret").

Definition worker_request : GeminiProxy.Request := GeminiProxy.MkRequest "{}".

Definition backend_silent : Backend GeminiProxy.Upstream Http.Response :=
  scripted [] (Resolve (Http.MkResponse 200 "{}")).

(** The proxy answers with an output of white space only. *)
Definition output_body (s : string) : string :=
  let q := String JsString.dquote "" in
  "{" ++ q ++ "output" ++ q ++ ":" ++ q ++ s ++ q ++ "}".

Definition fetch_blank_output : Http.Fetch :=
  scripted [] (Resolve (Http.MkResponse 200 (output_body "  "))).

(** The gateway answers every call with the text of an empty object. *)
Definition gateway_object : GenAI.Gateway := scripted [] (Resolve (says "{}")).

(** The backend answers with the page of a gateway error. *)
Definition backend_html : Backend GeminiProxy.Upstream Http.Response :=
  scripted [] (Resolve (Http.MkResponse 502 "<html>Bad Gateway</html>")).

(** The body [{"candidates":[{"content":{"parts":[{"text":<n>}]}}]}] for the
    digits [n] of a number. *)
Definition candidates_number (n : string) : string :=
  let q := String JsString.dquote "" in
  "{" ++ q ++ "candidates" ++ q ++ ":[{" ++ q ++ "content" ++ q ++ ":{"
  ++ q ++ "parts" ++ q ++ ":[{" ++ q ++ "text" ++ q ++ ":" ++ n ++ "}]}}]}".

(** The backend answers with a text that is a number beyond the doubles. *)
Definition backend_huge : Backend GeminiProxy.Upstream Http.Response :=
  scripted [] (Resolve (Http.MkResponse 200 (candidates_number "1e400"))).

(** The worker without its key. *)
Definition worker_env_unset : GeminiProxy.Env := GeminiProxy.MkEnv None.

(** The body [{"candidates":[{"content":{"parts":[{"text":"<s>"}]}}]}] for an
    [s] that needs no escaping. *)
Definition candidates_body (s : string) : string :=
  let q := String JsString.dquote "" in
  "{" ++ q ++ "candidates" ++ q ++ ":[{" ++ q ++ "content" ++ q ++ ":{"
  ++ q ++ "parts" ++ q ++ ":[{" ++ q ++ "text" ++ q ++ ":" ++ q ++ s ++ q
  ++ "}]}}]}".

(** The backend answers with a status 503 whose body still holds a text. *)
Definition backend_unavailable : Backend GeminiProxy.Upstream Http.Response :=
  scripted [] (Resolve (Http.MkResponse 503 (candidates_body "Paper A"))).

(** The backend cannot be reached. *)
Definition backend_down : Backend GeminiProxy.Upstream Http.Response :=
  scripted [] (Reject network_down).

(** The call the worker makes for [worker_request]. *)
Definition worker_call : GeminiProxy.Upstream :=
  GeminiProxy.MkUpstream None "secret" None None.

End Examples.


(* ================================================================== *)
(** * Lemmas on strings *)

Section Trim.
Import JsString Spec.

Lemma trimStart_unfold (s : string) :
  trimStart s = match ws_head s with Some r => trimStart r | None => s end.
Proof.
  destruct s as [|c [|d [|e r]]]; cbn [trimStart ws_head]; try reflexivity.
  - destruct (is_ws c); reflexivity.
  - destruct (is_ws c); [reflexivity|]. destruct (is_ws2 c d); reflexivity.
  - destruct (is_ws c); [reflexivity|]. destruct (is_ws2 c d); [reflexivity|].
    destruct (is_ws3 c d e); reflexivity.
Qed.

Lemma ws_head_shorter (s r : string) :
  ws_head s = Some r -> (String.length r < String.length s)%nat.
Proof.
  destruct s as [|c [|d [|e r']]]; cbn [ws_head]; try discriminate.
  - destruct (is_ws c); [|discriminate]. intros [= <-]. cbn. lia.
  - destruct (is_ws c); [intros [= <-]; cbn; lia|].
    destruct (is_ws2 c d); [|discriminate]. intros [= <-]. cbn. lia.
  - destruct (is_ws c); [intros [= <-]; cbn; lia|].
    destruct (is_ws2 c d); [intros [= <-]; cbn; lia|].
    destruct (is_ws3 c d e); [|discriminate]. intros [= <-]. cbn. lia.
Qed.

(** Induction on a string along [ws_head]. *)
Lemma ws_head_ind (P : string -> Prop) :
  (forall s, ws_head s = None -> P s) ->
  (forall s r, ws_head s = Some r -> P r -> P s) ->
  forall s, P s.
Proof.
  intros Hn Hs s.
  assert (G : forall n s, (String.length s < n)%nat -> P s).
  { induction n as [|n IH]; intros s' Hl; [lia|].
    destruct (ws_head s') as [r|] eqn:E; [|now apply Hn].
    apply (Hs s' r E). apply IH. pose proof (ws_head_shorter _ _ E). lia. }
  exact (G (S (String.length s)) s (Nat.lt_succ_diag_r _)).
Qed.

Lemma trimStart_head (s : string) : head_kept (trimStart s).
Proof.
  unfold head_kept. induction s as [s E|s r E IH] using ws_head_ind;
    rewrite trimStart_unfold, E; assumption.
Qed.

Lemma trimStart_fixed (s : string) : head_kept s -> trimStart s = s.
Proof. unfold head_kept. intros H. now rewrite trimStart_unfold, H. Qed.

Lemma ws_head_app (p u r : string) :
  ws_head p = Some r -> ws_head (p ++ u) = Some (r ++ u).
Proof.
  destruct p as [|c [|d [|e p']]]; cbn [ws_head String.append]; try discriminate.
  - destruct (is_ws c); [|discriminate]. intros [= <-].
    destruct u as [|? [|? ?]]; reflexivity.
  - destruct (is_ws c); [intros [= <-]; reflexivity|].
    destruct (is_ws2 c d); [|discriminate]. intros [= <-].
    destruct u; reflexivity.
  - destruct (is_ws c); [intros [= <-]; reflexivity|].
    destruct (is_ws2 c d); [intros [= <-]; reflexivity|].
    destruct (is_ws3 c d e); [|discriminate]. intros [= <-]. reflexivity.
Qed.

Lemma trimEnd_unfold (c : ascii) (r : string) :
  trimEnd (String c r)
    = if blank (String c r) then EmptyString else String c (trimEnd r).
Proof. reflexivity. Qed.

Lemma trimEnd_prefix (s : string) : exists u, s = trimEnd s ++ u.
Proof.
  induction s as [|c r [u IH]]; [now exists ""|].
  rewrite trimEnd_unfold. destruct (blank (String c r)).
  - now exists (String c r).
  - exists u. cbn [String.append]. now rewrite <- IH.
Qed.

Lemma trimEnd_head (s : string) : head_kept s -> head_kept (trimEnd s).
Proof.
  unfold head_kept. intros H. destruct (trimEnd_prefix s) as [u E].
  destruct (ws_head (trimEnd s)) as [r|] eqn:W; [|reflexivity].
  apply (ws_head_app _ u) in W. rewrite <- E, H in W. discriminate W.
Qed.

Lemma blank_step (s r : string) : ws_head s = Some r -> blank s = blank r.
Proof. intros H. unfold blank. now rewrite (trimStart_unfold s), H. Qed.

Lemma head_kept_blank (s : string) :
  ws_head s = None -> blank s = match s with EmptyString => true | _ => false end.
Proof. intros H. unfold blank. now rewrite trimStart_unfold, H. Qed.

(** A byte that continues a character starts no white space. *)
Lemma continuation_kept (d : ascii) (x : string) :
  (128 <= code d <= 191)%nat -> ws_head (String d x) = None.
Proof.
  intros H. cbn [ws_head].
  assert (W1 : is_ws d = false).
  { unfold is_ws. cbv zeta.
    destruct (Nat.leb_spec 9 (code d)), (Nat.leb_spec (code d) 13),
      (Nat.eqb_spec (code d) 32); cbn; try reflexivity; lia. }
  assert (W2 : forall e, is_ws2 d e = false).
  { intros e. unfold is_ws2. destruct (Nat.eqb_spec (code d) 194); [lia|reflexivity]. }
  assert (W3 : forall e f, is_ws3 d e f = false).
  { intros e f. unfold is_ws3.
    destruct (Nat.eqb_spec (code d) 225), (Nat.eqb_spec (code d) 226),
      (Nat.eqb_spec (code d) 227), (Nat.eqb_spec (code d) 239);
      first [lia | reflexivity]. }
  rewrite W1. destruct x as [|e [|f x]]; rewrite ?W2, ?W3; reflexivity.
Qed.

Lemma is_ws2_continuation (c d : ascii) :
  is_ws2 c d = true -> (128 <= code d <= 191)%nat.
Proof.
  unfold is_ws2. intros H. apply andb_true_iff in H as [_ H].
  apply Nat.eqb_eq in H. lia.
Qed.

Lemma is_ws3_continuation (c d e : ascii) :
  is_ws3 c d e = true ->
  (128 <= code d <= 191)%nat /\ (128 <= code e <= 191)%nat.
Proof.
  unfold is_ws3. intros H.
  repeat match type of H with
         | (_ || _)%bool = true => apply orb_true_iff in H as [H | H]
         | (_ && _)%bool = true => apply andb_true_iff in H as [H ?]
         end;
    repeat match goal with
           | H : (_ && _)%bool = true |- _ => apply andb_true_iff in H as [? ?]
           | H : (_ || _)%bool = true |- _ => apply orb_true_iff in H as [? | ?]
           | H : (_ =? _)%nat = true |- _ => apply Nat.eqb_eq in H
           | H : (_ <=? _)%nat = true |- _ => apply Nat.leb_le in H
           end; lia.
Qed.

(** On a string that is not blank, [trimEnd] leaves a leading white space
    character where it is. *)
Lemma trimEnd_step (s r : string) :
  ws_head s = Some r -> blank r = false ->
  ws_head (trimEnd s) = Some (trimEnd r).
Proof.
  intros H Hb. pose proof (blank_step _ _ H) as Hs. rewrite Hb in Hs.
  destruct s as [|c [|d [|e r']]]; cbn [ws_head] in H; try discriminate H.
  - destruct (is_ws c) eqn:W; [|discriminate H]. injection H as <-.
    discriminate Hb.
  - destruct (is_ws c) eqn:W.
    + injection H as <-. rewrite trimEnd_unfold, Hs. cbn [ws_head]. now rewrite W.
    + destruct (is_ws2 c d); [|discriminate H]. injection H as <-. discriminate Hb.
  - destruct (is_ws c) eqn:W.
    + injection H as <-. rewrite trimEnd_unfold, Hs. cbn [ws_head]. now rewrite W.
    + destruct (is_ws2 c d) eqn:W2.
      * injection H as <-.
        pose proof (continuation_kept d (String e r') (is_ws2_continuation _ _ W2)) as K.
        rewrite trimEnd_unfold, Hs, (trimEnd_unfold d), (head_kept_blank _ K).
        cbn [ws_head]. now rewrite W, W2.
      * destruct (is_ws3 c d e) eqn:W3; [|discriminate H]. injection H as <-.
        destruct (is_ws3_continuation _ _ _ W3) as [Kd Ke].
        rewrite trimEnd_unfold, Hs, (trimEnd_unfold d),
          (head_kept_blank _ (continuation_kept d (String e r') Kd)),
          (trimEnd_unfold e), (head_kept_blank _ (continuation_kept e r' Ke)).
        cbn [ws_head]. now rewrite W, W2, W3.
Qed.

Lemma trimEnd_not_blank (s : string) : blank s = false -> blank (trimEnd s) = false.
Proof.
  induction s as [s E|s r E IH] using ws_head_ind; intros Hb.
  - pose proof (trimEnd_head s E) as K. rewrite (head_kept_blank _ K).
    destruct s as [|c r]; [discriminate Hb|]. now rewrite trimEnd_unfold, Hb.
  - pose proof (blank_step _ _ E) as Hs. rewrite Hb in Hs. symmetry in Hs.
    rewrite (blank_step _ _ (trimEnd_step _ _ E Hs)). now apply IH.
Qed.

Lemma trimEnd_idempotent (s : string) : trimEnd (trimEnd s) = trimEnd s.
Proof.
  induction s as [|c r IH]; [reflexivity|].
  destruct (blank (String c r)) eqn:B; rewrite trimEnd_unfold, B; [reflexivity|].
  pose proof (trimEnd_not_blank _ B) as B'. rewrite trimEnd_unfold, B in B'.
  now rewrite trimEnd_unfold, B', IH.
Qed.

Lemma trim_idempotent (s : string) : trim (trim s) = trim s.
Proof.
  unfold trim.
  rewrite (trimStart_fixed (trimEnd (trimStart s))).
  - apply trimEnd_idempotent.
  - apply trimEnd_head, trimStart_head.
Qed.

Lemma truthy_false_iff (s : string) : truthy s = false <-> s = "".
Proof. destruct s; simpl; split; congruence. Qed.

End Trim.

(* ================================================================== *)
(** * The monad *)

Ltac js_unfold :=
  unfold Js.result, Js.requests, Js.bind, Js.ret, Js.throw, Js.try_catch,
    Js.invoke, Js.console_write, Js.parse, GenAI.text_trim, Js.start in *.

Section MonadLemmas.
Import Js.
Context {Req A : Type}.

Lemma try_catch_reject (m : M Req A) (h : thrown -> M Req A) w t w' :
  m w = (Reject t, w') -> try_catch m h w = h t w'.
Proof. unfold try_catch; intros ->; reflexivity. Qed.

End MonadLemmas.

(* ================================================================== *)
(** * The SDK pipeline: no results, safety blocks *)

Section DirectPipeline.
Import Json Js GenAI.

Lemma PaperService_getAi_ok (vars : list (string * string)) (k : string)
  (w : World GenerateContentParameters) :
  getenv "API_KEY" vars = Some k -> JsString.truthy k = true ->
  PaperService.getAi (Some vars) w = (Resolve (MkClient k), w).
Proof.
  intros H1 H2. unfold PaperService.getAi. js_unfold. now rewrite H1, H2.
Qed.

Ltac unfold_pipeline :=
  unfold PaperService.searchPapers, PaperService.searchPapers_try,
    PaperService.getAi,
    PaperService.getRawPaperData, PaperService.getRawPaperData_try,
    PaperService.formatPaperData, PaperService.formatPaperData_try,
    PaperServiceGlobal.searchPapers, PaperServiceGlobal.searchPapers_try,
    PaperServiceGlobal.getRawPaperData, PaperServiceGlobal.getRawPaperData_try,
    PaperServiceGlobal.formatPaperData, PaperServiceGlobal.formatPaperData_try,
    Spec.no_text, Spec.parsed_text in *;
  js_unfold; simpl.

(** C1. When stage 1 is not blocked and its text is undefined or blank,
    [getRawPaperData] resolves to the empty string, [searchPapers] resolves
    to the empty array, and the only call made is the one of stage 1;
    [formatPaperData] on a blank input resolves to the empty array and
    leaves the world as it found it.  Both SDK revisions. *)
Theorem C1_no_text_gives_no_papers :
  (forall (gc : Gateway) (vars : list (string * string)) (k query : string)
          (r : GenerateContentResponse),
     getenv "API_KEY" vars = Some k -> JsString.truthy k = true ->
     gc [] (PaperService.stage1_request (MkClient k) query) = Resolve r ->
     block_of r = None ->
     Spec.no_text r = true ->
     result (PaperService.getRawPaperData gc (MkClient k) query) = Resolve "" /\
     result (PaperService.searchPapers gc (Some vars) query) = Resolve (JArr []) /\
     requests (PaperService.searchPapers gc (Some vars) query)
       = [PaperService.stage1_request (MkClient k) query]) /\
  (forall (gc : Gateway) (ai : GoogleGenAI) (rawData : string)
          (w : World GenerateContentParameters),
     JsString.truthy (JsString.trim rawData) = false ->
     PaperService.formatPaperData gc ai rawData w = (Resolve (JArr []), w)) /\
  (forall (gc : Gateway) (ai : GoogleGenAI) (query : string)
          (r : GenerateContentResponse),
     gc [] (PaperServiceGlobal.stage1_request ai query) = Resolve r ->
     block_of r = None ->
     Spec.no_text r = true ->
     result (PaperServiceGlobal.getRawPaperData ai gc query) = Resolve "" /\
     result (PaperServiceGlobal.searchPapers ai gc query) = Resolve (JArr []) /\
     requests (PaperServiceGlobal.searchPapers ai gc query)
       = [PaperServiceGlobal.stage1_request ai query]) /\
  (forall (gc : Gateway) (ai : GoogleGenAI) (rawData : string)
          (w : World GenerateContentParameters),
     JsString.truthy (JsString.trim rawData) = false ->
     PaperServiceGlobal.formatPaperData ai gc rawData w = (Resolve (JArr []), w)).
Proof.
  split; [|split; [|split]].
  - intros gc vars k query r Hk Hk' Hr Hb Ht; unfold_pipeline.
    rewrite Hk, Hk'; simpl; rewrite Hr, Hb.
    destruct (text r) as [t|]; simpl in *; auto.
    destruct (JsString.truthy (JsString.trim t)); [discriminate | auto].
  - intros gc ai rawData w H; unfold_pipeline; now rewrite H.
  - intros gc ai query r Hr Hb Ht; unfold_pipeline.
    rewrite Hr, Hb.
    destruct (text r) as [t|]; simpl in *; auto.
    destruct (JsString.truthy (JsString.trim t)); [discriminate | auto].
  - intros gc ai rawData w H; unfold_pipeline; now rewrite H.
Qed.

(** C1 at a gateway whose first answer is a space and a no-break space. *)
Lemma C1_witness :
  result (PaperService.searchPapers Examples.gateway_blank Examples.env "transformers")
    = Resolve (JArr []) /\
  requests (PaperService.searchPapers Examples.gateway_blank Examples.env "transformers")
    = [PaperService.stage1_request Examples.ai "transformers"].
Proof.
  exact (proj2 (proj1 C1_no_text_gives_no_papers Examples.gateway_blank
                  [("API_KEY", "secret"); ("GEMINI_API_KEY", "secret")] "secret"
                  "transformers" (Spec.says Examples.blank_text)
                  eq_refl eq_refl eq_refl eq_refl eq_refl)).
Defined.

(** C2. When the response of stage 1 carries a block reason, [searchPapers]
    rejects with the error whose message spells out that reason and the
    blocked categories, and the only call made is the one of stage 1.
    Both SDK revisions. *)
Theorem C2_safety_block_is_fatal :
  (forall (gc : Gateway) (vars : list (string * string)) (k query : string)
          (r : GenerateContentResponse) (reason : string)
          (ratings : option (list SafetyRating)),
     getenv "API_KEY" vars = Some k -> JsString.truthy k = true ->
     gc [] (PaperService.stage1_request (MkClient k) query) = Resolve r ->
     promptFeedback r = Some (MkFeedback (Some reason) ratings) ->
     JsString.truthy reason = true ->
     result (PaperService.searchPapers gc (Some vars) query)
       = Reject (Error ("Search failed: The query was blocked for safety reasons."
                        ++ LF ++ "Reason: " ++ reason ++ "." ++ LF
                        ++ "Categories: " ++ blockedCategories ratings ++ ".")) /\
     requests (PaperService.searchPapers gc (Some vars) query)
       = [PaperService.stage1_request (MkClient k) query]) /\
  (forall (gc : Gateway) (ai : GoogleGenAI) (query : string)
          (r : GenerateContentResponse) (reason : string)
          (ratings : option (list SafetyRating)),
     gc [] (PaperServiceGlobal.stage1_request ai query) = Resolve r ->
     promptFeedback r = Some (MkFeedback (Some reason) ratings) ->
     JsString.truthy reason = true ->
     result (PaperServiceGlobal.searchPapers ai gc query)
       = Reject (Error ("Search failed: The query was blocked for safety reasons."
                        ++ LF ++ "Reason: " ++ reason ++ "." ++ LF
                        ++ "Categories: " ++ blockedCategories ratings ++ ".")) /\
     requests (PaperServiceGlobal.searchPapers ai gc query)
       = [PaperServiceGlobal.stage1_request ai query]) /\
  (forall (rs : list SafetyRating) (names : list string),
     names = map (fun r => match category r with Some c => c | None => "" end)
               (filter (fun r => match blocked r with Some b => b | None => false end) rs) ->
     JsString.truthy (JsString.join ", " names) = true ->
     blockedCategories (Some rs) = JsString.join ", " names).
Proof.
  split; [|split].
  - intros gc vars k query r reason ratings Hk Hk' Hr Hf Ht; unfold_pipeline.
    rewrite Hk, Hk'; simpl; rewrite Hr; unfold block_of; rewrite Hf; simpl.
    rewrite Ht; auto.
  - intros gc ai query r reason ratings Hr Hf Ht; unfold_pipeline.
    rewrite Hr; unfold block_of; rewrite Hf; simpl; rewrite Ht; auto.
  - intros rs names -> H. unfold blockedCategories. now rewrite H.
Qed.

(** C2 at a gateway whose first answer is blocked for [SAFETY], two of its
    three ratings being blocked. *)
Lemma C2_witness :
  result (PaperService.searchPapers Examples.gateway_blocked Examples.env "q")
    = Reject (Error ("Search failed: The query was blocked for safety reasons."
                     ++ LF ++ "Reason: SAFETY." ++ LF
                     ++ "Categories: HARM_CATEGORY_HATE_SPEECH, HARM_CATEGORY_DANGEROUS_CONTENT.")) /\
  requests (PaperService.searchPapers Examples.gateway_blocked Examples.env "q")
    = [PaperService.stage1_request Examples.ai "q"].
Proof.
  exact (proj1 C2_safety_block_is_fatal Examples.gateway_blocked
           [("API_KEY", "secret"); ("GEMINI_API_KEY", "secret")] "secret" "q"
           Examples.blocked_response "SAFETY"
           (safetyRatings
              (MkFeedback (Some "SAFETY")
                 (Some [MkRating (Some "HARM_CATEGORY_HATE_SPEECH") (Some true);
                        MkRating (Some "HARM_CATEGORY_HARASSMENT") (Some false);
                        MkRating (Some "HARM_CATEGORY_DANGEROUS_CONTENT") (Some true)])))
           eq_refl eq_refl eq_refl eq_refl eq_refl).
Defined.

End DirectPipeline.

(* ================================================================== *)
(** * The proxy pipeline, stage by stage *)

Section ProxyPipeline.
Import Json Js Http Spec.

Ltac unfold_proxy :=
  unfold PaperServiceProxy.searchPapers, PaperServiceProxy.searchPapers_try,
    PaperServiceProxy.getRawPaperData, PaperServiceProxy.getRawPaperData_try,
    PaperServiceProxy.formatPaperData, PaperServiceProxy.formatPaperData_try,
    PaperServiceProxy.callGeminiProxy, PaperServiceProxy.callGeminiProxy_try in *.

(** The extraction step does not touch the world. *)
Lemma PaperServiceProxy_extract_pure (data : json) (w : World FetchRequest) :
  PaperServiceProxy.extract data w = (result (PaperServiceProxy.extract data), w).
Proof.
  unfold PaperServiceProxy.extract, call_trim. js_unfold.
  destruct (PaperServiceProxy.output_of data) as [[| | |s| |]|]; simpl; try reflexivity.
  destruct (JsString.truthy (JsString.trim s)); reflexivity.
Qed.

(** What the extraction step resolves to is the trimmed, non-blank string
    that [output_of] selected. *)
Lemma PaperServiceProxy_extract_resolves (data : json) (o : string) :
  result (PaperServiceProxy.extract data) = Resolve o ->
  exists s, PaperServiceProxy.output_of data = Some (JStr s) /\
            o = JsString.trim s /\ JsString.truthy o = true.
Proof.
  unfold PaperServiceProxy.extract, call_trim. js_unfold.
  destruct (PaperServiceProxy.output_of data) as [[| | |s| |]|]; simpl; try discriminate.
  destruct (JsString.truthy (JsString.trim s)) eqn:E; simpl; [|discriminate].
  intros [= <-]. eauto.
Qed.

Lemma normalised_truthy (resp : Response) (o : string) :
  Spec.normalised PaperServiceProxy.extract resp = Some o ->
  JsString.truthy o = true /\ JsString.truthy (JsString.trim o) = true.
Proof.
  unfold Spec.normalised.
  destruct (ok resp); [|discriminate].
  destruct (JSON_parse (body resp)) as [data|]; [|discriminate].
  destruct (result (PaperServiceProxy.extract data)) as [o'|] eqn:E; [|discriminate].
  intros [= <-].
  destruct (PaperServiceProxy_extract_resolves _ _ E) as (s & _ & -> & H).
  now rewrite trim_idempotent.
Qed.

(** One call through the proxy: what it settles to, and the call it adds. *)
Lemma PaperServiceProxy_call (fetch : Fetch) (prompt : GenAI.Prompt)
  (model : string) (cfg : list (string * json)) (w : World FetchRequest) :
  let req := PaperServiceProxy.proxy_request prompt model cfg in
  fst (PaperServiceProxy.callGeminiProxy fetch prompt model cfg w)
    = Spec.settle (fetch (calls w) req)
        (Spec.normalised PaperServiceProxy.extract)
        (Error PaperServiceProxy.proxy_message) /\
  calls (snd (PaperServiceProxy.callGeminiProxy fetch prompt model cfg w))
    = (calls w ++ [req])%list.
Proof.
  intros req. unfold_proxy. js_unfold. unfold Spec.settle, Spec.normalised. fold req.
  destruct (fetch (calls w) req) as [resp|t]; simpl; [|auto].
  destruct (ok resp); simpl; [|auto].
  destruct (JSON_parse (body resp)) as [data|]; simpl; [|auto].
  rewrite PaperServiceProxy_extract_pure.
  destruct (result (PaperServiceProxy.extract data)); simpl; auto.
Qed.

Lemma PaperServiceProxy_stage1 (fetch : Fetch) (query : string)
  (w : World FetchRequest) :
  fst (PaperServiceProxy.getRawPaperData fetch query w)
    = Spec.settle (fetch (calls w) (stage1_call query))
        (Spec.normalised PaperServiceProxy.extract)
        (Error PaperServiceProxy.stage1_message) /\
  calls (snd (PaperServiceProxy.getRawPaperData fetch query w))
    = (calls w ++ [stage1_call query])%list.
Proof.
  destruct (PaperServiceProxy_call fetch (PaperServiceProxy.stage1_prompt query)
              "gemini-2.5-pro" [] w) as [H1 H2].
  cbv zeta in H1, H2. fold (stage1_call query) in H1, H2.
  destruct (PaperServiceProxy.callGeminiProxy fetch _ _ _ w) as [[o|t] w1] eqn:E0;
    simpl in H1, H2; unfold settle in *;
    unfold PaperServiceProxy.getRawPaperData, PaperServiceProxy.getRawPaperData_try,
      try_catch, bind, ret, throw, console_write; rewrite E0.
  - destruct (fetch (calls w) (stage1_call query)) as [resp|]; [|discriminate].
    destruct (normalised PaperServiceProxy.extract resp) as [o'|] eqn:E;
      [|discriminate].
    injection H1 as ->.
    destruct (normalised_truthy _ _ E) as [-> _]. simpl. auto.
  - simpl. split; [|exact H2].
    destruct (fetch (calls w) (stage1_call query)) as [resp|]; [|reflexivity].
    destruct (normalised PaperServiceProxy.extract resp); [discriminate|reflexivity].
Qed.

Lemma PaperServiceProxy_stage2 (fetch : Fetch) (rawData : string)
  (w : World FetchRequest) :
  JsString.truthy (JsString.trim rawData) = true ->
  fst (PaperServiceProxy.formatPaperData fetch rawData w)
    = Spec.settle (fetch (calls w) (stage2_call rawData))
        papers_in (Error PaperServiceProxy.stage2_message) /\
  calls (snd (PaperServiceProxy.formatPaperData fetch rawData w))
    = (calls w ++ [stage2_call rawData])%list.
Proof.
  intros Hraw.
  destruct (PaperServiceProxy_call fetch (PaperServiceProxy.stage2_prompt rawData)
              "gemini-2.5-flash" [] w) as [H1 H2].
  cbv zeta in H1, H2. fold (stage2_call rawData) in H1, H2.
  destruct (PaperServiceProxy.callGeminiProxy fetch _ _ _ w) as [[o|t] w1] eqn:E0;
    simpl in H1, H2; unfold settle, papers_in, papers_of in *;
    unfold PaperServiceProxy.formatPaperData, PaperServiceProxy.formatPaperData_try;
    rewrite Hraw; cbn [negb];
    unfold try_catch, bind, ret, throw, console_write, parse; try rewrite E0;
    unfold ret, throw.
  - destruct (fetch (calls w) (stage2_call rawData)) as [resp|]; [|discriminate].
    destruct (normalised PaperServiceProxy.extract resp) as [o'|];
      [|discriminate].
    injection H1 as <-.
    destruct (JSON_parse o) as [[| | | |l|]|]; simpl; auto.
  - simpl. split; [|exact H2].
    destruct (fetch (calls w) (stage2_call rawData)) as [resp|]; [|reflexivity].
    destruct (normalised PaperServiceProxy.extract resp); [discriminate|reflexivity].
Qed.

Lemma settle_resolve {X Y} (a : outcome X) (f : X -> option Y) (e : thrown) (y : Y) :
  settle a f e = Resolve y -> exists x, a = Resolve x /\ f x = Some y.
Proof.
  unfold settle. destruct a as [x|]; [|discriminate].
  destruct (f x) eqn:E; [|discriminate]. intros [= <-]. eauto.
Qed.

(** The whole proxy pipeline: what [searchPapers] settles to and the calls
    it makes, from the replies of the proxy. *)
Lemma PaperServiceProxy_search (fetch : Fetch) (query : string)
  (w : World FetchRequest) :
  let first := settle (fetch (calls w) (stage1_call query))
                 (normalised PaperServiceProxy.extract)
                 (Error PaperServiceProxy.stage1_message) in
  fst (PaperServiceProxy.searchPapers fetch query w)
    = match first with
      | Resolve raw =>
          settle (fetch (calls w ++ [stage1_call query])%list (stage2_call raw))
            papers_in (Error PaperServiceProxy.stage2_message)
      | Reject t => Reject t
      end /\
  calls (snd (PaperServiceProxy.searchPapers fetch query w))
    = match first with
      | Resolve raw => (calls w ++ [stage1_call query; stage2_call raw])%list
      | Reject _ => (calls w ++ [stage1_call query])%list
      end.
Proof.
  intros first.
  unfold PaperServiceProxy.searchPapers, PaperServiceProxy.searchPapers_try,
    try_catch, bind, console_write, ret, throw.
  match goal with
  | |- context [PaperServiceProxy.getRawPaperData fetch query ?w0] =>
      destruct (PaperServiceProxy_stage1 fetch query w0) as [H1 H2];
      destruct (PaperServiceProxy.getRawPaperData fetch query w0) as [[raw|t] w1]
  end; simpl in H1, H2; fold first in H1; rewrite <- H1.
  - symmetry in H1. apply settle_resolve in H1 as (resp & _ & Hn).
    destruct (normalised_truthy _ _ Hn) as [_ Hraw].
    destruct (PaperServiceProxy_stage2 fetch raw w1 Hraw) as [H3 H4].
    rewrite H2 in H3, H4. rewrite <- app_assoc in H4. simpl in H4.
    destruct (PaperServiceProxy.formatPaperData fetch raw w1) as [[papers|t] w2];
      simpl in H3, H4; rewrite <- H3.
    + destruct papers; simpl; auto.
    + simpl. split; [|exact H4].
      unfold settle in H3.
      destruct (fetch _ (stage2_call raw)) as [resp2|];
        [destruct (papers_in resp2); [discriminate|]|];
        injection H3 as ->; reflexivity.
  - simpl. split; [|exact H2].
    unfold first, settle in H1.
    destruct (fetch (calls w) (stage1_call query)) as [resp|];
      [destruct (normalised PaperServiceProxy.extract resp); [discriminate|]|];
      injection H1 as ->; reflexivity.
Qed.

End ProxyPipeline.

(* ================================================================== *)
(** * The SDK pipeline, stage by stage *)

Section DirectStages.
Import Json Js GenAI Spec.

Ltac stage1_proof :=
  unfold PaperService.getRawPaperData, PaperService.getRawPaperData_try,
    PaperServiceGlobal.getRawPaperData, PaperServiceGlobal.getRawPaperData_try,
    stage1_outcome, stage1_text;
  js_unfold;
  match goal with
  | |- context [match ?gc (calls ?w) ?req with _ => _ end] =>
      destruct (gc (calls w) req) as [r|t]; simpl; [|auto];
      destruct (block_of r) as [[reason ratings]|]; simpl; [auto|];
      destruct (text r) as [s|]; simpl; [|auto];
      destruct (JsString.truthy (JsString.trim s)) eqn:E; simpl; [auto|];
      apply truthy_false_iff in E; rewrite E; auto
  end.

Ltac stage2_proof H :=
  unfold PaperService.formatPaperData, PaperService.formatPaperData_try,
    PaperServiceGlobal.formatPaperData, PaperServiceGlobal.formatPaperData_try,
    settle, parsed_text;
  rewrite H; js_unfold; simpl;
  match goal with
  | |- context [match ?gc (calls ?w) ?req with _ => _ end] =>
      destruct (gc (calls w) req) as [r|t]; simpl; [|auto];
      destruct (text r) as [s|]; simpl; [|auto];
      destruct (JSON_parse (JsString.trim s)); simpl; auto
  end.

Lemma PaperService_stage1 (gc : Gateway) (ai : GoogleGenAI) (query : string)
  (w : World GenerateContentParameters) :
  fst (PaperService.getRawPaperData gc ai query w)
    = stage1_outcome (gc (calls w) (PaperService.stage1_request ai query)) /\
  calls (snd (PaperService.getRawPaperData gc ai query w))
    = (calls w ++ [PaperService.stage1_request ai query])%list.
Proof. stage1_proof. Qed.

Lemma PaperService_stage2 (gc : Gateway) (ai : GoogleGenAI) (rawData : string)
  (w : World GenerateContentParameters) :
  JsString.truthy (JsString.trim rawData) = true ->
  fst (PaperService.formatPaperData gc ai rawData w)
    = settle (gc (calls w) (PaperService.stage2_request ai rawData))
        parsed_text (Error PaperService.format_message) /\
  calls (snd (PaperService.formatPaperData gc ai rawData w))
    = (calls w ++ [PaperService.stage2_request ai rawData])%list.
Proof. intros H. stage2_proof H. Qed.

Lemma PaperServiceGlobal_stage1 (ai : GoogleGenAI) (gc : Gateway) (query : string)
  (w : World GenerateContentParameters) :
  fst (PaperServiceGlobal.getRawPaperData ai gc query w)
    = stage1_outcome (gc (calls w) (PaperServiceGlobal.stage1_request ai query)) /\
  calls (snd (PaperServiceGlobal.getRawPaperData ai gc query w))
    = (calls w ++ [PaperServiceGlobal.stage1_request ai query])%list.
Proof. stage1_proof. Qed.

Lemma PaperServiceGlobal_stage2 (ai : GoogleGenAI) (gc : Gateway) (rawData : string)
  (w : World GenerateContentParameters) :
  JsString.truthy (JsString.trim rawData) = true ->
  fst (PaperServiceGlobal.formatPaperData ai gc rawData w)
    = settle (gc (calls w) (PaperServiceGlobal.stage2_request ai rawData))
        parsed_text (Error PaperServiceGlobal.format_message) /\
  calls (snd (PaperServiceGlobal.formatPaperData ai gc rawData w))
    = (calls w ++ [PaperServiceGlobal.stage2_request ai rawData])%list.
Proof. intros H. stage2_proof H. Qed.

End DirectStages.

Section DirectSearch.
Import Json Js GenAI Spec.

Lemma PaperService_blank (gc : Gateway) (ai : GoogleGenAI) (rawData : string)
  (w : World GenerateContentParameters) :
  JsString.truthy (JsString.trim rawData) = false ->
  PaperService.formatPaperData gc ai rawData w = (Resolve (JArr []), w).
Proof. intros H. unfold PaperService.formatPaperData. now rewrite H. Qed.

Lemma PaperServiceGlobal_blank (ai : GoogleGenAI) (gc : Gateway) (rawData : string)
  (w : World GenerateContentParameters) :
  JsString.truthy (JsString.trim rawData) = false ->
  PaperServiceGlobal.formatPaperData ai gc rawData w = (Resolve (JArr []), w).
Proof. intros H. unfold PaperServiceGlobal.formatPaperData. now rewrite H. Qed.

Lemma settle_reject {X Y} (a : outcome X) (f : X -> option Y) (e t : thrown) :
  settle a f e = Reject t -> t = e.
Proof.
  unfold settle. destruct a as [x|]; [destruct (f x); [discriminate|]|];
    now intros [= <-].
Qed.

Lemma settle_fatal {X Y} (reply : outcome X) (value : X -> option Y)
  (run : outcome Y) (e : thrown) :
  run = settle reply value e -> fatal_on_failure reply value run e.
Proof.
  intros ->. unfold fatal_on_failure, settle. repeat split.
  - now intros t ->.
  - now intros r -> ->.
  - intros v. destruct reply as [r|]; [|discriminate].
    destruct (value r) eqn:E; [|discriminate]. intros [= <-]. eauto.
Qed.

(** The whole pipeline of the revision with a module-level client. *)
Lemma PaperServiceGlobal_search (ai : GoogleGenAI) (gc : Gateway) (query : string)
  (w : World GenerateContentParameters) :
  let req1 := PaperServiceGlobal.stage1_request ai query in
  let first := stage1_outcome (gc (calls w) req1) in
  fst (PaperServiceGlobal.searchPapers ai gc query w)
    = match first with
      | Resolve raw =>
          if JsString.truthy (JsString.trim raw) then
            settle (gc (calls w ++ [req1])%list (PaperServiceGlobal.stage2_request ai raw))
              parsed_text (Error PaperServiceGlobal.format_message)
          else Resolve (JArr [])
      | Reject t => Reject (rethrown PaperServiceGlobal.unexpected_message t)
      end /\
  calls (snd (PaperServiceGlobal.searchPapers ai gc query w))
    = match first with
      | Resolve raw =>
          if JsString.truthy (JsString.trim raw)
          then (calls w ++ [req1; PaperServiceGlobal.stage2_request ai raw])%list
          else (calls w ++ [req1])%list
      | Reject _ => (calls w ++ [req1])%list
      end.
Proof.
  intros req1 first.
  unfold PaperServiceGlobal.searchPapers, PaperServiceGlobal.searchPapers_try,
    try_catch, bind, console_write, ret, throw.
  match goal with
  | |- context [PaperServiceGlobal.getRawPaperData ai gc query ?w0] =>
      destruct (PaperServiceGlobal_stage1 ai gc query w0) as [H1 H2];
      destruct (PaperServiceGlobal.getRawPaperData ai gc query w0) as [[raw|t] w1]
  end; simpl in H1, H2; fold req1 in H1, H2; fold first in H1; rewrite <- H1.
  - destruct (JsString.truthy (JsString.trim raw)) eqn:Hraw.
    + destruct (PaperServiceGlobal_stage2 ai gc raw w1 Hraw) as [H3 H4].
      rewrite H2 in H3, H4. rewrite <- app_assoc in H4. simpl in H4.
      destruct (PaperServiceGlobal.formatPaperData ai gc raw w1) as [[papers|t] w2];
        simpl in H3, H4; rewrite <- H3; simpl; [auto|].
      symmetry in H3. apply settle_reject in H3. subst t. simpl. auto.
    + rewrite (PaperServiceGlobal_blank ai gc raw w1 Hraw). simpl. auto.
  - simpl. unfold rethrown. destruct (instanceofError t); simpl; auto.
Qed.

(** The whole pipeline of the revision with [getAi], the key being set. *)
Lemma PaperService_search (gc : Gateway) (vars : list (string * string))
  (k query : string) (w : World GenerateContentParameters) :
  getenv "API_KEY" vars = Some k -> JsString.truthy k = true ->
  let req1 := PaperService.stage1_request (MkClient k) query in
  let first := stage1_outcome (gc (calls w) req1) in
  fst (PaperService.searchPapers gc (Some vars) query w)
    = match first with
      | Resolve raw =>
          if JsString.truthy (JsString.trim raw) then
            settle (gc (calls w ++ [req1])%list
                      (PaperService.stage2_request (MkClient k) raw))
              parsed_text (Error PaperService.format_message)
          else Resolve (JArr [])
      | Reject t => Reject (rethrown PaperService.unexpected_message t)
      end /\
  calls (snd (PaperService.searchPapers gc (Some vars) query w))
    = match first with
      | Resolve raw =>
          if JsString.truthy (JsString.trim raw)
          then (calls w ++ [req1; PaperService.stage2_request (MkClient k) raw])%list
          else (calls w ++ [req1])%list
      | Reject _ => (calls w ++ [req1])%list
      end.
Proof.
  intros Hk Hk' req1 first.
  unfold PaperService.searchPapers, PaperService.searchPapers_try,
    try_catch, bind, console_write, ret, throw.
  rewrite (PaperService_getAi_ok vars k w Hk Hk').
  match goal with
  | |- context [PaperService.getRawPaperData gc ?ai query ?w0] =>
      destruct (PaperService_stage1 gc ai query w0) as [H1 H2];
      destruct (PaperService.getRawPaperData gc ai query w0) as [[raw|t] w1]
  end; simpl in H1, H2; fold req1 in H1, H2; fold first in H1; rewrite <- H1.
  - destruct (JsString.truthy (JsString.trim raw)) eqn:Hraw.
    + destruct (PaperService_stage2 gc (MkClient k) raw w1 Hraw) as [H3 H4].
      rewrite H2 in H3, H4. rewrite <- app_assoc in H4. simpl in H4.
      destruct (PaperService.formatPaperData gc (MkClient k) raw w1) as [[papers|t] w2];
        simpl in H3, H4; rewrite <- H3; simpl; [auto|].
      symmetry in H3. apply settle_reject in H3. subst t. simpl. auto.
    + rewrite (PaperService_blank gc (MkClient k) raw w1 Hraw). simpl. auto.
  - simpl. unfold rethrown. destruct (instanceofError t); simpl; auto.
Qed.

End DirectSearch.

(* ================================================================== *)
(** * Stage 2: malformed output *)

Section Structuring.
Import Json Js Spec.

Lemma stage1_text_trimmed (r : GenAI.GenerateContentResponse) :
  JsString.trim (stage1_text r) = stage1_text r.
Proof.
  unfold stage1_text. destruct (GenAI.text r); [apply trim_idempotent|reflexivity].
Qed.

(** C3, refuted as stated.  In the SDK revision a stage-2 output that is
    JSON but not an array, here the text of an empty object, is not
    rejected: [searchPapers] resolves with the object.  And the error that
    reports an unparseable output is the very error that reports a failed
    call of stage 2, in the SDK revision and through the proxy alike. *)
Lemma C3_counterexample :
  (JSON_parse "{}" = Some (JObj []) /\
   isArray (JObj []) = false /\
   result (PaperService.searchPapers (Examples.gateway_then "{}") Examples.env "q")
     = Resolve (JObj [])) /\
  (result (PaperService.searchPapers (Examples.gateway_then "not json") Examples.env "q")
     = Reject (Error PaperService.format_message) /\
   result (PaperService.searchPapers Examples.gateway_stage2_down Examples.env "q")
     = Reject (Error PaperService.format_message)) /\
  (result (PaperServiceProxy.searchPapers (Examples.fetch_then "not json") "q")
     = Reject (Error PaperServiceProxy.stage2_message) /\
   result (PaperServiceProxy.searchPapers Examples.fetch_stage2_down "q")
     = Reject (Error PaperServiceProxy.stage2_message)).
Proof. repeat split; reflexivity. Qed.

(** C3, amended.  Stage 2 is fatal on failure in every revision: when its
    call fails and when no output can be read from the reply, an output
    that is not parseable JSON among them, [searchPapers] rejects with the
    fixed stage-2 error of the revision, and it resolves only with an
    output that was read.  Through the proxy an output that parses to
    anything but an array cannot be read either.  The stage-2 error is not
    the safety-block error, nor the error of a failed stage 1. *)
Theorem C3_unparseable_output_is_rejected :
  (forall (gc : GenAI.Gateway) (vars : list (string * string)) (k query : string)
          (r1 : GenAI.GenerateContentResponse),
     getenv "API_KEY" vars = Some k -> JsString.truthy k = true ->
     let ai := GenAI.MkClient k in
     gc [] (PaperService.stage1_request ai query) = Resolve r1 ->
     GenAI.block_of r1 = None ->
     JsString.truthy (stage1_text r1) = true ->
     fatal_on_failure
       (gc [PaperService.stage1_request ai query]
           (PaperService.stage2_request ai (stage1_text r1)))
       parsed_text
       (result (PaperService.searchPapers gc (Some vars) query))
       (Error PaperService.format_message)) /\
  (forall (ai : GenAI.GoogleGenAI) (gc : GenAI.Gateway) (query : string)
          (r1 : GenAI.GenerateContentResponse),
     gc [] (PaperServiceGlobal.stage1_request ai query) = Resolve r1 ->
     GenAI.block_of r1 = None ->
     JsString.truthy (stage1_text r1) = true ->
     fatal_on_failure
       (gc [PaperServiceGlobal.stage1_request ai query]
           (PaperServiceGlobal.stage2_request ai (stage1_text r1)))
       parsed_text
       (result (PaperServiceGlobal.searchPapers ai gc query))
       (Error PaperServiceGlobal.format_message)) /\
  (forall (fetch : Http.Fetch) (query raw : string) (resp1 : Http.Response),
     fetch [] (stage1_call query) = Resolve resp1 ->
     normalised PaperServiceProxy.extract resp1 = Some raw ->
     fatal_on_failure
       (fetch [stage1_call query] (stage2_call raw))
       papers_in
       (result (PaperServiceProxy.searchPapers fetch query))
       (Error PaperServiceProxy.stage2_message)) /\
  (forall r2 : GenAI.GenerateContentResponse,
     (GenAI.text r2 = None \/
      exists t, GenAI.text r2 = Some t /\ JSON_parse (JsString.trim t) = None) ->
     parsed_text r2 = None) /\
  (forall (resp2 : Http.Response) (o : string),
     normalised PaperServiceProxy.extract resp2 = Some o ->
     (JSON_parse o = None \/ exists v, JSON_parse o = Some v /\ isArray v = false) ->
     papers_in resp2 = None) /\
  (forall reason categories : string,
     Error PaperService.format_message
       <> Error (GenAI.safety_message reason categories)) /\
  Error PaperServiceProxy.stage2_message <> Error PaperServiceProxy.stage1_message /\
  Error PaperServiceProxy.stage2_message <> Error PaperServiceProxy.proxy_message.
Proof.
  split; [|split; [|split; [|split; [|split; [|split; [|split]]]]]].
  - intros gc vars k query r1 Hk Hk' ai H1 Hb Ht.
    apply settle_fatal.
    destruct (PaperService_search gc vars k query start Hk Hk') as [H _].
    unfold result. rewrite H. simpl calls. fold ai. rewrite H1.
    unfold stage1_outcome. now rewrite Hb, stage1_text_trimmed, Ht.
  - intros ai gc query r1 H1 Hb Ht.
    apply settle_fatal.
    destruct (PaperServiceGlobal_search ai gc query start) as [H _].
    unfold result. rewrite H. simpl calls. rewrite H1.
    unfold stage1_outcome. now rewrite Hb, stage1_text_trimmed, Ht.
  - intros fetch query raw resp1 H1 Hn1.
    apply settle_fatal.
    destruct (PaperServiceProxy_search fetch query start) as [H _].
    unfold result. rewrite H. simpl calls. rewrite H1.
    unfold settle at 1. now rewrite Hn1.
  - intros r2 [H | (t & H & Hp)]; unfold parsed_text; now rewrite H.
  - intros resp2 o Hn H. unfold papers_in, papers_of. rewrite Hn.
    destruct H as [-> | (v & -> & Hv)]; [reflexivity|].
    destruct v; try reflexivity; discriminate.
  - intros reason categories. discriminate.
  - discriminate.
  - discriminate.
Qed.

(** C3 through a proxy whose second answer is the text [not json]. *)
Lemma C3_witness :
  result (PaperServiceProxy.searchPapers (Examples.fetch_then "not json") "q")
    = Reject (Error PaperServiceProxy.stage2_message).
Proof.
  refine (proj1 (proj2 (proj1 (proj2 (proj2 C3_unparseable_output_is_rejected))
                          (Examples.fetch_then "not json") "q" "Paper A"
                          (Http.MkResponse 200 (text_body "Paper A"))
                          eq_refl eq_refl))
            (Http.MkResponse 200 (text_body "not json")) eq_refl _).
  exact (proj1 (proj2 (proj2 (proj2 (proj2 C3_unparseable_output_is_rejected))))
           (Http.MkResponse 200 (text_body "not json")) "not json" eq_refl
           (or_introl eq_refl)).
Defined.

End Structuring.

(* ================================================================== *)
(** * What [searchPapers] returns *)

Section Returned.
Import Json Js Spec.

Lemma papers_of_some (o : string) (l : list json) :
  papers_of o = Some l -> JSON_parse o = Some (JArr l).
Proof.
  unfold papers_of. destruct (JSON_parse o) as [[| | | |l'|]|]; try discriminate.
  now intros [= ->].
Qed.

(** C5, refuted as stated.  Through the proxy, a stage-2 output that is the
    text of an array holding one empty object makes [searchPapers] resolve
    with that array, whose only element has no authors, no year and no
    citation count. *)
Lemma C5_counterexample :
  result (PaperServiceProxy.searchPapers (Examples.fetch_then "[{}]") "transformers")
    = Resolve [JObj []] /\
  PaperRecord.invariants (JObj []) = false /\
  result (PaperService.searchPapers (Examples.gateway_then "[{}]") Examples.env
            "transformers")
    = Resolve (JArr [JObj []]).
Proof. repeat split; reflexivity. Qed.

(** C5, amended.  What [searchPapers] resolves with is the empty array of
    the short-circuit, or exactly the value [JSON.parse] made of the
    stage-2 output (through the proxy, always an array); no element is
    checked. *)
Theorem C5_resolves_with_the_parsed_output :
  (forall (gc : GenAI.Gateway) (vars : list (string * string)) (k query : string)
          (v : json),
     getenv "API_KEY" vars = Some k -> JsString.truthy k = true ->
     let ai := GenAI.MkClient k in
     let run := PaperService.searchPapers gc (Some vars) query in
     result run = Resolve v ->
     (v = JArr [] /\ requests run = [PaperService.stage1_request ai query]) \/
     (exists raw r2,
        requests run = [PaperService.stage1_request ai query;
                        PaperService.stage2_request ai raw] /\
        gc [PaperService.stage1_request ai query]
           (PaperService.stage2_request ai raw) = Resolve r2 /\
        parsed_text r2 = Some v)) /\
  (forall (ai : GenAI.GoogleGenAI) (gc : GenAI.Gateway) (query : string) (v : json),
     let run := PaperServiceGlobal.searchPapers ai gc query in
     result run = Resolve v ->
     (v = JArr [] /\ requests run = [PaperServiceGlobal.stage1_request ai query]) \/
     (exists raw r2,
        requests run = [PaperServiceGlobal.stage1_request ai query;
                        PaperServiceGlobal.stage2_request ai raw] /\
        gc [PaperServiceGlobal.stage1_request ai query]
           (PaperServiceGlobal.stage2_request ai raw) = Resolve r2 /\
        parsed_text r2 = Some v)) /\
  (forall (fetch : Http.Fetch) (query : string) (papers : list json),
     let run := PaperServiceProxy.searchPapers fetch query in
     result run = Resolve papers ->
     exists raw resp2 o,
       requests run = [stage1_call query; stage2_call raw] /\
       fetch [stage1_call query] (stage2_call raw) = Resolve resp2 /\
       normalised PaperServiceProxy.extract resp2 = Some o /\
       JSON_parse o = Some (JArr papers)).
Proof.
  split; [|split].
  - intros gc vars k query v Hk Hk' ai run.
    destruct (PaperService_search gc vars k query start Hk Hk') as [H Hc].
    unfold result, requests, run. rewrite H, Hc. clear H Hc. simpl calls.
    fold ai. destruct (stage1_outcome _) as [raw|t]; [|discriminate].
    destruct (JsString.truthy (JsString.trim raw)).
    + intros Hs. apply settle_resolve in Hs as (r2 & H2 & Hp).
      right. exists raw, r2. auto.
    + intros [= <-]. left. auto.
  - intros ai gc query v run.
    destruct (PaperServiceGlobal_search ai gc query start) as [H Hc].
    unfold result, requests, run. rewrite H, Hc. clear H Hc. simpl calls.
    destruct (stage1_outcome _) as [raw|t]; [|discriminate].
    destruct (JsString.truthy (JsString.trim raw)).
    + intros Hs. apply settle_resolve in Hs as (r2 & H2 & Hp).
      right. exists raw, r2. auto.
    + intros [= <-]. left. auto.
  - intros fetch query papers run.
    destruct (PaperServiceProxy_search fetch query start) as [H Hc].
    unfold result, requests, run. rewrite H, Hc. clear H Hc. simpl calls.
    destruct (settle (fetch [] (stage1_call query)) _ _) as [raw|t]; [|discriminate].
    intros Hs. apply settle_resolve in Hs as (resp2 & H2 & Hp).
    unfold papers_in in Hp.
    destruct (normalised PaperServiceProxy.extract resp2) as [o|] eqn:Hn;
      [|discriminate].
    apply papers_of_some in Hp.
    exists raw, resp2, o. auto.
Qed.

(** C5 through a proxy whose second answer is the text of an array holding
    one empty object. *)
Lemma C5_witness :
  let fetch := Examples.fetch_then "[{}]" in
  exists raw resp2 o,
    requests (PaperServiceProxy.searchPapers fetch "transformers")
      = [stage1_call "transformers"; stage2_call raw] /\
    fetch [stage1_call "transformers"] (stage2_call raw) = Resolve resp2 /\
    normalised PaperServiceProxy.extract resp2 = Some o /\
    JSON_parse o = Some (JArr [JObj []]).
Proof.
  exact (proj2 (proj2 C5_resolves_with_the_parsed_output)
           (Examples.fetch_then "[{}]") "transformers" [JObj []] eq_refl).
Defined.

End Returned.

(* ================================================================== *)
(** * How errors travel *)

Section Propagation.
Import Json Js Spec.

Ltac orchestrate :=
  unfold PaperService.searchPapers, PaperService.searchPapers_try,
    PaperServiceGlobal.searchPapers, PaperServiceGlobal.searchPapers_try,
    PaperServiceProxy.searchPapers, PaperServiceProxy.searchPapers_try,
    entered, rethrown, try_catch, bind, console_write, ret, throw in *;
  cbn [snd] in *.

(** C8, refuted as stated.  Through the proxy, the transport error raised
    inside stage 1 for a reply of status 500 is replaced twice before it
    reaches the caller of [searchPapers]: by the error of
    [callGeminiProxy], then by the error of [getRawPaperData]. *)
Lemma C8_counterexample :
  result (PaperServiceProxy.callGeminiProxy_try Examples.fetch_500
            (PaperServiceProxy.stage1_prompt "q") "gemini-2.5-pro" [])
    = Reject (Error "Proxy request failed (500): boom") /\
  result (PaperServiceProxy.getRawPaperData_try Examples.fetch_500 "q")
    = Reject (Error PaperServiceProxy.proxy_message) /\
  result (PaperServiceProxy.searchPapers Examples.fetch_500 "q")
    = Reject (Error PaperServiceProxy.stage1_message) /\
  Error PaperServiceProxy.stage1_message <> Error PaperServiceProxy.proxy_message /\
  Error PaperServiceProxy.stage1_message <> Error "Proxy request failed (500): boom".
Proof. repeat split; try reflexivity; discriminate. Qed.

(** C8, amended.  Whatever [getRawPaperData] or [formatPaperData] rejects
    with reaches the caller of [searchPapers] as it is when it is an
    [Error], and as the one unexpected-error otherwise.  What is raised
    inside a stage goes through the [catch] of that stage first: stage 1 of
    the SDK revisions throws it again unchanged, their stage 2 replaces it
    by the formatting error, and the stages of the proxy revision replace
    it by their own fixed errors. *)
Theorem C8_stage_rejections_reach_the_caller :
  (forall (gc : GenAI.Gateway) (vars : list (string * string)) (k query : string)
          (w : World GenAI.GenerateContentParameters) (t : thrown),
     getenv "API_KEY" vars = Some k -> JsString.truthy k = true ->
     let ai := GenAI.MkClient k in
     let w0 := entered "Starting two-stage search for: " query w in
     (fst (PaperService.getRawPaperData gc ai query w0) = Reject t \/
      exists raw w1,
        PaperService.getRawPaperData gc ai query w0 = (Resolve raw, w1) /\
        fst (PaperService.formatPaperData gc ai raw w1) = Reject t) ->
     fst (PaperService.searchPapers gc (Some vars) query w)
       = Reject (rethrown PaperService.unexpected_message t)) /\
  (forall (ai : GenAI.GoogleGenAI) (gc : GenAI.Gateway) (query : string)
          (w : World GenAI.GenerateContentParameters) (t : thrown),
     let w0 := entered "Starting two-stage search for: " query w in
     (fst (PaperServiceGlobal.getRawPaperData ai gc query w0) = Reject t \/
      exists raw w1,
        PaperServiceGlobal.getRawPaperData ai gc query w0 = (Resolve raw, w1) /\
        fst (PaperServiceGlobal.formatPaperData ai gc raw w1) = Reject t) ->
     fst (PaperServiceGlobal.searchPapers ai gc query w)
       = Reject (rethrown PaperServiceGlobal.unexpected_message t)) /\
  (forall (fetch : Http.Fetch) (query : string) (w : World Http.FetchRequest)
          (t : thrown),
     let w0 := entered "🔍 Starting Gemini-powered paper search for: " query w in
     (fst (PaperServiceProxy.getRawPaperData fetch query w0) = Reject t \/
      exists raw w1,
        PaperServiceProxy.getRawPaperData fetch query w0 = (Resolve raw, w1) /\
        fst (PaperServiceProxy.formatPaperData fetch raw w1) = Reject t) ->
     fst (PaperServiceProxy.searchPapers fetch query w)
       = Reject (rethrown PaperServiceProxy.unexpected_message t)) /\
  (forall (gc : GenAI.Gateway) (ai : GenAI.GoogleGenAI) (query rawData : string)
          (w w' : World GenAI.GenerateContentParameters) (t : thrown),
     (PaperService.getRawPaperData_try gc ai query w = (Reject t, w') ->
      fst (PaperService.getRawPaperData gc ai query w) = Reject t) /\
     (PaperServiceGlobal.getRawPaperData_try ai gc query w = (Reject t, w') ->
      fst (PaperServiceGlobal.getRawPaperData ai gc query w) = Reject t) /\
     (JsString.truthy (JsString.trim rawData) = true ->
      PaperService.formatPaperData_try gc ai rawData w = (Reject t, w') ->
      fst (PaperService.formatPaperData gc ai rawData w)
        = Reject (Error PaperService.format_message)) /\
     (JsString.truthy (JsString.trim rawData) = true ->
      PaperServiceGlobal.formatPaperData_try ai gc rawData w = (Reject t, w') ->
      fst (PaperServiceGlobal.formatPaperData ai gc rawData w)
        = Reject (Error PaperServiceGlobal.format_message))) /\
  (forall (fetch : Http.Fetch) (prompt : GenAI.Prompt) (model query rawData : string)
          (cfg : list (string * json)) (w w' : World Http.FetchRequest) (t : thrown),
     (PaperServiceProxy.callGeminiProxy_try fetch prompt model cfg w = (Reject t, w') ->
      fst (PaperServiceProxy.callGeminiProxy fetch prompt model cfg w)
        = Reject (Error PaperServiceProxy.proxy_message)) /\
     (PaperServiceProxy.getRawPaperData_try fetch query w = (Reject t, w') ->
      fst (PaperServiceProxy.getRawPaperData fetch query w)
        = Reject (Error PaperServiceProxy.stage1_message)) /\
     (JsString.truthy (JsString.trim rawData) = true ->
      PaperServiceProxy.formatPaperData_try fetch rawData w = (Reject t, w') ->
      fst (PaperServiceProxy.formatPaperData fetch rawData w)
        = Reject (Error PaperServiceProxy.stage2_message))).
Proof.
  split; [|split; [|split; [|split]]].
  - intros gc vars k query w t Hk Hk' ai w0 H.
    unfold PaperService.searchPapers. unfold bind at 1.
    rewrite (PaperService_getAi_ok vars k w Hk Hk').
    subst w0 ai. orchestrate.
    destruct H as [H | (raw & w1 & H1 & H2)].
    + destruct (PaperService.getRawPaperData gc _ query _) as [[raw|t'] w1];
        simpl in H; [discriminate|]. injection H as ->.
      destruct (instanceofError t); reflexivity.
    + rewrite H1.
      destruct (PaperService.formatPaperData gc _ raw w1) as [[v|t'] w2];
        simpl in H2; [discriminate|]. injection H2 as ->.
      destruct (instanceofError t); reflexivity.
  - intros ai gc query w t w0 H. subst w0. orchestrate.
    destruct H as [H | (raw & w1 & H1 & H2)].
    + destruct (PaperServiceGlobal.getRawPaperData ai gc query _) as [[raw|t'] w1];
        simpl in H; [discriminate|]. injection H as ->.
      destruct (instanceofError t); reflexivity.
    + rewrite H1.
      destruct (PaperServiceGlobal.formatPaperData ai gc raw w1) as [[v|t'] w2];
        simpl in H2; [discriminate|]. injection H2 as ->.
      destruct (instanceofError t); reflexivity.
  - intros fetch query w t w0 H. subst w0. orchestrate.
    destruct H as [H | (raw & w1 & H1 & H2)].
    + destruct (PaperServiceProxy.getRawPaperData fetch query _) as [[raw|t'] w1];
        simpl in H; [discriminate|]. injection H as ->.
      destruct (instanceofError t); reflexivity.
    + rewrite H1.
      destruct (PaperServiceProxy.formatPaperData fetch raw w1) as [[v|t'] w2];
        simpl in H2; [discriminate|]. injection H2 as ->.
      destruct (instanceofError t); reflexivity.
  - intros gc ai query rawData w w' t. repeat split.
    + intros H. unfold PaperService.getRawPaperData.
      now rewrite (try_catch_reject _ _ _ _ _ H).
    + intros H. unfold PaperServiceGlobal.getRawPaperData.
      now rewrite (try_catch_reject _ _ _ _ _ H).
    + intros Hraw H. unfold PaperService.formatPaperData. rewrite Hraw. simpl.
      now rewrite (try_catch_reject _ _ _ _ _ H).
    + intros Hraw H. unfold PaperServiceGlobal.formatPaperData. rewrite Hraw. simpl.
      now rewrite (try_catch_reject _ _ _ _ _ H).
  - intros fetch prompt model query rawData cfg w w' t. repeat split.
    + intros H. unfold PaperServiceProxy.callGeminiProxy.
      now rewrite (try_catch_reject _ _ _ _ _ H).
    + intros H. unfold PaperServiceProxy.getRawPaperData.
      now rewrite (try_catch_reject _ _ _ _ _ H).
    + intros Hraw H. unfold PaperServiceProxy.formatPaperData. rewrite Hraw. simpl.
      now rewrite (try_catch_reject _ _ _ _ _ H).
Qed.

(** C8 when the network is down: the error of the SDK reaches the caller. *)
Lemma C8_witness :
  fst (PaperService.searchPapers Examples.gateway_down Examples.env "q" start)
    = Reject Examples.network_down.
Proof.
  exact (proj1 C8_stage_rejections_reach_the_caller Examples.gateway_down
           [("API_KEY", "secret"); ("GEMINI_API_KEY", "secret")] "secret" "q"
           start Examples.network_down eq_refl eq_refl (or_introl eq_refl)).
Defined.

End Propagation.

(* ================================================================== *)
(** * The output normaliser *)

Section Normaliser.
Import Json Js Http Spec.

(** The normaliser of [paperService.ts]: the three shapes in their order,
    the first truthy one selected; a selected string is returned trimmed
    when something is left of it, and the empty-response error is raised
    exactly when the selected string, or the empty string selected when no
    shape holds a truthy value, is blank. *)
Lemma PaperServiceProxy_extract_contract (data : json) :
  let a := prop (Some data) "output" in
  let b := prop (Some data) "text" in
  let c := candidate_text (Some data) in
  PaperServiceProxy.output_of data
    = (if truthy a then a else if truthy b then b
       else if truthy c then c else Some (JStr "")) /\
  (forall s, PaperServiceProxy.output_of data = Some (JStr s) ->
     result (PaperServiceProxy.extract data)
       = if JsString.truthy (JsString.trim s) then Resolve (JsString.trim s)
         else Reject (Error PaperServiceProxy.empty_message)) /\
  (result (PaperServiceProxy.extract data)
     = Reject (Error PaperServiceProxy.empty_message) <->
   exists s, PaperServiceProxy.output_of data = Some (JStr s) /\ JsString.trim s = "").
Proof.
  intros a b c. split; [|split].
  - unfold PaperServiceProxy.output_of, or_else. fold a b c.
    destruct (truthy a) eqn:Ea; destruct (truthy b) eqn:Eb;
      destruct (truthy c) eqn:Ec;
      repeat (cbv iota; rewrite ?Ea, ?Eb, ?Ec); reflexivity.
  - intros s Hs. unfold PaperServiceProxy.extract, call_trim. js_unfold.
    rewrite Hs. simpl. destruct (JsString.truthy (JsString.trim s)); reflexivity.
  - unfold PaperServiceProxy.extract, call_trim. js_unfold.
    destruct (PaperServiceProxy.output_of data) as [[| | |s| |]|]; simpl;
      try (split; [discriminate | intros (s' & [=] & _)]).
    destruct (JsString.truthy (JsString.trim s)) eqn:E; simpl.
    + split; [discriminate|]. intros (s' & [= <-] & H). now rewrite H in E.
    + split; [|reflexivity]. intros _. exists s. split; [reflexivity|].
      now apply truthy_false_iff.
Qed.

(** C4.  The envelope [{"text": "Paper A"}], the one shape the worker of
    this repository answers with, is accepted by the normaliser of
    [paperService.ts] and lost by the one of [geminiService.ts], which
    does not read the [text] field: every call of that service through the
    worker fails.  An output of white space only is an empty response for
    the first and a result for the second. *)
Theorem C4_text_field_is_not_read_by_the_gemini_service :
  let data := JObj [("text", JStr "Paper A")] in
  JSON_parse (text_body "Paper A") = Some data /\
  result (PaperServiceProxy.extract data) = Resolve "Paper A" /\
  result (GeminiServiceProxy.extract data)
    = Reject (Error GeminiServiceProxy.empty_message) /\
  result (GeminiServiceProxy.callGeminiProxy (Examples.fetch_then "[]")
            (GenAI.MkPrompt "generateSuggestions" []) "gemini-2.5-flash")
    = Reject (Error GeminiServiceProxy.proxy_message) /\
  result (PaperServiceProxy.extract (JObj [("output", JStr "  ")]))
    = Reject (Error PaperServiceProxy.empty_message) /\
  result (GeminiServiceProxy.extract (JObj [("output", JStr "  ")])) = Resolve "".
Proof. repeat split; reflexivity. Qed.

End Normaliser.

(* ================================================================== *)
(** * The single-shot transforms *)

Section Transforms.
Import Json Js Spec.

Lemma parsed_text_blank (r : GenAI.GenerateContentResponse) :
  no_text r = true -> parsed_text r = None.
Proof.
  unfold no_text, parsed_text. destruct (GenAI.text r) as [t|]; [|reflexivity].
  intros H. apply negb_true_iff, truthy_false_iff in H. now rewrite H.
Qed.

Lemma GeminiService_getClient_ok (vars : list (string * string)) (k : string)
  (w : World GenAI.GenerateContentParameters) :
  getenv "GEMINI_API_KEY" vars = Some k -> JsString.truthy k = true ->
  GeminiService.getClient (Some vars) w = (Resolve (GenAI.MkClient k), w).
Proof.
  intros H1 H2. unfold GeminiService.getClient. js_unfold. now rewrite H1, H2.
Qed.

Lemma GeminiServiceProxy_extract_pure (data : json) (w : World Http.FetchRequest) :
  GeminiServiceProxy.extract data w = (result (GeminiServiceProxy.extract data), w).
Proof.
  unfold GeminiServiceProxy.extract, Http.call_trim. js_unfold.
  destruct (truthy (GeminiServiceProxy.output_of data)); simpl; [|reflexivity].
  destruct (GeminiServiceProxy.output_of data) as [[| | |s| |]|]; reflexivity.
Qed.

Lemma GeminiServiceProxy_call (fetch : Http.Fetch) (prompt : GenAI.Prompt)
  (model : string) (w : World Http.FetchRequest) :
  let req := GeminiServiceProxy.proxy_request prompt model in
  fst (GeminiServiceProxy.callGeminiProxy fetch prompt model w)
    = settle (fetch (calls w) req) (normalised GeminiServiceProxy.extract)
        (Error GeminiServiceProxy.proxy_message) /\
  calls (snd (GeminiServiceProxy.callGeminiProxy fetch prompt model w))
    = (calls w ++ [req])%list.
Proof.
  intros req.
  unfold GeminiServiceProxy.callGeminiProxy, GeminiServiceProxy.callGeminiProxy_try.
  js_unfold. unfold settle, normalised. fold req.
  destruct (fetch (calls w) req) as [resp|t]; simpl; [|auto].
  destruct (Http.ok resp); simpl; [|auto].
  destruct (JSON_parse (Http.body resp)) as [data|]; simpl; [|auto].
  rewrite GeminiServiceProxy_extract_pure.
  destruct (result (GeminiServiceProxy.extract data)); simpl; auto.
Qed.

Ltac sdk_transform Hk Hk' :=
  unfold GeminiService.generateSuggestions, GeminiService.generateSuggestions_try,
    GeminiService.generateComparison, GeminiService.generateComparison_try,
    GeminiService.generateKnowledgeGraph, GeminiService.generateKnowledgeGraph_try,
    GeminiService.generateSinglePaperAnalysis,
    GeminiService.generateSinglePaperAnalysis_try,
    GeminiService.getClient, settle, parsed_text,
    suggestions_request, comparison_request, graph_request, analysis_request;
  js_unfold; simpl; rewrite Hk, Hk'; simpl;
  match goal with
  | |- context [match ?gc [] ?req with _ => _ end] =>
      destruct (gc [] req) as [r|t]; simpl; [|reflexivity];
      destruct (GenAI.text r) as [s|]; simpl; [|reflexivity];
      destruct (JSON_parse (JsString.trim s)); reflexivity
  end.

Ltac proxy_transform :=
  unfold GeminiServiceProxy.generateSuggestions, GeminiServiceProxy.generateSuggestions_try,
    GeminiServiceProxy.generateComparison, GeminiServiceProxy.generateComparison_try,
    GeminiServiceProxy.generateKnowledgeGraph,
    GeminiServiceProxy.generateKnowledgeGraph_try,
    GeminiServiceProxy.generateSinglePaperAnalysis,
    GeminiServiceProxy.generateSinglePaperAnalysis_try,
    suggestions_call, comparison_call, graph_call, analysis_call,
    result, try_catch, bind, ret, throw, console_write, parse;
  match goal with
  | |- context [GeminiServiceProxy.callGeminiProxy ?fetch ?p ?m start] =>
      destruct (GeminiServiceProxy_call fetch p m start) as [H _];
      destruct (GeminiServiceProxy.callGeminiProxy fetch p m start) as [[o|t] w1];
      simpl in H; simpl calls in *; unfold settle, parsed_reply in *;
      match goal with
      | |- context [match fetch [] ?req with _ => _ end] =>
          destruct (fetch [] req) as [resp|];
          [destruct (normalised GeminiServiceProxy.extract resp) as [o'|]|];
          try discriminate; try (injection H as <-);
          try reflexivity;
          destruct (JSON_parse o); reflexivity
      end
  end.

(** The SDK transforms, the key being set: each settles on the reply of
    the gateway as [settle] says. *)
Lemma GeminiService_runs (gc : GenAI.Gateway) (vars : list (string * string))
  (k : string) :
  getenv "GEMINI_API_KEY" vars = Some k -> JsString.truthy k = true ->
  (forall query,
     result (GeminiService.generateSuggestions gc (Some vars) query)
       = match settle (gc [] (suggestions_request k query)) parsed_text (Error "") with
         | Resolve v => Resolve v
         | Reject _ => Resolve (JArr [])
         end) /\
  (forall papers,
     result (GeminiService.generateComparison gc (Some vars) papers)
       = settle (gc [] (comparison_request k papers)) parsed_text
           (Error GeminiService.comparison_message)) /\
  (forall papers,
     result (GeminiService.generateKnowledgeGraph gc (Some vars) papers)
       = settle (gc [] (graph_request k papers)) parsed_text
           (Error GeminiService.graph_message)) /\
  (forall paper,
     result (GeminiService.generateSinglePaperAnalysis gc (Some vars) paper)
       = settle (gc [] (analysis_request k paper)) parsed_text
           (Error GeminiService.analysis_message)).
Proof.
  intros Hk Hk'. repeat split; intros; sdk_transform Hk Hk'.
Qed.

(** The proxy transforms likewise. *)
Lemma GeminiServiceProxy_runs (fetch : Http.Fetch) :
  (forall query,
     result (GeminiServiceProxy.generateSuggestions fetch query)
       = match settle (fetch [] (suggestions_call query)) parsed_reply (Error "") with
         | Resolve v => Resolve v
         | Reject _ => Resolve (JArr [])
         end) /\
  (forall papers,
     result (GeminiServiceProxy.generateComparison fetch papers)
       = settle (fetch [] (comparison_call papers)) parsed_reply
           (Error GeminiServiceProxy.comparison_message)) /\
  (forall papers,
     result (GeminiServiceProxy.generateKnowledgeGraph fetch papers)
       = settle (fetch [] (graph_call papers)) parsed_reply
           (Error GeminiServiceProxy.graph_message)) /\
  (forall paper,
     result (GeminiServiceProxy.generateSinglePaperAnalysis fetch paper)
       = settle (fetch [] (analysis_call paper)) parsed_reply
           (Error GeminiServiceProxy.analysis_message)).
Proof.
  repeat split; intros; proxy_transform.
Qed.

(** C6.  [generateSuggestions] always resolves.  Whenever its [try] block
    fails, be it the key check, the call, the reading of the text or the
    parse, it resolves to the empty array.  Both revisions. *)
Theorem C6_generateSuggestions_never_rejects :
  (forall (gc : GenAI.Gateway) (env : ProcessEnv) (query : string)
          (w : World GenAI.GenerateContentParameters),
     (exists v w', GeminiService.generateSuggestions gc env query w = (Resolve v, w')) /\
     (forall t w', GeminiService.generateSuggestions_try gc env query w = (Reject t, w') ->
        fst (GeminiService.generateSuggestions gc env query w) = Resolve (JArr []))) /\
  (forall (gc : GenAI.Gateway) (vars : list (string * string)) (k query : string),
     getenv "GEMINI_API_KEY" vars = Some k -> JsString.truthy k = true ->
     let run := result (GeminiService.generateSuggestions gc (Some vars) query) in
     (forall t, gc [] (suggestions_request k query) = Reject t ->
        run = Resolve (JArr [])) /\
     (forall r, gc [] (suggestions_request k query) = Resolve r ->
        parsed_text r = None -> run = Resolve (JArr []))) /\
  (forall (fetch : Http.Fetch) (query : string) (w : World Http.FetchRequest),
     (exists v w', GeminiServiceProxy.generateSuggestions fetch query w = (Resolve v, w')) /\
     (forall t w',
        GeminiServiceProxy.generateSuggestions_try fetch
          (GeminiServiceProxy.suggestions_prompt query) w = (Reject t, w') ->
        fst (GeminiServiceProxy.generateSuggestions fetch query w) = Resolve (JArr []))) /\
  (forall (fetch : Http.Fetch) (query : string),
     let run := result (GeminiServiceProxy.generateSuggestions fetch query) in
     (forall t, fetch [] (suggestions_call query) = Reject t ->
        run = Resolve (JArr [])) /\
     (forall resp, fetch [] (suggestions_call query) = Resolve resp ->
        parsed_reply resp = None -> run = Resolve (JArr []))).
Proof.
  split; [|split; [|split]].
  - intros gc env query w. unfold GeminiService.generateSuggestions. split.
    + unfold try_catch.
      destruct (GeminiService.generateSuggestions_try gc env query w) as [[v|t] w1];
        [eauto|]. unfold bind, console_write, ret. eauto.
    + intros t w' H. now rewrite (try_catch_reject _ _ _ _ _ H).
  - intros gc vars k query Hk Hk' run.
    pose proof (proj1 (GeminiService_runs gc vars k Hk Hk') query) as H.
    fold run in H. rewrite H. unfold settle.
    split; [intros t -> | intros r -> ->]; reflexivity.
  - intros fetch query w. unfold GeminiServiceProxy.generateSuggestions. split.
    + unfold try_catch.
      destruct (GeminiServiceProxy.generateSuggestions_try fetch _ w) as [[v|t] w1];
        [eauto|]. unfold bind, console_write, ret. eauto.
    + intros t w' H. now rewrite (try_catch_reject _ _ _ _ _ H).
  - intros fetch query run.
    pose proof (proj1 (GeminiServiceProxy_runs fetch) query) as H.
    fold run in H. rewrite H. unfold settle.
    split; [intros t -> | intros r -> ->]; reflexivity.
Qed.

(** C6 when the network is down. *)
Lemma C6_witness :
  result (GeminiService.generateSuggestions Examples.gateway_down Examples.env "q")
    = Resolve (JArr []).
Proof.
  exact (proj1 (proj1 (proj2 C6_generateSuggestions_never_rejects)
                  Examples.gateway_down
                  [("API_KEY", "secret"); ("GEMINI_API_KEY", "secret")] "secret" "q"
                  eq_refl eq_refl)
           Examples.network_down eq_refl).
Defined.

(** C7.  Each of [generateComparison], [generateKnowledgeGraph] and
    [generateSinglePaperAnalysis] rejects with its own fixed error whenever
    its [try] block fails; with the key set, that is when the call fails
    and when the reply holds no text or a text that is not JSON (a blank
    text among them), and the promise resolves only with a parsed output.
    The three messages differ.  Both revisions. *)
Theorem C7_transforms_are_fatal_on_failure :
  (forall (gc : GenAI.Gateway) (env : ProcessEnv) (papers : list Types.Paper)
          (paper : Types.Paper) (w w' : World GenAI.GenerateContentParameters)
          (t : thrown),
     (GeminiService.generateComparison_try gc env
        (GeminiService.getComparisonPrompt papers) w = (Reject t, w') ->
      fst (GeminiService.generateComparison gc env papers w)
        = Reject (Error GeminiService.comparison_message)) /\
     (GeminiService.generateKnowledgeGraph_try gc env
        (GeminiService.getKnowledgeGraphPrompt papers) w = (Reject t, w') ->
      fst (GeminiService.generateKnowledgeGraph gc env papers w)
        = Reject (Error GeminiService.graph_message)) /\
     (GeminiService.generateSinglePaperAnalysis_try gc env
        (GeminiService.getSinglePaperAnalysisPrompt paper) w = (Reject t, w') ->
      fst (GeminiService.generateSinglePaperAnalysis gc env paper w)
        = Reject (Error GeminiService.analysis_message))) /\
  (forall (gc : GenAI.Gateway) (vars : list (string * string)) (k : string)
          (papers : list Types.Paper) (paper : Types.Paper),
     getenv "GEMINI_API_KEY" vars = Some k -> JsString.truthy k = true ->
     fatal_on_failure (gc [] (comparison_request k papers)) parsed_text
       (result (GeminiService.generateComparison gc (Some vars) papers))
       (Error GeminiService.comparison_message) /\
     fatal_on_failure (gc [] (graph_request k papers)) parsed_text
       (result (GeminiService.generateKnowledgeGraph gc (Some vars) papers))
       (Error GeminiService.graph_message) /\
     fatal_on_failure (gc [] (analysis_request k paper)) parsed_text
       (result (GeminiService.generateSinglePaperAnalysis gc (Some vars) paper))
       (Error GeminiService.analysis_message)) /\
  (forall (fetch : Http.Fetch) (papers : list Types.Paper) (paper : Types.Paper)
          (w w' : World Http.FetchRequest) (t : thrown),
     (GeminiServiceProxy.generateComparison_try fetch papers w = (Reject t, w') ->
      fst (GeminiServiceProxy.generateComparison fetch papers w)
        = Reject (Error GeminiServiceProxy.comparison_message)) /\
     (GeminiServiceProxy.generateKnowledgeGraph_try fetch papers w = (Reject t, w') ->
      fst (GeminiServiceProxy.generateKnowledgeGraph fetch papers w)
        = Reject (Error GeminiServiceProxy.graph_message)) /\
     (GeminiServiceProxy.generateSinglePaperAnalysis_try fetch paper w = (Reject t, w') ->
      fst (GeminiServiceProxy.generateSinglePaperAnalysis fetch paper w)
        = Reject (Error GeminiServiceProxy.analysis_message))) /\
  (forall (fetch : Http.Fetch) (papers : list Types.Paper) (paper : Types.Paper),
     fatal_on_failure (fetch [] (comparison_call papers)) parsed_reply
       (result (GeminiServiceProxy.generateComparison fetch papers))
       (Error GeminiServiceProxy.comparison_message) /\
     fatal_on_failure (fetch [] (graph_call papers)) parsed_reply
       (result (GeminiServiceProxy.generateKnowledgeGraph fetch papers))
       (Error GeminiServiceProxy.graph_message) /\
     fatal_on_failure (fetch [] (analysis_call paper)) parsed_reply
       (result (GeminiServiceProxy.generateSinglePaperAnalysis fetch paper))
       (Error GeminiServiceProxy.analysis_message)) /\
  (forall r, no_text r = true -> parsed_text r = None) /\
  GeminiService.comparison_message <> GeminiService.graph_message /\
  GeminiService.comparison_message <> GeminiService.analysis_message /\
  GeminiService.graph_message <> GeminiService.analysis_message /\
  GeminiServiceProxy.comparison_message <> GeminiServiceProxy.graph_message /\
  GeminiServiceProxy.comparison_message <> GeminiServiceProxy.analysis_message /\
  GeminiServiceProxy.graph_message <> GeminiServiceProxy.analysis_message.
Proof.
  split; [|split; [|split; [|split; [|split]]]].
  - intros gc env papers paper w w' t. repeat split; intros H.
    + unfold GeminiService.generateComparison.
      now rewrite (try_catch_reject _ _ _ _ _ H).
    + unfold GeminiService.generateKnowledgeGraph.
      now rewrite (try_catch_reject _ _ _ _ _ H).
    + unfold GeminiService.generateSinglePaperAnalysis.
      now rewrite (try_catch_reject _ _ _ _ _ H).
  - intros gc vars k papers paper Hk Hk'.
    destruct (GeminiService_runs gc vars k Hk Hk') as (_ & H1 & H2 & H3).
    split; [|split]; apply settle_fatal; auto.
  - intros fetch papers paper w w' t. repeat split; intros H.
    + unfold GeminiServiceProxy.generateComparison.
      now rewrite (try_catch_reject _ _ _ _ _ H).
    + unfold GeminiServiceProxy.generateKnowledgeGraph.
      now rewrite (try_catch_reject _ _ _ _ _ H).
    + unfold GeminiServiceProxy.generateSinglePaperAnalysis.
      now rewrite (try_catch_reject _ _ _ _ _ H).
  - intros fetch papers paper.
    destruct (GeminiServiceProxy_runs fetch) as (_ & H1 & H2 & H3).
    split; [|split]; apply settle_fatal; auto.
  - exact parsed_text_blank.
  - repeat split; discriminate.
Qed.

(** C7 for [generateComparison] on two papers when the network is down. *)
Lemma C7_witness :
  result (GeminiService.generateComparison Examples.gateway_down Examples.env
            [Examples.paper; Examples.paper])
    = Reject (Error GeminiService.comparison_message).
Proof.
  exact (proj1 (proj1 (proj1 (proj2 C7_transforms_are_fatal_on_failure)
                         Examples.gateway_down
                         [("API_KEY", "secret"); ("GEMINI_API_KEY", "secret")]
                         "secret" [Examples.paper; Examples.paper] Examples.paper
                         eq_refl eq_refl))
           Examples.network_down eq_refl).
Defined.

End Transforms.

(* ================================================================== *)
(** * The worker *)

Section Worker.
Import Json Js Spec.

Ltac unfold_worker :=
  unfold GeminiProxy.fetch, GeminiProxy.destructure, GeminiProxy.message_of,
    GeminiProxy.member, Js.parse, Js.TypeError_destructure, Js.SyntaxError_JSON,
    Js.Error in *;
  js_unfold.

Lemma or_else_truthy (a b : jsval) :
  truthy b = true -> truthy (or_else a b) = true.
Proof. unfold or_else. destruct (truthy a) eqn:E; auto. Qed.

Ltac step_in H :=
  cbn [fst snd] in H; cbv beta iota zeta in H;
  match type of H with
  | context [match ?x with _ => _ end] =>
      lazymatch x with
      | context [match _ with _ => _ end] => fail
      | _ => destruct x eqn:?
      end
  end.

(** What [JSON.stringify] makes of a truthy value is falsy only for an
    infinite number, which it writes [null]. *)
Lemma stringified_truthy (t : json) :
  truthy (Some t) = true ->
  (truthy (Some (stringified t)) = false <-> exists s, t = JNum (S754_infinity s)).
Proof.
  destruct t as [|b|[z|i| |z m e]|s|l|l]; cbn; intros H; try discriminate H;
    (split; [intros E; try congruence; eauto | intros [z' E]; try discriminate E]);
    reflexivity.
Qed.

(** What the worker answers: a status 200 with the [text] it took, truthy
    before it was written, or a status 500 without a [text]. *)
Lemma GeminiProxy_answers (upstream : Backend GeminiProxy.Upstream Http.Response)
  (request : GeminiProxy.Request) (env : GeminiProxy.Env)
  (w : World GeminiProxy.Upstream) (r : GeminiProxy.Response) :
  fst (GeminiProxy.fetch upstream request env w) = Resolve r ->
  (GeminiProxy.status r = 200%Z /\
   exists t, GeminiProxy.value r = JObj [("text", stringified t)] /\
             truthy (Some t) = true) \/
  (GeminiProxy.status r = 500%Z /\ prop (Some (GeminiProxy.value r)) "text" = None).
Proof.
  intros H. unfold_worker.
  repeat (step_in H; try discriminate H).
  all: cbn [fst] in H; injection H as <-; cbn [GeminiProxy.status GeminiProxy.value].
  all: try (right; split; reflexivity).
  all: match goal with
       | E : or_else ?a ?b = _ |- _ =>
           pose proof (or_else_truthy a b eq_refl) as T; rewrite E in T
       end.
  all: try discriminate T.
  all: left; split; [reflexivity | eexists; split; [reflexivity | exact T]].
Qed.

(** A text of white space only, which the worker relays as it is, is an
    empty response for the normaliser of [paperService.ts]. *)
Lemma blank_text_is_an_empty_response :
  result (PaperServiceProxy.extract (JObj [("text", JStr " ")]))
    = Reject (Error PaperServiceProxy.empty_message).
Proof. reflexivity. Qed.

(** C9, refuted as stated.  A reply of the backend that is not JSON, here
    the page of a gateway error, holds no [candidates[0].content.parts[0].text],
    and the worker answers it with status 500 and an [error], not with the
    placeholder.  And a reply whose text is a number too large for a double
    is answered with status 200 and the text [null], which the normaliser
    of [paperService.ts] takes for an empty response. *)
Lemma C9_counterexample :
  Http.candidate_text (JSON_parse "<html>Bad Gateway</html>") = None /\
  (exists message,
     fst (GeminiProxy.fetch Examples.backend_html Examples.worker_request
            Examples.worker_env start)
       = Resolve (GeminiProxy.MkResponse 500 "application/json"
                    (JObj [("error", JStr message)]))) /\
  fst (GeminiProxy.fetch Examples.backend_huge Examples.worker_request
         Examples.worker_env start)
    = Resolve (GeminiProxy.MkResponse 200 "application/json"
                 (JObj [("text", JNull)])) /\
  result (PaperServiceProxy.extract (JObj [("text", JNull)]))
    = Reject (Error PaperServiceProxy.empty_message).
Proof.
  split; [reflexivity|]. split; [eexists; reflexivity|]. split; reflexivity.
Qed.

(** C9, amended.  When the reply of the backend is JSON whose
    [candidates[0].content.parts[0].text] is absent or falsy, the worker
    answers with status 200 and the body [{text: "No response"}]; when the
    reply is not JSON it answers with status 500 and an [error].  Every
    answer of status 200 holds a [text] that was truthy when the worker
    took it, and that is still truthy as written unless it was an infinite
    number, written [null]; a string is written as it is and the
    normaliser of [paperService.ts] selects it.  An answer of status 500
    holds no [text].  Stage 1 of the proxy pipeline never resolves to a
    blank string, whatever answers it gets, so [searchPapers] resolves only
    after the call of stage 2: the empty-string sentinel is never taken. *)
Theorem C9_worker_answers_a_textless_reply :
  (forall (upstream : Backend GeminiProxy.Upstream Http.Response)
          (request : GeminiProxy.Request) (env : GeminiProxy.Env) (k : string)
          (parsed : json) (w : World GeminiProxy.Upstream)
          (resp : Http.Response),
     JSON_parse (GeminiProxy.body request) = Some parsed ->
     parsed <> JNull ->
     GeminiProxy.GEMINI_API_KEY env = Some k -> JsString.truthy k = true ->
     upstream (calls w)
       (GeminiProxy.MkUpstream (prop (Some parsed) "model") k
          (prop (Some parsed) "prompt") (prop (Some parsed) "config"))
       = Resolve resp ->
     truthy (Http.candidate_text (JSON_parse (Http.body resp))) = false ->
     match JSON_parse (Http.body resp) with
     | Some reply =>
         fst (GeminiProxy.fetch upstream request env w)
           = Resolve (GeminiProxy.MkResponse 200 "application/json"
                        (JObj [("text", JStr "No response")]))
     | None =>
         exists message,
           fst (GeminiProxy.fetch upstream request env w)
             = Resolve (GeminiProxy.MkResponse 500 "application/json"
                          (JObj [("error", JStr message)]))
     end) /\
  (forall (upstream : Backend GeminiProxy.Upstream Http.Response)
          (request : GeminiProxy.Request) (env : GeminiProxy.Env)
          (w : World GeminiProxy.Upstream) (r : GeminiProxy.Response),
     fst (GeminiProxy.fetch upstream request env w) = Resolve r ->
     (GeminiProxy.status r = 200%Z /\
      exists t, GeminiProxy.value r = JObj [("text", stringified t)] /\
                truthy (Some t) = true /\
                (truthy (Some (stringified t)) = false
                 <-> exists s, t = JNum (S754_infinity s)) /\
                (forall s, t = JStr s ->
                   PaperServiceProxy.output_of (GeminiProxy.value r)
                     = Some (JStr s))) \/
     (GeminiProxy.status r = 500%Z /\
      prop (Some (GeminiProxy.value r)) "text" = None)) /\
  (forall (fetch : Http.Fetch) (query raw : string) (w w' : World Http.FetchRequest),
     PaperServiceProxy.getRawPaperData fetch query w = (Resolve raw, w') ->
     raw <> "" /\ JsString.truthy (JsString.trim raw) = true) /\
  (forall (fetch : Http.Fetch) (query : string) (papers : list json),
     result (PaperServiceProxy.searchPapers fetch query) = Resolve papers ->
     exists raw,
       requests (PaperServiceProxy.searchPapers fetch query)
         = [stage1_call query; stage2_call raw]).
Proof.
  split; [|split; [|split]].
  - intros upstream request env k parsed w resp Hp Hn Hk Hk' Hu Hf.
    destruct (JSON_parse (Http.body resp)) as [reply|] eqn:Hr.
    + unfold_worker. rewrite Hp.
      destruct parsed; try (exfalso; apply Hn; reflexivity);
        cbn [fst snd]; cbv beta iota zeta; rewrite Hk, Hk'; cbn [negb];
        cbv beta iota zeta; rewrite Hu; cbv beta iota zeta; rewrite Hr;
        cbv beta iota zeta; unfold or_else; rewrite Hf; reflexivity.
    + unfold_worker. rewrite Hp.
      destruct parsed; try (exfalso; apply Hn; reflexivity);
        cbn [fst snd]; cbv beta iota zeta; rewrite Hk, Hk'; cbn [negb];
        cbv beta iota zeta; rewrite Hu; cbv beta iota zeta; rewrite Hr;
        eexists; reflexivity.
  - intros upstream request env w r H.
    destruct (GeminiProxy_answers upstream request env w r H)
      as [(Hs & t & Hv & Ht) | H500]; [left | right; exact H500].
    split; [exact Hs|]. exists t.
    split; [exact Hv|]. split; [exact Ht|].
    split; [exact (stringified_truthy t Ht)|].
    intros s ->. rewrite Hv. cbn [stringified].
    unfold PaperServiceProxy.output_of.
    change (prop (Some (JObj [("text", JStr s)])) "output") with (@None json).
    change (prop (Some (JObj [("text", JStr s)])) "text") with (Some (JStr s)).
    unfold or_else. change (truthy None) with false. cbv iota.
    now rewrite !Ht.
  - intros fetch query raw w w' H.
    destruct (PaperServiceProxy_stage1 fetch query w) as [H1 _].
    rewrite H in H1. simpl in H1. symmetry in H1.
    apply settle_resolve in H1 as (resp & _ & Hn).
    destruct (normalised_truthy _ _ Hn) as [Ha Hb].
    split; [|exact Hb]. intros ->. discriminate.
  - intros fetch query papers.
    destruct (PaperServiceProxy_search fetch query start) as [H Hc].
    unfold result, requests. rewrite H, Hc. simpl calls.
    destruct (settle (fetch [] (stage1_call query)) _ _) as [raw|]; [|discriminate].
    intros _. exists raw. reflexivity.
Qed.

(** C9 for a backend whose reply is an empty object. *)
Lemma C9_witness :
  fst (GeminiProxy.fetch Examples.backend_silent Examples.worker_request
         Examples.worker_env start)
    = Resolve (GeminiProxy.MkResponse 200 "application/json"
                 (JObj [("text", JStr "No response")])).
Proof.
  refine (proj1 C9_worker_answers_a_textless_reply Examples.backend_silent
            Examples.worker_request Examples.worker_env "secret" (JObj [])
            start (Http.MkResponse 200 "{}") eq_refl _ eq_refl eq_refl eq_refl
            eq_refl).
  discriminate.
Defined.

End Worker.

(* ================================================================== *)
(** * The key check *)

Section KeyCheck.
Import Json Js Spec.

Ltac no_key H :=
  unfold GeminiService.generateSuggestions, GeminiService.generateSuggestions_try,
    GeminiService.generateComparison, GeminiService.generateComparison_try,
    GeminiService.generateKnowledgeGraph, GeminiService.generateKnowledgeGraph_try,
    GeminiService.generateSinglePaperAnalysis,
    GeminiService.generateSinglePaperAnalysis_try,
    GeminiService.getClient, PaperService.searchPapers, PaperService.getAi,
    key_missing in *;
  js_unfold; simpl;
  match type of H with
  | context [getenv ?name ?vars] =>
      destruct (getenv name vars) as [k|]; simpl;
      [destruct (JsString.truthy k); [discriminate H|] |]; auto
  end.

(** C10, refuted as stated.  The second revision of [paperService.ts]
    builds its client when the module is loaded, with no check of the key;
    with a client built from an empty key its [searchPapers] raises no
    configuration error and makes both calls. *)
Lemma C10_counterexample :
  let ai := GenAI.MkClient "" in
  key_missing (Some (GenAI.apiKey ai)) = true /\
  requests (PaperServiceGlobal.searchPapers ai (Examples.gateway_then "[]") "q")
    = [PaperServiceGlobal.stage1_request ai "q";
       PaperServiceGlobal.stage2_request ai "Paper A"] /\
  result (PaperServiceGlobal.searchPapers ai (Examples.gateway_then "[]") "q")
    = Resolve (JArr []).
Proof. repeat split. Qed.

(** C10, amended.  [getClient] and [getAi] throw their configuration
    error, and leave the world untouched, when the variable they read is
    unset or empty; each operation that takes its client from them, the
    four of [geminiService.ts] and [searchPapers] of the first revision of
    [paperService.ts], then settles without a single outbound call.  When
    the variable holds a non-empty string they return the client built
    from it.  [searchPapers] of the second revision of [paperService.ts]
    checks nothing: whatever key its client was built from, it makes the
    call of stage 1 with that client. *)
Theorem C10_key_check_where_a_client_is_acquired :
  (forall (vars : list (string * string)) (w : World GenAI.GenerateContentParameters),
     key_missing (getenv "GEMINI_API_KEY" vars) = true ->
     GeminiService.getClient (Some vars) w
       = (Reject (Error GeminiService.config_message), w)) /\
  (forall (vars : list (string * string)) (w : World GenAI.GenerateContentParameters),
     key_missing (getenv "API_KEY" vars) = true ->
     PaperService.getAi (Some vars) w
       = (Reject (Error PaperService.config_message), w)) /\
  (forall (gc : GenAI.Gateway) (vars : list (string * string)) (query : string)
          (papers : list Types.Paper) (paper : Types.Paper),
     key_missing (getenv "GEMINI_API_KEY" vars) = true ->
     requests (GeminiService.generateSuggestions gc (Some vars) query) = [] /\
     requests (GeminiService.generateComparison gc (Some vars) papers) = [] /\
     requests (GeminiService.generateKnowledgeGraph gc (Some vars) papers) = [] /\
     requests (GeminiService.generateSinglePaperAnalysis gc (Some vars) paper) = []) /\
  (forall (gc : GenAI.Gateway) (vars : list (string * string)) (query : string),
     key_missing (getenv "API_KEY" vars) = true ->
     requests (PaperService.searchPapers gc (Some vars) query) = [] /\
     result (PaperService.searchPapers gc (Some vars) query)
       = Reject (Error PaperService.config_message)) /\
  (forall (vars : list (string * string)) (k : string)
          (w : World GenAI.GenerateContentParameters),
     getenv "GEMINI_API_KEY" vars = Some k -> JsString.truthy k = true ->
     GeminiService.getClient (Some vars) w = (Resolve (GenAI.MkClient k), w)) /\
  (forall (vars : list (string * string)) (k : string)
          (w : World GenAI.GenerateContentParameters),
     getenv "API_KEY" vars = Some k -> JsString.truthy k = true ->
     PaperService.getAi (Some vars) w = (Resolve (GenAI.MkClient k), w)) /\
  (forall (ai : GenAI.GoogleGenAI) (gc : GenAI.Gateway) (query : string)
          (w : World GenAI.GenerateContentParameters),
     exists l,
       calls (snd (PaperServiceGlobal.searchPapers ai gc query w))
         = (calls w ++ PaperServiceGlobal.stage1_request ai query :: l)%list).
Proof.
  split; [|split; [|split; [|split; [|split; [|split]]]]].
  - intros vars w H. no_key H.
  - intros vars w H. no_key H.
  - intros gc vars query papers paper H. repeat split; no_key H.
  - intros gc vars query H. no_key H.
  - intros vars k w. apply GeminiService_getClient_ok.
  - intros vars k w. apply PaperService_getAi_ok.
  - intros ai gc query w.
    destruct (PaperServiceGlobal_search ai gc query w) as [_ H]. cbv zeta in H.
    rewrite H. destruct (stage1_outcome _) as [raw|t]; [|now exists []].
    destruct (JsString.truthy (JsString.trim raw)); eexists; reflexivity.
Qed.

(** C10 for [searchPapers] in an environment without [API_KEY]. *)
Lemma C10_witness :
  requests (PaperService.searchPapers Examples.gateway_blank Examples.env_unset "q") = [] /\
  result (PaperService.searchPapers Examples.gateway_blank Examples.env_unset "q")
    = Reject (Error PaperService.config_message).
Proof.
  exact (proj1 (proj2 (proj2 (proj2 C10_key_check_where_a_client_is_acquired)))
           Examples.gateway_blank [] "q" eq_refl).
Defined.

End KeyCheck.

(* ================================================================== *)
(** * More on the worker *)

Section WorkerAnswers.
Import Json Js Spec.

Ltac open_worker :=
  unfold GeminiProxy.fetch, GeminiProxy.destructure, GeminiProxy.message_of,
    GeminiProxy.member, Js.parse, Js.TypeError_destructure, Js.SyntaxError_JSON,
    Js.Error in *;
  js_unfold.

Ltac reduce := cbn [fst snd negb]; cbv beta iota zeta.

(** X1.  Without its key (the binding unset or empty) the worker answers a
    well-formed request with status 500 and the body
    [{error: "Missing GEMINI_API_KEY in environment"}], and does not call
    the backend. *)
Theorem X1_worker_without_key_answers_500 :
  forall (upstream : Backend GeminiProxy.Upstream Http.Response)
         (request : GeminiProxy.Request) (env : GeminiProxy.Env) (parsed : json)
         (w : World GeminiProxy.Upstream),
    JSON_parse (GeminiProxy.body request) = Some parsed ->
    parsed <> JNull ->
    key_missing (GeminiProxy.GEMINI_API_KEY env) = true ->
    GeminiProxy.fetch upstream request env w
      = (Resolve (GeminiProxy.MkResponse 500 "application/json"
                    (JObj [("error", JStr GeminiProxy.missing_key_message)])), w).
Proof.
  intros upstream request env parsed w Hp Hn Hk.
  open_worker. rewrite Hp. unfold key_missing in Hk.
  destruct parsed; try (exfalso; apply Hn; reflexivity); reduce;
    (destruct (GeminiProxy.GEMINI_API_KEY env) as [k|];
     [destruct (JsString.truthy k); [discriminate Hk|] |]; reflexivity).
Qed.

(** X1 at a worker whose key is unset. *)
Lemma X1_witness :
  GeminiProxy.fetch Examples.backend_silent Examples.worker_request
    Examples.worker_env_unset start
    = (Resolve (GeminiProxy.MkResponse 500 "application/json"
                  (JObj [("error", JStr GeminiProxy.missing_key_message)])), start).
Proof.
  refine (X1_worker_without_key_answers_500 Examples.backend_silent
            Examples.worker_request Examples.worker_env_unset (JObj []) start
            eq_refl _ eq_refl).
  discriminate.
Defined.

(** X2.  A request whose body is not JSON, or is the JSON [null], is
    answered with status 500 and a body [{error: message}], before the key
    is looked at and without a call to the backend. *)
Theorem X2_worker_rejects_a_malformed_request :
  forall (upstream : Backend GeminiProxy.Upstream Http.Response)
         (request : GeminiProxy.Request) (env : GeminiProxy.Env)
         (w : World GeminiProxy.Upstream),
    JSON_parse (GeminiProxy.body request) = None \/
    JSON_parse (GeminiProxy.body request) = Some JNull ->
    exists message,
      GeminiProxy.fetch upstream request env w
        = (Resolve (GeminiProxy.MkResponse 500 "application/json"
                      (JObj [("error", JStr message)])), w).
Proof.
  intros upstream request env w [Hp | Hp]; open_worker; rewrite Hp; reduce;
    eexists; reflexivity.
Qed.

(** X2 at a request whose body is the text [null]. *)
Lemma X2_witness :
  exists message,
    GeminiProxy.fetch Examples.backend_silent (GeminiProxy.MkRequest "null")
      Examples.worker_env start
      = (Resolve (GeminiProxy.MkResponse 500 "application/json"
                    (JObj [("error", JStr message)])), start).
Proof.
  exact (X2_worker_rejects_a_malformed_request Examples.backend_silent
           (GeminiProxy.MkRequest "null") Examples.worker_env start
           (or_intror eq_refl)).
Defined.

(** X3.  The worker calls the backend at most once per request.  For a
    well-formed request and a set key it calls it exactly once, whatever
    the backend answers, with the model, prompt and config of the request
    and the key of the environment. *)
Theorem X3_worker_calls_the_backend_once :
  (forall (upstream : Backend GeminiProxy.Upstream Http.Response)
          (request : GeminiProxy.Request) (env : GeminiProxy.Env)
          (w : World GeminiProxy.Upstream),
     calls (snd (GeminiProxy.fetch upstream request env w)) = calls w \/
     exists u, calls (snd (GeminiProxy.fetch upstream request env w))
                 = (calls w ++ [u])%list) /\
  (forall (upstream : Backend GeminiProxy.Upstream Http.Response)
          (request : GeminiProxy.Request) (env : GeminiProxy.Env) (k : string)
          (parsed : json) (w : World GeminiProxy.Upstream),
     JSON_parse (GeminiProxy.body request) = Some parsed ->
     parsed <> JNull ->
     GeminiProxy.GEMINI_API_KEY env = Some k -> JsString.truthy k = true ->
     calls (snd (GeminiProxy.fetch upstream request env w))
       = (calls w ++ [GeminiProxy.MkUpstream (prop (Some parsed) "model") k
                        (prop (Some parsed) "prompt") (prop (Some parsed) "config")])%list).
Proof.
  assert (Once : forall (upstream : Backend GeminiProxy.Upstream Http.Response)
                   request env k parsed w,
             JSON_parse (GeminiProxy.body request) = Some parsed ->
             parsed <> JNull ->
             GeminiProxy.GEMINI_API_KEY env = Some k -> JsString.truthy k = true ->
             calls (snd (GeminiProxy.fetch upstream request env w))
               = (calls w ++ [GeminiProxy.MkUpstream (prop (Some parsed) "model") k
                                (prop (Some parsed) "prompt")
                                (prop (Some parsed) "config")])%list).
  { intros upstream request env k parsed w Hp Hn Hk Hk'.
    open_worker. rewrite Hp.
    destruct parsed; try (exfalso; apply Hn; reflexivity); reduce;
      rewrite Hk, Hk'; reduce;
      (destruct (upstream _ _) as [resp|[? ?|[[| | | | |?]|]]]; reduce;
       [destruct (JSON_parse (Http.body resp)); reflexivity | reflexivity ..]). }
  split; [|exact Once].
  intros upstream request env w.
  destruct (JSON_parse (GeminiProxy.body request)) as [parsed|] eqn:Hp.
  - destruct parsed eqn:Hj;
      try (destruct (GeminiProxy.GEMINI_API_KEY env) as [k|] eqn:Hk;
           [destruct (JsString.truthy k) eqn:Hk';
            [right; eexists; apply (Once upstream request env k _ w Hp);
             [discriminate | exact Hk | exact Hk']
            |]|];
           left; open_worker; rewrite Hp; reduce; rewrite Hk; try rewrite Hk';
           reflexivity).
    left. open_worker. rewrite Hp. reflexivity.
  - left. open_worker. rewrite Hp. reflexivity.
Qed.

(** X3 at a backend that cannot be reached. *)
Lemma X3_witness :
  calls (snd (GeminiProxy.fetch Examples.backend_down Examples.worker_request
                Examples.worker_env start))
    = [Examples.worker_call].
Proof.
  refine (proj2 X3_worker_calls_the_backend_once Examples.backend_down
            Examples.worker_request Examples.worker_env "secret" (JObj []) start
            eq_refl _ eq_refl eq_refl).
  discriminate.
Defined.

(** What the worker does once the request is read and the key found: one
    call, then the answer made of the reply. *)
Lemma worker_forwards (upstream : Backend GeminiProxy.Upstream Http.Response)
  (request : GeminiProxy.Request) (env : GeminiProxy.Env) (k : string)
  (parsed reply : json) (w : World GeminiProxy.Upstream) (resp : Http.Response) :
  JSON_parse (GeminiProxy.body request) = Some parsed ->
  parsed <> JNull ->
  GeminiProxy.GEMINI_API_KEY env = Some k -> JsString.truthy k = true ->
  upstream (calls w)
    (GeminiProxy.MkUpstream (prop (Some parsed) "model") k
       (prop (Some parsed) "prompt") (prop (Some parsed) "config"))
    = Resolve resp ->
  JSON_parse (Http.body resp) = Some reply ->
  fst (GeminiProxy.fetch upstream request env w)
    = Resolve (GeminiProxy.MkResponse 200 "application/json"
                 (GeminiProxy.member "text"
                    (or_else (Http.candidate_text (Some reply))
                       (Some (JStr "No response"))))).
Proof.
  intros Hp Hn Hk Hk' Hu Hr. open_worker. rewrite Hp.
  destruct parsed; try (exfalso; apply Hn; reflexivity); reduce;
    rewrite Hk, Hk'; reduce; rewrite Hu; reduce; rewrite Hr; reflexivity.
Qed.

(** X4.  A truthy [candidates[0].content.parts[0].text] of the reply, of
    whatever type, is relayed under status 200 as [JSON.stringify] writes
    it, a string as it is; the status of the reply of the backend plays no
    part. *)
Theorem X4_worker_relays_the_text_whatever_the_status :
  forall (upstream : Backend GeminiProxy.Upstream Http.Response)
         (request : GeminiProxy.Request) (env : GeminiProxy.Env) (k : string)
         (parsed reply t : json) (w : World GeminiProxy.Upstream)
         (status : Z) (body : string),
    JSON_parse (GeminiProxy.body request) = Some parsed ->
    parsed <> JNull ->
    GeminiProxy.GEMINI_API_KEY env = Some k -> JsString.truthy k = true ->
    upstream (calls w)
      (GeminiProxy.MkUpstream (prop (Some parsed) "model") k
         (prop (Some parsed) "prompt") (prop (Some parsed) "config"))
      = Resolve (Http.MkResponse status body) ->
    JSON_parse body = Some reply ->
    Http.candidate_text (Some reply) = Some t ->
    truthy (Some t) = true ->
    fst (GeminiProxy.fetch upstream request env w)
      = Resolve (GeminiProxy.MkResponse 200 "application/json"
                   (JObj [("text", stringified t)])) /\
    (forall s, t = JStr s ->
       fst (GeminiProxy.fetch upstream request env w)
         = Resolve (GeminiProxy.MkResponse 200 "application/json"
                      (JObj [("text", JStr s)]))).
Proof.
  intros upstream request env k parsed reply t w status body Hp Hn Hk Hk' Hu Hr Ht Htt.
  rewrite (worker_forwards upstream request env k parsed reply w _ Hp Hn Hk Hk' Hu Hr).
  unfold or_else. rewrite Ht, Htt. split; [reflexivity|]. now intros s ->.
Qed.

(** X4 at a backend that answers with status 503 and a text. *)
Lemma X4_witness :
  fst (GeminiProxy.fetch Examples.backend_unavailable Examples.worker_request
         Examples.worker_env start)
    = Resolve (GeminiProxy.MkResponse 200 "application/json"
                 (JObj [("text", JStr "Paper A")])).
Proof.
  refine (proj1 (X4_worker_relays_the_text_whatever_the_status
                   Examples.backend_unavailable
                   Examples.worker_request Examples.worker_env "secret" (JObj [])
                   (JObj [("candidates",
                           JArr [JObj [("content",
                                        JObj [("parts",
                                               JArr [JObj [("text", JStr "Paper A")]])])]])])
                   (JStr "Paper A") start 503 (Examples.candidates_body "Paper A")
                   eq_refl _ eq_refl eq_refl eq_refl eq_refl eq_refl eq_refl)).
  discriminate.
Defined.

(** X5.  When the call to the backend fails with an [Error], the worker
    answers with status 500 and the message of that error; when the reply
    of the backend is not JSON it answers with status 500 and the message
    of the parse error. *)
Theorem X5_worker_reports_a_failed_call :
  forall (upstream : Backend GeminiProxy.Upstream Http.Response)
         (request : GeminiProxy.Request) (env : GeminiProxy.Env) (k : string)
         (parsed : json) (w : World GeminiProxy.Upstream),
    JSON_parse (GeminiProxy.body request) = Some parsed ->
    parsed <> JNull ->
    GeminiProxy.GEMINI_API_KEY env = Some k -> JsString.truthy k = true ->
    let u := GeminiProxy.MkUpstream (prop (Some parsed) "model") k
               (prop (Some parsed) "prompt") (prop (Some parsed) "config") in
    (forall name message, upstream (calls w) u = Reject (JsError name message) ->
       fst (GeminiProxy.fetch upstream request env w)
         = Resolve (GeminiProxy.MkResponse 500 "application/json"
                      (JObj [("error", JStr message)]))) /\
    (forall resp, upstream (calls w) u = Resolve resp ->
       JSON_parse (Http.body resp) = None ->
       exists message,
         fst (GeminiProxy.fetch upstream request env w)
           = Resolve (GeminiProxy.MkResponse 500 "application/json"
                        (JObj [("error", JStr message)]))).
Proof.
  intros upstream request env k parsed w Hp Hn Hk Hk' u. subst u. split.
  - intros name message Hu. open_worker. rewrite Hp.
    destruct parsed; try (exfalso; apply Hn; reflexivity); reduce;
      rewrite Hk, Hk'; reduce; rewrite Hu; reflexivity.
  - intros resp Hu Hr. open_worker. rewrite Hp.
    destruct parsed; try (exfalso; apply Hn; reflexivity); reduce;
      rewrite Hk, Hk'; reduce; rewrite Hu; reduce; rewrite Hr; reduce;
      eexists; reflexivity.
Qed.

(** X5 at a backend that cannot be reached. *)
Lemma X5_witness :
  fst (GeminiProxy.fetch Examples.backend_down Examples.worker_request
         Examples.worker_env start)
    = Resolve (GeminiProxy.MkResponse 500 "application/json"
                 (JObj [("error", JStr "Failed to fetch")])).
Proof.
  refine (proj1 (X5_worker_reports_a_failed_call Examples.backend_down
                   Examples.worker_request Examples.worker_env "secret" (JObj [])
                   start eq_refl _ eq_refl eq_refl)
            "TypeError" "Failed to fetch" eq_refl).
  discriminate.
Defined.

Ltac split_in H :=
  cbn [fst snd] in H; cbv beta iota zeta in H;
  match type of H with
  | context [match ?x with _ => _ end] =>
      lazymatch x with
      | context [match _ with _ => _ end] => fail
      | _ => destruct x eqn:?
      end
  end.

(** The three shapes of what the worker serialises. *)
Lemma worker_answer_shape (upstream : Backend GeminiProxy.Upstream Http.Response)
  (request : GeminiProxy.Request) (env : GeminiProxy.Env)
  (w : World GeminiProxy.Upstream) (r : GeminiProxy.Response) :
  fst (GeminiProxy.fetch upstream request env w) = Resolve r ->
  (exists t, GeminiProxy.value r = JObj [("text", t)]) \/
  (exists x, GeminiProxy.value r = JObj [("error", x)]) \/
  GeminiProxy.value r = JObj [].
Proof.
  intros H. open_worker.
  repeat (split_in H; try discriminate H).
  all: cbn [fst] in H; injection H as <-; cbn [GeminiProxy.value]; eauto.
Qed.

(** X6.  Nothing the worker serialises as an answer gets through the
    normaliser of the proxy [geminiService.ts]: the answer holds neither an
    [output] nor [candidates], so the extraction raises its empty-response
    error. *)
Theorem X6_worker_answers_never_pass_the_gemini_service :
  forall (upstream : Backend GeminiProxy.Upstream Http.Response)
         (request : GeminiProxy.Request) (env : GeminiProxy.Env)
         (w : World GeminiProxy.Upstream) (r : GeminiProxy.Response),
    fst (GeminiProxy.fetch upstream request env w) = Resolve r ->
    GeminiServiceProxy.output_of (GeminiProxy.value r) = Some JNull /\
    result (GeminiServiceProxy.extract (GeminiProxy.value r))
      = Reject (Error GeminiServiceProxy.empty_message).
Proof.
  intros upstream request env w r H.
  destruct (worker_answer_shape upstream request env w r H)
    as [(t & ->) | [(x & ->) | ->]]; split; reflexivity.
Qed.

(** X6 at a backend that answers with a text. *)
Lemma X6_witness :
  GeminiServiceProxy.output_of (JObj [("text", JStr "Paper A")]) = Some JNull /\
  result (GeminiServiceProxy.extract (JObj [("text", JStr "Paper A")]))
    = Reject (Error GeminiServiceProxy.empty_message).
Proof.
  exact (X6_worker_answers_never_pass_the_gemini_service Examples.backend_unavailable
           Examples.worker_request Examples.worker_env start
           (GeminiProxy.MkResponse 200 "application/json"
              (JObj [("text", JStr "Paper A")]))
           eq_refl).
Defined.

(** X7.  What the normaliser of the proxy [paperService.ts] makes of the
    answer of the worker: when the reply of the backend holds no text it
    resolves to the placeholder [No response], which stage 1 then takes for
    the retrieved text; when the reply holds a non-empty string it resolves
    to that string trimmed, or raises the empty-response error when the
    string is blank. *)
Theorem X7_placeholder_reaches_the_pipeline :
  forall (upstream : Backend GeminiProxy.Upstream Http.Response)
         (request : GeminiProxy.Request) (env : GeminiProxy.Env) (k : string)
         (parsed reply : json) (w : World GeminiProxy.Upstream)
         (resp : Http.Response),
    JSON_parse (GeminiProxy.body request) = Some parsed ->
    parsed <> JNull ->
    GeminiProxy.GEMINI_API_KEY env = Some k -> JsString.truthy k = true ->
    upstream (calls w)
      (GeminiProxy.MkUpstream (prop (Some parsed) "model") k
         (prop (Some parsed) "prompt") (prop (Some parsed) "config"))
      = Resolve resp ->
    JSON_parse (Http.body resp) = Some reply ->
    exists r,
      fst (GeminiProxy.fetch upstream request env w) = Resolve r /\
      (truthy (Http.candidate_text (Some reply)) = false ->
       result (PaperServiceProxy.extract (GeminiProxy.value r))
         = Resolve "No response") /\
      (forall s, Http.candidate_text (Some reply) = Some (JStr s) ->
         JsString.truthy s = true ->
         result (PaperServiceProxy.extract (GeminiProxy.value r))
           = if JsString.truthy (JsString.trim s) then Resolve (JsString.trim s)
             else Reject (Error PaperServiceProxy.empty_message)).
Proof.
  intros upstream request env k parsed reply w resp Hp Hn Hk Hk' Hu Hr.
  eexists. split; [exact (worker_forwards _ _ _ _ _ _ _ _ Hp Hn Hk Hk' Hu Hr)|].
  cbn [GeminiProxy.value]. unfold or_else. split.
  - intros ->. reflexivity.
  - intros s -> Hs. cbn [truthy]. rewrite Hs. cbn [GeminiProxy.member].
    apply (proj1 (proj2 (PaperServiceProxy_extract_contract (JObj [("text", JStr s)])))).
    unfold PaperServiceProxy.output_of, or_else.
    change (prop (Some (JObj [("text", JStr s)])) "output") with (@None json).
    change (prop (Some (JObj [("text", JStr s)])) "text") with (Some (JStr s)).
    change (truthy None) with false. cbv iota.
    repeat (change (truthy (Some (JStr s))) with (JsString.truthy s);
            rewrite Hs; cbv iota).
    reflexivity.
Qed.

(** X7 at a backend whose reply is an empty object. *)
Lemma X7_witness :
  exists r,
    fst (GeminiProxy.fetch Examples.backend_silent Examples.worker_request
           Examples.worker_env start) = Resolve r /\
    result (PaperServiceProxy.extract (GeminiProxy.value r)) = Resolve "No response".
Proof.
  refine (let H := X7_placeholder_reaches_the_pipeline Examples.backend_silent
                     Examples.worker_request Examples.worker_env "secret" (JObj [])
                     (JObj []) start (Http.MkResponse 200 "{}")
                     eq_refl _ eq_refl eq_refl eq_refl eq_refl in
          match H with
          | ex_intro _ r (conj H1 (conj H2 _)) => ex_intro _ r (conj H1 (H2 eq_refl))
          end).
  discriminate.
Defined.

End WorkerAnswers.

(* ================================================================== *)
(** * More on the proxy clients *)

Section ProxyClients.
Import Json Js Http Spec.

Lemma GeminiServiceProxy_output_of (data : json) :
  GeminiServiceProxy.output_of data
    = (if truthy (prop (Some data) "output") then prop (Some data) "output"
       else if truthy (candidate_text (Some data)) then candidate_text (Some data)
       else Some JNull).
Proof.
  unfold GeminiServiceProxy.output_of, or_else.
  destruct (truthy (prop (Some data) "output")) eqn:Ea;
    destruct (truthy (candidate_text (Some data))) eqn:Ec;
    repeat (cbv iota; rewrite ?Ea, ?Ec); reflexivity.
Qed.

(** X8.  The normaliser of the proxy [geminiService.ts] looks at [output],
    then at [candidates[0].content.parts[0].text], and at nothing else: a
    [text] field changes nothing.  It raises its empty-response error
    exactly when neither holds a truthy value, and a string it selects is
    returned trimmed, even when nothing is left of it. *)
Theorem X8_gemini_service_normaliser :
  forall data : json,
    let a := prop (Some data) "output" in
    let c := candidate_text (Some data) in
    GeminiServiceProxy.output_of data
      = (if truthy a then a else if truthy c then c else Some JNull) /\
    (result (GeminiServiceProxy.extract data)
       = Reject (Error GeminiServiceProxy.empty_message)
     <-> truthy a = false /\ truthy c = false) /\
    (forall s, GeminiServiceProxy.output_of data = Some (JStr s) ->
       result (GeminiServiceProxy.extract data) = Resolve (JsString.trim s)) /\
    (forall (v : json) (l : list (string * json)),
       data = JObj (("text", v) :: l) ->
       GeminiServiceProxy.output_of data = GeminiServiceProxy.output_of (JObj l)).
Proof.
  intros data a c. pose proof (GeminiServiceProxy_output_of data) as E.
  fold a c in E. split; [exact E|]. split; [|split].
  - clearbody a c.
    unfold GeminiServiceProxy.extract, call_trim. js_unfold. rewrite E. clear E.
    destruct (truthy a) eqn:Ea.
    + rewrite Ea. cbn [negb fst]. split; [intros H | intros [H _]; discriminate H].
      destruct a as [[| | |s| |]|]; discriminate H.
    + destruct (truthy c) eqn:Ec.
      * rewrite Ec. cbn [negb fst]. split; [intros H | intros [_ H]; discriminate H].
        destruct c as [[| | |s| |]|]; discriminate H.
      * cbn. split; auto.
  - clearbody a c.
    intros s Hs. unfold GeminiServiceProxy.extract, call_trim. js_unfold.
    rewrite Hs in *.
    assert (T : truthy (Some (JStr s)) = true).
    { destruct (truthy a) eqn:Ea; cbv iota in E; [now rewrite E|].
      destruct (truthy c) eqn:Ec; cbv iota in E; [now rewrite E|]. discriminate E. }
    rewrite T. reflexivity.
  - intros v l ->. reflexivity.
Qed.

(** X8 for an output of white space only. *)
Lemma X8_witness :
  result (GeminiServiceProxy.extract (JObj [("output", JStr "  ")])) = Resolve "".
Proof.
  exact (proj1 (proj2 (proj2 (X8_gemini_service_normaliser (JObj [("output", JStr "  ")]))))
           "  " eq_refl).
Defined.

Lemma GeminiServiceProxy_extract_resolves (data : json) (o : string) :
  result (GeminiServiceProxy.extract data) = Resolve o ->
  exists s, GeminiServiceProxy.output_of data = Some (JStr s) /\ o = JsString.trim s.
Proof.
  unfold GeminiServiceProxy.extract, call_trim. js_unfold.
  destruct (truthy (GeminiServiceProxy.output_of data)); cbn [negb fst];
    [|discriminate].
  destruct (GeminiServiceProxy.output_of data) as [[| | |s| |]|];
    cbn [fst]; try discriminate.
  intros [= <-]. eauto.
Qed.

(** X9.  [callGeminiProxy] makes one request and, when it resolves, resolves
    with a string free of white space at both ends; in [paperService.ts]
    that string is never empty, in [geminiService.ts] it can be. *)
Theorem X9_proxy_call_resolves_with_trimmed_text :
  (forall (fetch : Fetch) (prompt : GenAI.Prompt) (model : string)
          (cfg : list (string * json)) (w w' : World FetchRequest) (o : string),
     PaperServiceProxy.callGeminiProxy fetch prompt model cfg w = (Resolve o, w') ->
     o <> "" /\ JsString.trim o = o /\
     calls w' = (calls w ++ [PaperServiceProxy.proxy_request prompt model cfg])%list) /\
  (forall (fetch : Fetch) (prompt : GenAI.Prompt) (model : string)
          (w w' : World FetchRequest) (o : string),
     GeminiServiceProxy.callGeminiProxy fetch prompt model w = (Resolve o, w') ->
     JsString.trim o = o /\
     calls w' = (calls w ++ [GeminiServiceProxy.proxy_request prompt model])%list) /\
  (exists (fetch : Fetch),
     result (GeminiServiceProxy.callGeminiProxy fetch
               (GenAI.MkPrompt "generateSuggestions" []) "gemini-2.5-flash")
       = Resolve "").
Proof.
  split; [|split].
  - intros fetch prompt model cfg w w' o H.
    destruct (PaperServiceProxy_call fetch prompt model cfg w) as [H1 H2].
    cbv zeta in H1, H2. rewrite H in H1, H2. cbn [fst snd] in H1, H2.
    symmetry in H1. apply settle_resolve in H1 as (resp & _ & Hn).
    split; [|split; [|exact H2]].
    + destruct (normalised_truthy _ _ Hn) as [Ht _]. intros ->. discriminate Ht.
    + unfold normalised in Hn.
      destruct (ok resp); [|discriminate].
      destruct (JSON_parse (body resp)) as [data|]; [|discriminate].
      destruct (result (PaperServiceProxy.extract data)) as [o'|] eqn:E; [|discriminate].
      injection Hn as <-.
      destruct (PaperServiceProxy_extract_resolves _ _ E) as (s & _ & -> & _).
      apply trim_idempotent.
  - intros fetch prompt model w w' o H.
    destruct (GeminiServiceProxy_call fetch prompt model w) as [H1 H2].
    cbv zeta in H1, H2. rewrite H in H1, H2. cbn [fst snd] in H1, H2.
    symmetry in H1. apply settle_resolve in H1 as (resp & _ & Hn).
    split; [|exact H2].
    unfold normalised in Hn.
    destruct (ok resp); [|discriminate].
    destruct (JSON_parse (body resp)) as [data|]; [|discriminate].
    destruct (result (GeminiServiceProxy.extract data)) as [o'|] eqn:E; [|discriminate].
    injection Hn as <-.
    destruct (GeminiServiceProxy_extract_resolves _ _ E) as (s & _ & ->).
    apply trim_idempotent.
  - exists Examples.fetch_blank_output. reflexivity.
Qed.

(** X9 through a proxy that answers with a text. *)
Lemma X9_witness :
  "Paper A" <> "" /\ JsString.trim "Paper A" = "Paper A" /\
  calls (snd (PaperServiceProxy.callGeminiProxy (Examples.fetch_then "[]")
                (PaperServiceProxy.stage1_prompt "q") "gemini-2.5-pro" [] start))
    = [stage1_call "q"].
Proof.
  exact (proj1 X9_proxy_call_resolves_with_trimmed_text (Examples.fetch_then "[]")
           (PaperServiceProxy.stage1_prompt "q") "gemini-2.5-pro" [] start
           (snd (PaperServiceProxy.callGeminiProxy (Examples.fetch_then "[]")
                   (PaperServiceProxy.stage1_prompt "q") "gemini-2.5-pro" [] start))
           "Paper A" eq_refl).
Defined.

(** X10.  When the proxy answers with a status outside 200 to 299, or
    cannot be reached, [callGeminiProxy] rejects with its one fixed error,
    without reading the body as JSON; the cause (the status and the text of
    the body, or the error of [fetch]) goes to the console only.  Both
    proxy clients. *)
Theorem X10_proxy_failure_is_logged_not_returned :
  (forall (fetch : Fetch) (prompt : GenAI.Prompt) (model : string)
          (cfg : list (string * json)) (w : World FetchRequest),
     let req := PaperServiceProxy.proxy_request prompt model cfg in
     (forall resp, fetch (calls w) req = Resolve resp -> ok resp = false ->
        PaperServiceProxy.callGeminiProxy fetch prompt model cfg w
          = (Reject (Error PaperServiceProxy.proxy_message),
             MkWorld (calls w ++ [req])
               (console w ++
                [Log "error" "Gemini proxy call failed:"
                   (ThrownArg (Error ("Proxy request failed (" ++ show (status resp)
                                      ++ "): " ++ body resp)))]))) /\
     (forall t, fetch (calls w) req = Reject t ->
        PaperServiceProxy.callGeminiProxy fetch prompt model cfg w
          = (Reject (Error PaperServiceProxy.proxy_message),
             MkWorld (calls w ++ [req])
               (console w ++ [Log "error" "Gemini proxy call failed:" (ThrownArg t)])))) /\
  (forall (fetch : Fetch) (prompt : GenAI.Prompt) (model : string)
          (w : World FetchRequest),
     let req := GeminiServiceProxy.proxy_request prompt model in
     (forall resp, fetch (calls w) req = Resolve resp -> ok resp = false ->
        GeminiServiceProxy.callGeminiProxy fetch prompt model w
          = (Reject (Error GeminiServiceProxy.proxy_message),
             MkWorld (calls w ++ [req])
               (console w ++
                [Log "error" "Error in Gemini proxy communication:"
                   (ThrownArg (Error ("Proxy request failed (Status "
                                      ++ show (status resp) ++ "): " ++ body resp)))]))) /\
     (forall t, fetch (calls w) req = Reject t ->
        GeminiServiceProxy.callGeminiProxy fetch prompt model w
          = (Reject (Error GeminiServiceProxy.proxy_message),
             MkWorld (calls w ++ [req])
               (console w ++
                [Log "error" "Error in Gemini proxy communication:" (ThrownArg t)])))).
Proof.
  split.
  - intros fetch prompt model cfg w req. split.
    + intros resp H Hok.
      unfold PaperServiceProxy.callGeminiProxy, PaperServiceProxy.callGeminiProxy_try.
      js_unfold. fold req. rewrite H. cbn [fst snd]. cbv beta iota zeta.
      rewrite Hok. reflexivity.
    + intros t H.
      unfold PaperServiceProxy.callGeminiProxy, PaperServiceProxy.callGeminiProxy_try.
      js_unfold. fold req. rewrite H. reflexivity.
  - intros fetch prompt model w req. split.
    + intros resp H Hok.
      unfold GeminiServiceProxy.callGeminiProxy, GeminiServiceProxy.callGeminiProxy_try.
      js_unfold. fold req. rewrite H. cbn [fst snd]. cbv beta iota zeta.
      rewrite Hok. reflexivity.
    + intros t H.
      unfold GeminiServiceProxy.callGeminiProxy, GeminiServiceProxy.callGeminiProxy_try.
      js_unfold. fold req. rewrite H. reflexivity.
Qed.

(** X10 through a proxy that answers with status 500 and the text [boom]. *)
Lemma X10_witness :
  PaperServiceProxy.callGeminiProxy Examples.fetch_500
    (PaperServiceProxy.stage1_prompt "q") "gemini-2.5-pro" [] start
    = (Reject (Error PaperServiceProxy.proxy_message),
       MkWorld [stage1_call "q"]
         [Log "error" "Gemini proxy call failed:"
            (ThrownArg (Error "Proxy request failed (500): boom"))]).
Proof.
  exact (proj1 (proj1 X10_proxy_failure_is_logged_not_returned Examples.fetch_500
                  (PaperServiceProxy.stage1_prompt "q") "gemini-2.5-pro" [] start)
           (MkResponse 500 "boom") eq_refl eq_refl).
Defined.

End ProxyClients.

(* ================================================================== *)
(** * More on the search pipelines *)

Section Pipelines.
Import Json Js GenAI Http Spec.

Lemma normalised_trimmed (resp : Response) (o : string) :
  normalised PaperServiceProxy.extract resp = Some o ->
  JsString.trim o = o /\ o <> "".
Proof.
  intros Hn. split.
  - unfold normalised in Hn.
    destruct (ok resp); [|discriminate].
    destruct (JSON_parse (Http.body resp)) as [data|]; [|discriminate].
    destruct (result (PaperServiceProxy.extract data)) as [o'|] eqn:E; [|discriminate].
    injection Hn as <-.
    destruct (PaperServiceProxy_extract_resolves _ _ E) as (s & _ & -> & _).
    apply trim_idempotent.
  - destruct (normalised_truthy _ _ Hn) as [Ht _]. intros ->. discriminate Ht.
Qed.

Lemma stage1_outcome_trimmed (a : outcome GenerateContentResponse) (raw : string) :
  stage1_outcome a = Resolve raw -> JsString.trim raw = raw.
Proof.
  unfold stage1_outcome. destruct a as [r|]; [|discriminate].
  destruct (block_of r) as [[? ?]|]; [discriminate|].
  intros [= <-]. unfold stage1_text.
  destruct (GenAI.text r); [apply trim_idempotent|reflexivity].
Qed.

Lemma sdk_pipeline_calls (first : GenerateContentParameters)
  (second : string -> GenerateContentParameters)
  (a : outcome GenerateContentResponse) :
  pipeline_calls first second
    match stage1_outcome a with
    | Resolve raw =>
        if JsString.truthy (JsString.trim raw) then [first; second raw] else [first]
    | Reject _ => [first]
    end.
Proof.
  destruct (stage1_outcome a) as [raw|t] eqn:E; [|now left].
  rewrite (stage1_outcome_trimmed _ _ E).
  destruct (JsString.truthy raw) eqn:Ht; [|now left].
  right. exists raw. split; [exact (stage1_outcome_trimmed _ _ E)|].
  split; [|reflexivity]. intros ->. discriminate Ht.
Qed.

(** What [getAi] does in every environment: it makes no call, and either
    returns the client of a non-empty key or throws the configuration
    error. *)
Lemma PaperService_getAi_cases (env : ProcessEnv)
  (w : World GenerateContentParameters) :
  (exists vars k, env = Some vars /\ getenv "API_KEY" vars = Some k /\
                  JsString.truthy k = true) \/
  (fst (PaperService.getAi env w) = Reject (Error PaperService.config_message) /\
   calls (snd (PaperService.getAi env w)) = calls w).
Proof.
  destruct env as [vars|]; [|right; split; reflexivity].
  destruct (getenv "API_KEY" vars) as [k|] eqn:Hk.
  - destruct (JsString.truthy k) eqn:Hk'; [left; eauto|].
    right. unfold PaperService.getAi. js_unfold. rewrite Hk. cbn [fst snd].
    rewrite Hk'. split; reflexivity.
  - right. unfold PaperService.getAi. js_unfold. rewrite Hk. split; reflexivity.
Qed.

(** X11.  One run of [searchPapers] never repeats a call: it makes the
    request of stage 1 and then at most the request of stage 2, which it
    makes only for a text that is trimmed and not empty.  In the revision
    with [getAi] a run that makes no call at all is one rejected with the
    configuration error.  The three revisions. *)
Theorem X11_search_never_repeats_a_call :
  (forall (gc : Gateway) (env : ProcessEnv) (query : string)
          (w : World GenerateContentParameters),
     exists l,
       calls (snd (PaperService.searchPapers gc env query w)) = (calls w ++ l)%list /\
       ((l = [] /\
         fst (PaperService.searchPapers gc env query w)
           = Reject (Error PaperService.config_message)) \/
        exists k, pipeline_calls (PaperService.stage1_request (MkClient k) query)
                    (PaperService.stage2_request (MkClient k)) l)) /\
  (forall (ai : GoogleGenAI) (gc : Gateway) (query : string)
          (w : World GenerateContentParameters),
     exists l,
       calls (snd (PaperServiceGlobal.searchPapers ai gc query w))
         = (calls w ++ l)%list /\
       pipeline_calls (PaperServiceGlobal.stage1_request ai query)
         (PaperServiceGlobal.stage2_request ai) l) /\
  (forall (fetch : Fetch) (query : string) (w : World FetchRequest),
     exists l,
       calls (snd (PaperServiceProxy.searchPapers fetch query w))
         = (calls w ++ l)%list /\
       pipeline_calls (stage1_call query) stage2_call l).
Proof.
  split; [|split].
  - intros gc env query w.
    destruct (PaperService_getAi_cases env w) as [(vars & k & -> & Hk & Hk')|[H1 H2]].
    + destruct (PaperService_search gc vars k query w Hk Hk') as [_ H].
      cbv zeta in H.
      eexists. split; [|right; exists k; apply sdk_pipeline_calls with (a := gc (calls w) (PaperService.stage1_request (MkClient k) query))].
      rewrite H.
      destruct (stage1_outcome _) as [raw|]; [|reflexivity].
      destruct (JsString.truthy (JsString.trim raw)); reflexivity.
    + exists []. rewrite app_nil_r.
      unfold PaperService.searchPapers, bind.
      destruct (PaperService.getAi env w) as [[c|t] w1]; cbn [fst snd] in *;
        [discriminate H1|].
      injection H1 as ->. split; [exact H2|]. left. now split.
  - intros ai gc query w.
    destruct (PaperServiceGlobal_search ai gc query w) as [_ H]. cbv zeta in H.
    eexists. split; [|apply sdk_pipeline_calls with (a := gc (calls w) (PaperServiceGlobal.stage1_request ai query))].
    rewrite H.
    destruct (stage1_outcome _) as [raw|]; [|reflexivity].
    destruct (JsString.truthy (JsString.trim raw)); reflexivity.
  - intros fetch query w.
    destruct (PaperServiceProxy_search fetch query w) as [_ H]. cbv zeta in H.
    rewrite H.
    destruct (settle _ _ _) as [raw|t] eqn:E.
    + apply settle_resolve in E as (resp & _ & Hn).
      destruct (normalised_trimmed _ _ Hn) as [Ht Hne].
      exists [stage1_call query; stage2_call raw]. split; [reflexivity|].
      right. exists raw. auto.
    + exists [stage1_call query]. split; [reflexivity|now left].
Qed.

(** X12.  A search succeeds when both replies are good: if the reply to
    stage 1 is not blocked and carries a text that is not blank, and the
    reply to the request of stage 2, made for that text trimmed, carries a
    text that parses, then [searchPapers] resolves with the parsed value
    after exactly these two calls.  Through the proxy the same holds for
    replies the normaliser accepts, the second one denoting an array. *)
Theorem X12_search_resolves_on_good_replies :
  (forall (gc : Gateway) (vars : list (string * string)) (k query t : string)
          (w : World GenerateContentParameters) (r1 r2 : GenerateContentResponse)
          (v : json),
     getenv "API_KEY" vars = Some k -> JsString.truthy k = true ->
     let req1 := PaperService.stage1_request (MkClient k) query in
     let req2 := PaperService.stage2_request (MkClient k) (JsString.trim t) in
     gc (calls w) req1 = Resolve r1 ->
     block_of r1 = None -> GenAI.text r1 = Some t ->
     JsString.truthy (JsString.trim t) = true ->
     gc (calls w ++ [req1])%list req2 = Resolve r2 ->
     parsed_text r2 = Some v ->
     fst (PaperService.searchPapers gc (Some vars) query w) = Resolve v /\
     calls (snd (PaperService.searchPapers gc (Some vars) query w))
       = (calls w ++ [req1; req2])%list) /\
  (forall (ai : GoogleGenAI) (gc : Gateway) (query t : string)
          (w : World GenerateContentParameters) (r1 r2 : GenerateContentResponse)
          (v : json),
     let req1 := PaperServiceGlobal.stage1_request ai query in
     let req2 := PaperServiceGlobal.stage2_request ai (JsString.trim t) in
     gc (calls w) req1 = Resolve r1 ->
     block_of r1 = None -> GenAI.text r1 = Some t ->
     JsString.truthy (JsString.trim t) = true ->
     gc (calls w ++ [req1])%list req2 = Resolve r2 ->
     parsed_text r2 = Some v ->
     fst (PaperServiceGlobal.searchPapers ai gc query w) = Resolve v /\
     calls (snd (PaperServiceGlobal.searchPapers ai gc query w))
       = (calls w ++ [req1; req2])%list) /\
  (forall (fetch : Fetch) (query raw : string) (w : World FetchRequest)
          (resp1 resp2 : Response) (papers : list json),
     fetch (calls w) (stage1_call query) = Resolve resp1 ->
     normalised PaperServiceProxy.extract resp1 = Some raw ->
     fetch (calls w ++ [stage1_call query])%list (stage2_call raw) = Resolve resp2 ->
     papers_in resp2 = Some papers ->
     fst (PaperServiceProxy.searchPapers fetch query w) = Resolve papers /\
     calls (snd (PaperServiceProxy.searchPapers fetch query w))
       = (calls w ++ [stage1_call query; stage2_call raw])%list).
Proof.
  split; [|split].
  - intros gc vars k query t w r1 r2 v Hk Hk' req1 req2 H1 Hb Ht Hne H2 Hv.
    destruct (PaperService_search gc vars k query w Hk Hk') as [A B].
    cbv zeta in A, B. fold req1 in A, B.
    rewrite H1 in A, B. unfold stage1_outcome, stage1_text in A, B.
    rewrite Hb, Ht, trim_idempotent, Hne in A, B. fold req2 in A, B.
    rewrite H2 in A. unfold settle in A. rewrite Hv in A. now split.
  - intros ai gc query t w r1 r2 v req1 req2 H1 Hb Ht Hne H2 Hv.
    destruct (PaperServiceGlobal_search ai gc query w) as [A B].
    cbv zeta in A, B. fold req1 in A, B.
    rewrite H1 in A, B. unfold stage1_outcome, stage1_text in A, B.
    rewrite Hb, Ht, trim_idempotent, Hne in A, B. fold req2 in A, B.
    rewrite H2 in A. unfold settle in A. rewrite Hv in A. now split.
  - intros fetch query raw w resp1 resp2 papers H1 Hn H2 Hp.
    destruct (PaperServiceProxy_search fetch query w) as [A B].
    cbv zeta in A, B. rewrite H1 in A, B. unfold settle in A, B.
    rewrite Hn in A, B. rewrite H2, Hp in A. now split.
Qed.

(** X12 for the module-level client, stage 1 answering [Paper A] and
    stage 2 the text of an array with one empty object. *)
Lemma X12_witness :
  fst (PaperServiceGlobal.searchPapers Examples.ai (Examples.gateway_then "[{}]")
         "q" start) = Resolve (JArr [JObj []]) /\
  calls (snd (PaperServiceGlobal.searchPapers Examples.ai
                (Examples.gateway_then "[{}]") "q" start))
    = [PaperServiceGlobal.stage1_request Examples.ai "q";
       PaperServiceGlobal.stage2_request Examples.ai "Paper A"].
Proof.
  exact (proj1 (proj2 X12_search_resolves_on_good_replies) Examples.ai
           (Examples.gateway_then "[{}]") "q" "Paper A" start (says "Paper A")
           (says "[{}]") (JArr [JObj []])
           eq_refl eq_refl eq_refl eq_refl eq_refl eq_refl).
Defined.

(** X13.  Where [process] is not defined, [getAi] catches the
    [ReferenceError], writes it to the console and throws its configuration
    error, which [searchPapers] passes on as it is; [getClient] has no
    [try] and lets the [ReferenceError] out, which each operation of
    [geminiService.ts] writes to the console and answers in its own way:
    [generateSuggestions] with the empty array, the others with their fixed
    error.  No call is made. *)
Theorem X13_process_not_defined :
  (forall (gc : Gateway) (query : string) (w : World GenerateContentParameters),
     PaperService.getAi None w
       = (Reject (Error PaperService.config_message),
          MkWorld (calls w)
            (console w ++ [Log "error" "Could not access process.env.API_KEY"
                             (ThrownArg ReferenceError_process)])) /\
     PaperService.searchPapers gc None query w
       = (Reject (Error PaperService.config_message),
          MkWorld (calls w)
            (console w ++ [Log "error" "Could not access process.env.API_KEY"
                             (ThrownArg ReferenceError_process)]))) /\
  (forall (gc : Gateway) (query : string) (papers : list Types.Paper)
          (paper : Types.Paper) (w : World GenerateContentParameters),
     GeminiService.getClient None w = (Reject ReferenceError_process, w) /\
     GeminiService.generateSuggestions gc None query w
       = (Resolve (JArr []),
          MkWorld (calls w)
            (console w ++ [Log "error" "Error generating suggestions:"
                             (ThrownArg ReferenceError_process)])) /\
     GeminiService.generateComparison gc None papers w
       = (Reject (Error GeminiService.comparison_message),
          MkWorld (calls w)
            (console w ++ [Log "error" "Error generating comparison:"
                             (ThrownArg ReferenceError_process)])) /\
     GeminiService.generateKnowledgeGraph gc None papers w
       = (Reject (Error GeminiService.graph_message),
          MkWorld (calls w)
            (console w ++ [Log "error" "Error generating knowledge graph:"
                             (ThrownArg ReferenceError_process)])) /\
     GeminiService.generateSinglePaperAnalysis gc None paper w
       = (Reject (Error GeminiService.analysis_message),
          MkWorld (calls w)
            (console w ++ [Log "error" "Error generating single paper analysis:"
                             (ThrownArg ReferenceError_process)]))).
Proof.
  split.
  - intros gc query w. split; reflexivity.
  - intros gc query papers paper w. repeat split.
Qed.

(** X15.  The list of categories in the safety error is never empty, and
    reads [N/A] when the response carries no ratings or none of them is
    blocked; the ratings that are not blocked leave no trace in it. *)
Theorem X15_blocked_categories :
  (forall ratings : option (list SafetyRating), blockedCategories ratings <> "") /\
  blockedCategories None = "N/A" /\
  (forall rs : list SafetyRating,
     (forall r, In r rs -> blocked r <> Some true) ->
     blockedCategories (Some rs) = "N/A") /\
  (forall rs : list SafetyRating,
     blockedCategories (Some rs)
       = blockedCategories
           (Some (filter (fun r => match blocked r with
                                   | Some b => b
                                   | None => false
                                   end) rs))).
Proof.
  split; [|split; [reflexivity|split]].
  - intros [rs|]; [|discriminate]. unfold blockedCategories. cbv zeta.
    destruct (JsString.join _ _) eqn:E; [discriminate|].
    cbn [JsString.truthy]. discriminate.
  - intros rs H. unfold blockedCategories.
    replace (filter _ rs) with (@nil SafetyRating); [reflexivity|].
    symmetry. induction rs as [|r rs IH]; [reflexivity|].
    cbn [filter]. destruct (blocked r) as [[|]|] eqn:E.
    + exfalso. exact (H r (or_introl eq_refl) E).
    + apply IH. intros r' Hr'. apply H. now right.
    + apply IH. intros r' Hr'. apply H. now right.
  - intros rs. unfold blockedCategories. f_equal.
    replace (filter _ (filter _ rs)) with
      (filter (fun r => match blocked r with Some b => b | None => false end) rs);
      [reflexivity|].
    induction rs as [|r rs IH]; [reflexivity|].
    cbn [filter]. destruct (blocked r) as [[|]|] eqn:E; [|exact IH|exact IH].
    cbn [filter]. rewrite E. now f_equal.
Qed.

(** X15 for the ratings of a response in which nothing is blocked. *)
Lemma X15_witness :
  blockedCategories
    (Some [MkRating (Some "HARM_CATEGORY_HARASSMENT") (Some false);
           MkRating (Some "HARM_CATEGORY_HATE_SPEECH") None]) = "N/A".
Proof.
  refine (proj1 (proj2 (proj2 X15_blocked_categories))
            [MkRating (Some "HARM_CATEGORY_HARASSMENT") (Some false);
             MkRating (Some "HARM_CATEGORY_HATE_SPEECH") None] _).
  intros r [<-|[<-|[]]]; discriminate.
Defined.

(** X16.  What a failed search leaves on the console.  The cause of a
    failure is written once, by the [catch] that is nearest to it; every
    [catch] further out writes the error it was handed.  When the call of
    stage 2 fails in the SDK revisions, the caller gets the fixed
    formatting error and the cause is on the console only.  When [fetch]
    fails in stage 1 of the proxy revision, three layers replace the error
    in turn and the caller gets the error of stage 1. *)
Theorem X16_console_of_a_failed_search :
  (forall (ai : GoogleGenAI) (gc : Gateway) (query t : string)
          (w : World GenerateContentParameters) (r1 : GenerateContentResponse)
          (e : thrown),
     let req1 := PaperServiceGlobal.stage1_request ai query in
     let req2 := PaperServiceGlobal.stage2_request ai (JsString.trim t) in
     gc (calls w) req1 = Resolve r1 ->
     block_of r1 = None -> GenAI.text r1 = Some t ->
     JsString.truthy (JsString.trim t) = true ->
     gc (calls w ++ [req1])%list req2 = Reject e ->
     PaperServiceGlobal.searchPapers ai gc query w
       = (Reject (Error PaperServiceGlobal.format_message),
          MkWorld (calls w ++ [req1; req2])
            (console w ++
             [Log "log" ("Starting two-stage search for: " ++ query) NoArg;
              Log "error" "Error in Stage 2 (formatPaperData):" (ThrownArg e);
              Log "error" "Error in the two-step paper search pipeline:"
                (ThrownArg (Error PaperServiceGlobal.format_message))]))) /\
  (forall (gc : Gateway) (vars : list (string * string)) (k query t : string)
          (w : World GenerateContentParameters) (r1 : GenerateContentResponse)
          (e : thrown),
     getenv "API_KEY" vars = Some k -> JsString.truthy k = true ->
     let req1 := PaperService.stage1_request (MkClient k) query in
     let req2 := PaperService.stage2_request (MkClient k) (JsString.trim t) in
     gc (calls w) req1 = Resolve r1 ->
     block_of r1 = None -> GenAI.text r1 = Some t ->
     JsString.truthy (JsString.trim t) = true ->
     gc (calls w ++ [req1])%list req2 = Reject e ->
     PaperService.searchPapers gc (Some vars) query w
       = (Reject (Error PaperService.format_message),
          MkWorld (calls w ++ [req1; req2])
            (console w ++
             [Log "log" ("Starting two-stage search for: " ++ query) NoArg;
              Log "error" "Error in Stage 2 (formatPaperData):" (ThrownArg e);
              Log "error" "Error in the two-step paper search pipeline:"
                (ThrownArg (Error PaperService.format_message))]))) /\
  (forall (fetch : Fetch) (query : string) (w : World FetchRequest) (e : thrown),
     fetch (calls w) (stage1_call query) = Reject e ->
     PaperServiceProxy.searchPapers fetch query w
       = (Reject (Error PaperServiceProxy.stage1_message),
          MkWorld (calls w ++ [stage1_call query])
            (console w ++
             [Log "log" ("🔍 Starting Gemini-powered paper search for: " ++ query) NoArg;
              Log "error" "Gemini proxy call failed:" (ThrownArg e);
              Log "error" "Error in Stage 1 (getRawPaperData):"
                (ThrownArg (Error PaperServiceProxy.proxy_message));
              Log "error" "❌ Paper search pipeline failed:"
                (ThrownArg (Error PaperServiceProxy.stage1_message))]))).
Proof.
  split; [|split].
  - intros ai gc query t w r1 e req1 req2 H1 Hb Ht Hne H2.
    unfold PaperServiceGlobal.searchPapers, PaperServiceGlobal.searchPapers_try,
      PaperServiceGlobal.getRawPaperData, PaperServiceGlobal.getRawPaperData_try,
      PaperServiceGlobal.formatPaperData, PaperServiceGlobal.formatPaperData_try.
    js_unfold. cbn [calls console fst snd]. fold req1. rewrite H1.
    cbv beta iota. rewrite Hb, Ht. cbn [option_map]. rewrite Hne.
    cbn [negb calls console fst snd]. rewrite trim_idempotent, Hne.
    cbn [negb calls console fst snd]. fold req2. rewrite H2.
    cbn [calls console fst snd instanceofError Error].
    now rewrite <- !app_assoc.
  - intros gc vars k query t w r1 e Hk Hk' req1 req2 H1 Hb Ht Hne H2.
    unfold PaperService.searchPapers. unfold bind at 1.
    rewrite (PaperService_getAi_ok vars k w Hk Hk').
    unfold PaperService.searchPapers_try,
      PaperService.getRawPaperData, PaperService.getRawPaperData_try,
      PaperService.formatPaperData, PaperService.formatPaperData_try.
    js_unfold. cbn [calls console fst snd]. fold req1. rewrite H1.
    cbv beta iota. rewrite Hb, Ht. cbn [option_map]. rewrite Hne.
    cbn [negb calls console fst snd]. rewrite trim_idempotent, Hne.
    cbn [negb calls console fst snd]. fold req2. rewrite H2.
    cbn [calls console fst snd instanceofError Error].
    now rewrite <- !app_assoc.
  - intros fetch query w e H.
    unfold PaperServiceProxy.searchPapers, PaperServiceProxy.searchPapers_try,
      PaperServiceProxy.getRawPaperData, PaperServiceProxy.getRawPaperData_try,
      PaperServiceProxy.callGeminiProxy, PaperServiceProxy.callGeminiProxy_try.
    js_unfold. cbn [calls console fst snd].
    fold (stage1_call query). unfold stage1_call in *.
    rewrite H. cbn [calls console fst snd instanceofError Error].
    now rewrite <- !app_assoc.
Qed.

(** X16 for the module-level client, the call of stage 2 failing with a
    network error. *)
Lemma X16_witness :
  PaperServiceGlobal.searchPapers Examples.ai Examples.gateway_stage2_down "q" start
    = (Reject (Error PaperServiceGlobal.format_message),
       MkWorld [PaperServiceGlobal.stage1_request Examples.ai "q";
                PaperServiceGlobal.stage2_request Examples.ai "Paper A"]
         [Log "log" "Starting two-stage search for: q" NoArg;
          Log "error" "Error in Stage 2 (formatPaperData):"
            (ThrownArg Examples.network_down);
          Log "error" "Error in the two-step paper search pipeline:"
            (ThrownArg (Error PaperServiceGlobal.format_message))]).
Proof.
  exact (proj1 X16_console_of_a_failed_search Examples.ai
           Examples.gateway_stage2_down "q" "Paper A" start (says "Paper A")
           Examples.network_down eq_refl eq_refl eq_refl eq_refl eq_refl).
Defined.

End Pipelines.

(* ================================================================== *)
(** * More on the transforms *)

Section TransformCalls.
Import Json Js GenAI Http Spec.

Ltac sdk_run Hk Hk' :=
  unfold GeminiService.generateSuggestions, GeminiService.generateSuggestions_try,
    GeminiService.generateComparison, GeminiService.generateComparison_try,
    GeminiService.generateKnowledgeGraph, GeminiService.generateKnowledgeGraph_try,
    GeminiService.generateSinglePaperAnalysis,
    GeminiService.generateSinglePaperAnalysis_try,
    GeminiService.getClient, settle, parsed_text,
    suggestions_request, comparison_request, graph_request, analysis_request;
  js_unfold; cbn [fst snd]; rewrite Hk; cbn [fst snd]; rewrite Hk'; cbn [fst snd negb];
  match goal with
  | |- context [match ?gc (calls ?w) ?req with _ => _ end] =>
      destruct (gc (calls w) req) as [r|t]; simpl; [|auto];
      destruct (GenAI.text r) as [s|]; simpl; [|auto];
      destruct (JSON_parse (JsString.trim s)); simpl; auto
  end.

(** The SDK transforms from any world, the key being set. *)
Lemma GeminiService_transforms (gc : Gateway) (vars : list (string * string))
  (k : string) (w : World GenerateContentParameters) :
  getenv "GEMINI_API_KEY" vars = Some k -> JsString.truthy k = true ->
  (forall query,
     fst (GeminiService.generateSuggestions gc (Some vars) query w)
       = match settle (gc (calls w) (suggestions_request k query)) parsed_text
                 (Error "") with
         | Resolve v => Resolve v
         | Reject _ => Resolve (JArr [])
         end /\
     calls (snd (GeminiService.generateSuggestions gc (Some vars) query w))
       = (calls w ++ [suggestions_request k query])%list) /\
  (forall papers,
     fst (GeminiService.generateComparison gc (Some vars) papers w)
       = settle (gc (calls w) (comparison_request k papers)) parsed_text
           (Error GeminiService.comparison_message) /\
     calls (snd (GeminiService.generateComparison gc (Some vars) papers w))
       = (calls w ++ [comparison_request k papers])%list) /\
  (forall papers,
     fst (GeminiService.generateKnowledgeGraph gc (Some vars) papers w)
       = settle (gc (calls w) (graph_request k papers)) parsed_text
           (Error GeminiService.graph_message) /\
     calls (snd (GeminiService.generateKnowledgeGraph gc (Some vars) papers w))
       = (calls w ++ [graph_request k papers])%list) /\
  (forall paper,
     fst (GeminiService.generateSinglePaperAnalysis gc (Some vars) paper w)
       = settle (gc (calls w) (analysis_request k paper)) parsed_text
           (Error GeminiService.analysis_message) /\
     calls (snd (GeminiService.generateSinglePaperAnalysis gc (Some vars) paper w))
       = (calls w ++ [analysis_request k paper])%list).
Proof.
  intros Hk Hk'. split; [|split; [|split]]; intros; sdk_run Hk Hk'.
Qed.

Ltac proxy_run :=
  unfold GeminiServiceProxy.generateSuggestions, GeminiServiceProxy.generateSuggestions_try,
    GeminiServiceProxy.generateComparison, GeminiServiceProxy.generateComparison_try,
    GeminiServiceProxy.generateKnowledgeGraph,
    GeminiServiceProxy.generateKnowledgeGraph_try,
    GeminiServiceProxy.generateSinglePaperAnalysis,
    GeminiServiceProxy.generateSinglePaperAnalysis_try,
    suggestions_call, comparison_call, graph_call, analysis_call,
    try_catch, bind, ret, throw, console_write, parse;
  match goal with
  | |- context [GeminiServiceProxy.callGeminiProxy ?fetch ?p ?m ?w] =>
      destruct (GeminiServiceProxy_call fetch p m w) as [H H'];
      destruct (GeminiServiceProxy.callGeminiProxy fetch p m w) as [[o|t] w1];
      cbn [fst snd] in H, H'; cbv zeta in H, H';
      unfold settle, parsed_reply in *;
      match goal with
      | |- context [match fetch (calls w) ?req with _ => _ end] =>
          destruct (fetch (calls w) req) as [resp|];
          [destruct (normalised GeminiServiceProxy.extract resp) as [o'|]|];
          try discriminate; try (injection H as <-);
          cbn [fst snd calls];
          try (destruct (JSON_parse o)); cbn [fst snd calls]; auto
      end
  end.

(** The proxy transforms from any world. *)
Lemma GeminiServiceProxy_transforms (fetch : Fetch) (w : World FetchRequest) :
  (forall query,
     fst (GeminiServiceProxy.generateSuggestions fetch query w)
       = match settle (fetch (calls w) (suggestions_call query)) parsed_reply
                 (Error "") with
         | Resolve v => Resolve v
         | Reject _ => Resolve (JArr [])
         end /\
     calls (snd (GeminiServiceProxy.generateSuggestions fetch query w))
       = (calls w ++ [suggestions_call query])%list) /\
  (forall papers,
     fst (GeminiServiceProxy.generateComparison fetch papers w)
       = settle (fetch (calls w) (comparison_call papers)) parsed_reply
           (Error GeminiServiceProxy.comparison_message) /\
     calls (snd (GeminiServiceProxy.generateComparison fetch papers w))
       = (calls w ++ [comparison_call papers])%list) /\
  (forall papers,
     fst (GeminiServiceProxy.generateKnowledgeGraph fetch papers w)
       = settle (fetch (calls w) (graph_call papers)) parsed_reply
           (Error GeminiServiceProxy.graph_message) /\
     calls (snd (GeminiServiceProxy.generateKnowledgeGraph fetch papers w))
       = (calls w ++ [graph_call papers])%list) /\
  (forall paper,
     fst (GeminiServiceProxy.generateSinglePaperAnalysis fetch paper w)
       = settle (fetch (calls w) (analysis_call paper)) parsed_reply
           (Error GeminiServiceProxy.analysis_message) /\
     calls (snd (GeminiServiceProxy.generateSinglePaperAnalysis fetch paper w))
       = (calls w ++ [analysis_call paper])%list).
Proof.
  split; [|split; [|split]]; intros; proxy_run.
Qed.

(** X14.  Each operation of [geminiService.ts] makes exactly one call
    whatever the reply is (through the SDK once the key is set, through the
    proxy always), and resolves with the value parsed from a reply whose
    text parses. *)
Theorem X14_transforms_call_once :
  (forall (gc : Gateway) (vars : list (string * string)) (k query : string)
          (papers : list Types.Paper) (paper : Types.Paper)
          (w : World GenerateContentParameters),
     getenv "GEMINI_API_KEY" vars = Some k -> JsString.truthy k = true ->
     calls (snd (GeminiService.generateSuggestions gc (Some vars) query w))
       = (calls w ++ [suggestions_request k query])%list /\
     calls (snd (GeminiService.generateComparison gc (Some vars) papers w))
       = (calls w ++ [comparison_request k papers])%list /\
     calls (snd (GeminiService.generateKnowledgeGraph gc (Some vars) papers w))
       = (calls w ++ [graph_request k papers])%list /\
     calls (snd (GeminiService.generateSinglePaperAnalysis gc (Some vars) paper w))
       = (calls w ++ [analysis_request k paper])%list) /\
  (forall (fetch : Fetch) (query : string) (papers : list Types.Paper)
          (paper : Types.Paper) (w : World FetchRequest),
     calls (snd (GeminiServiceProxy.generateSuggestions fetch query w))
       = (calls w ++ [suggestions_call query])%list /\
     calls (snd (GeminiServiceProxy.generateComparison fetch papers w))
       = (calls w ++ [comparison_call papers])%list /\
     calls (snd (GeminiServiceProxy.generateKnowledgeGraph fetch papers w))
       = (calls w ++ [graph_call papers])%list /\
     calls (snd (GeminiServiceProxy.generateSinglePaperAnalysis fetch paper w))
       = (calls w ++ [analysis_call paper])%list) /\
  (forall (gc : Gateway) (vars : list (string * string)) (k query : string)
          (papers : list Types.Paper) (paper : Types.Paper)
          (w : World GenerateContentParameters) (r : GenerateContentResponse)
          (v : json),
     getenv "GEMINI_API_KEY" vars = Some k -> JsString.truthy k = true ->
     parsed_text r = Some v ->
     (gc (calls w) (suggestions_request k query) = Resolve r ->
      fst (GeminiService.generateSuggestions gc (Some vars) query w) = Resolve v) /\
     (gc (calls w) (comparison_request k papers) = Resolve r ->
      fst (GeminiService.generateComparison gc (Some vars) papers w) = Resolve v) /\
     (gc (calls w) (graph_request k papers) = Resolve r ->
      fst (GeminiService.generateKnowledgeGraph gc (Some vars) papers w) = Resolve v) /\
     (gc (calls w) (analysis_request k paper) = Resolve r ->
      fst (GeminiService.generateSinglePaperAnalysis gc (Some vars) paper w)
        = Resolve v)) /\
  (forall (fetch : Fetch) (query : string) (papers : list Types.Paper)
          (paper : Types.Paper) (w : World FetchRequest) (resp : Response)
          (v : json),
     parsed_reply resp = Some v ->
     (fetch (calls w) (suggestions_call query) = Resolve resp ->
      fst (GeminiServiceProxy.generateSuggestions fetch query w) = Resolve v) /\
     (fetch (calls w) (comparison_call papers) = Resolve resp ->
      fst (GeminiServiceProxy.generateComparison fetch papers w) = Resolve v) /\
     (fetch (calls w) (graph_call papers) = Resolve resp ->
      fst (GeminiServiceProxy.generateKnowledgeGraph fetch papers w) = Resolve v) /\
     (fetch (calls w) (analysis_call paper) = Resolve resp ->
      fst (GeminiServiceProxy.generateSinglePaperAnalysis fetch paper w)
        = Resolve v)).
Proof.
  split; [|split; [|split]].
  - intros gc vars k query papers paper w Hk Hk'.
    destruct (GeminiService_transforms gc vars k w Hk Hk') as (A & B & C & D).
    split; [apply A|split; [apply B|split; [apply C|apply D]]].
  - intros fetch query papers paper w.
    destruct (GeminiServiceProxy_transforms fetch w) as (A & B & C & D).
    split; [apply A|split; [apply B|split; [apply C|apply D]]].
  - intros gc vars k query papers paper w r v Hk Hk' Hv.
    destruct (GeminiService_transforms gc vars k w Hk Hk') as (A & B & C & D).
    split; [|split; [|split]]; intros H.
    + rewrite (proj1 (A query)), H. unfold settle. now rewrite Hv.
    + rewrite (proj1 (B papers)), H. unfold settle. now rewrite Hv.
    + rewrite (proj1 (C papers)), H. unfold settle. now rewrite Hv.
    + rewrite (proj1 (D paper)), H. unfold settle. now rewrite Hv.
  - intros fetch query papers paper w resp v Hv.
    destruct (GeminiServiceProxy_transforms fetch w) as (A & B & C & D).
    split; [|split; [|split]]; intros H.
    + rewrite (proj1 (A query)), H. unfold settle. now rewrite Hv.
    + rewrite (proj1 (B papers)), H. unfold settle. now rewrite Hv.
    + rewrite (proj1 (C papers)), H. unfold settle. now rewrite Hv.
    + rewrite (proj1 (D paper)), H. unfold settle. now rewrite Hv.
Qed.

(** X14 for the analysis of one paper, the gateway answering with the text
    of an empty object. *)
Lemma X14_witness :
  fst (GeminiService.generateSinglePaperAnalysis Examples.gateway_object
         Examples.env Examples.paper start) = Resolve (JObj []).
Proof.
  exact (proj2 (proj2 (proj2
           (proj1 (proj2 (proj2 X14_transforms_call_once))
              Examples.gateway_object
              [("API_KEY", "secret"); ("GEMINI_API_KEY", "secret")] "secret" "q"
              [Examples.paper] Examples.paper start (says "{}") (JObj [])
              eq_refl eq_refl eq_refl)))
           eq_refl).
Defined.

End TransformCalls.
